(** * Amcache Registry plugins (plaso/parsers/winreg_plugins/amcache.py)

    A shallow embedding of the two Amcache Windows Registry plugins,
    [Amcache10Parser] and [Amcache8Parser], together with the Python
    primitives their bodies rely on (string formatting, [int], string
    joining, slicing, [strptime]).

    Conventions of the embedding:
    - a Python exception is a value of [PyError]; a computation that may
      raise has type [Outcome A];
    - the parser mediator is the list of (event, event data) pairs that
      [ProduceEventWithEventData] has stored so far, oldest first; an event
      whose time stamp is not set or out of bounds is refused with
      InvalidEvent;
    - a [for] loop over the values of a key is [for_each], which stops at
      the first exception, as the Python loop does;
    - string formatting follows Python 3: ['{:s}'.format] accepts only
      [str], ['{:d}'.format] accepts only [int];
    - a string is a sequence of code points below 256;
    - the time zone of the process, which [strftime('%s')] reads, is a
      parameter of the Windows 10 plugin ([mktime]); [timegm] is its
      instance for UTC. *)

From Stdlib Require Import ZArith List String Ascii Bool Lia DecimalString.
From Stdlib Require Import DecimalZ DecimalPos DecimalFacts Permutation.
Import ListNotations.

Local Open Scope string_scope.
Local Open Scope list_scope.
Local Open Scope Z_scope.

(** ** Exceptions *)

Inductive PyError : Type :=
| ValueError
| TypeError
| InvalidEvent.

Inductive Outcome (A : Type) : Type :=
| Returned (a : A)
| Raised (e : PyError).

Arguments Returned {A} a.
Arguments Raised {A} e.

Definition bind {A B : Type} (m : Outcome A) (k : A -> Outcome B) : Outcome B :=
  match m with
  | Returned a => k a
  | Raised e => Raised e
  end.

Notation "x <- m ;; k" := (bind m (fun x => k))
  (at level 61, m at next level, right associativity).

(** [try: m  except ValueError: h] *)
Definition try_except_ValueError {A : Type} (m h : Outcome A) : Outcome A :=
  match m with
  | Raised ValueError => h
  | other => other
  end.

(** [for x in xs: st = body(st, x)], leaving the loop at the first
    exception. *)
Fixpoint for_each {S X : Type} (body : S -> X -> Outcome S)
    (xs : list X) (st : S) : Outcome S :=
  match xs with
  | [] => Returned st
  | x :: rest =>
      match body st x with
      | Returned st' => for_each body rest st'
      | Raised e => Raised e
      end
  end.

(** ** Registry keys and values (dfwinreg) *)

(** What [WinRegistryValue.GetDataAsObject()] returns. *)
Inductive RawData : Type :=
| DInt (n : Z)
| DStr (s : string)
| DList (l : list string)
| DNone.

Record WinRegistryValue : Type := mkValue {
  name : string;
  GetDataAsObject : RawData
}.

(** dfdatetime date and time values.  The constructors [Filetime(timestamp)]
    and [PosixTime(timestamp)] take any integer; the range of a FILETIME is
    checked when its time stamp is asked for. *)
Inductive DateTimeValues : Type :=
| Filetime (timestamp : Z)
| PosixTime (timestamp : Z).

Definition UINT64_MAX : Z := 2 ^ 64 - 1.

(** The seconds between 1601-01-01 and 1970-01-01. *)
Definition FILETIME_TO_POSIX_BASE : Z := 11644473600.

(** [date_time.GetPlasoTimestamp()]: the micro seconds since 1970-01-01, or
    None for a FILETIME that is no unsigned 64-bit integer.  The tenth of a
    micro second of a FILETIME is dropped here; however it is rounded, the
    time stamp of a FILETIME in range stays within the bounds the mediator
    checks. *)
Definition GetPlasoTimestamp (date_time : DateTimeValues) : option Z :=
  match date_time with
  | Filetime t =>
      if (t <? 0) || (UINT64_MAX <? t) then None
      else Some (t / 10 - FILETIME_TO_POSIX_BASE * 1000000)
  | PosixTime t => Some (t * 1000000)
  end.

Record WinRegistryKey : Type := mkKey {
  path : string;
  last_written_time : DateTimeValues;
  GetValues : list WinRegistryValue
}.

Definition number_of_values (k : WinRegistryKey) : nat :=
  List.length (GetValues k).

(** ** Python string primitives *)

Definition chars (s : string) : list ascii := list_ascii_of_string s.

(** ['{:s}'.format(obj)]: the format code [s] exists for [str] only; an
    [int] raises ValueError, a list or None raises TypeError. *)
Definition format_s (obj : RawData) : Outcome string :=
  match obj with
  | DStr s => Returned s
  | DInt _ => Raised ValueError
  | DList _ => Raised TypeError
  | DNone => Raised TypeError
  end.

Definition LF : string := String (ascii_of_nat 10) EmptyString.

(** ['\n'.join(obj)]: a list of strings is joined in order; a string is an
    iterable of its characters; an [int] or None is not iterable. *)
Definition join_LF (obj : RawData) : Outcome string :=
  match obj with
  | DList l => Returned (String.concat LF l)
  | DStr s =>
      Returned (String.concat LF (map (fun c => String c EmptyString) (chars s)))
  | DInt _ => Raised TypeError
  | DNone => Raised TypeError
  end.

(** [s[n:]] *)
Fixpoint slice_from (n : nat) (s : string) : string :=
  match n, s with
  | O, _ => s
  | S _, EmptyString => EmptyString
  | S n', String _ s' => slice_from n' s'
  end.

(** [s.startswith(p)] *)
Definition startswith (s p : string) : bool := String.prefix p s.

(** ** [int(text, base)]

    Characters are code points below 256.  [int] skips surrounding white
    space, reads an optional sign, for base 16 an optional [0x] prefix,
    and then digits of the base, between which single underscores may
    stand. *)

(** The white space [int] skips.  The text is first brought to ASCII: a
    code point above 126 that is white space (here U+0085 and U+00A0)
    becomes a blank, the code points below stay as they are; the parser
    then skips what C's [isspace] accepts: tab to carriage return, and
    blank.  The separators U+001C to U+001F are not skipped. *)
Definition is_int_space (c : ascii) : bool :=
  let n := nat_of_ascii c in
  ((9 <=? n) && (n <=? 13) || (n =? 32) || (n =? 133) || (n =? 160))%nat.

Definition in_range (lo hi c : ascii) : bool :=
  ((nat_of_ascii lo <=? nat_of_ascii c)
   && (nat_of_ascii c <=? nat_of_ascii hi))%nat.

Definition digit_value (c : ascii) : option Z :=
  if in_range "0" "9" c then Some (Z.of_nat (nat_of_ascii c) - 48)
  else if in_range "a" "z" c then Some (Z.of_nat (nat_of_ascii c) - 87)
  else if in_range "A" "Z" c then Some (Z.of_nat (nat_of_ascii c) - 55)
  else None.

Fixpoint lstrip (cs : list ascii) : list ascii :=
  match cs with
  | c :: rest => if is_int_space c then lstrip rest else cs
  | [] => []
  end.

(** The digit loop: [acc] is the value read so far, [count] the number of
    digits read, [prev_underscore] whether the previous character was an
    underscore.  [None] is a misplaced underscore. *)
Fixpoint scan_digits (base : Z) (prev_underscore : bool) (acc : Z)
    (count : nat) (cs : list ascii) : option (Z * nat * list ascii) :=
  let stop :=
    if prev_underscore then None else Some (acc, count, cs) in
  match cs with
  | [] => stop
  | c :: rest =>
      if Ascii.eqb c "_" then
        if prev_underscore then None
        else scan_digits base true acc count rest
      else
        match digit_value c with
        | Some d =>
            if d <? base
            then scan_digits base false (acc * base + d) (S count) rest
            else stop
        | None => stop
        end
  end.

Definition strip_sign (cs : list ascii) : bool * list ascii :=
  match cs with
  | "+"%char :: rest => (false, rest)
  | "-"%char :: rest => (true, rest)
  | _ => (false, cs)
  end.

Definition strip_0x (cs : list ascii) : list ascii :=
  match cs with
  | "0"%char :: x :: rest =>
      if Ascii.eqb x "x" || Ascii.eqb x "X" then
        match rest with
        | "_"%char :: rest' => rest'
        | _ => rest
        end
      else cs
  | _ => cs
  end.

Definition py_int (text : string) (base : Z) : Outcome Z :=
  let (negative, cs) := strip_sign (lstrip (chars text)) in
  let cs := if base =? 16 then strip_0x cs else cs in
  match cs with
  | "_"%char :: _ => Raised ValueError
  | _ =>
      match scan_digits base false 0 0 cs with
      | None => Raised ValueError
      | Some (v, count, rest) =>
          match count, lstrip rest with
          | S _, [] => Returned (if negative then - v else v)
          | _, _ => Raised ValueError
          end
      end
  end.

(** The decimal rendering of an integer, as [str(n)] and ['{:d}'] give it. *)
Definition decimal_text (n : Z) : string :=
  DecimalString.NilZero.string_of_int (Z.to_int n).

(** ['{:d}'.format(obj)]: the format code [d] exists for [int] only; a
    [str] raises ValueError, a list or None raises TypeError. *)
Definition format_d (obj : RawData) : Outcome string :=
  match obj with
  | DInt n => Returned (decimal_text n)
  | DStr _ => Raised ValueError
  | DList _ => Raised TypeError
  | DNone => Raised TypeError
  end.

(** [int('{:d}'.format(obj))] *)
Definition int_format_d (obj : RawData) : Outcome Z :=
  text <- format_d obj ;; py_int text 10.


(** ** [datetime.datetime.strptime(text, '%m/%d/%Y %H:%M:%S')]

    The format is compiled to a regular expression, directive by
    directive, and matched from the start of the text by backtracking:
    alternatives are tried in the order written, and the first complete
    match is kept.  A matcher lists its matches, preferred first, each
    with the text left over. *)

Definition Matcher (A : Type) : Type := list ascii -> list (A * list ascii).

(** [\s] in a pattern that is a [str]: the white space of [str.isspace],
    which counts the separators U+001C to U+001F in. *)
Definition is_space (c : ascii) : bool :=
  let n := nat_of_ascii c in
  ((9 <=? n) && (n <=? 13) || (28 <=? n) && (n <=? 32)
   || (n =? 133) || (n =? 160))%nat.

Definition cls (p : ascii -> bool) : Matcher (list ascii) :=
  fun cs =>
    match cs with
    | c :: rest => if p c then [([c], rest)] else []
    | [] => []
    end.

Definition lit (c : ascii) : Matcher (list ascii) := cls (Ascii.eqb c).

Definition digit : Matcher (list ascii) := cls (in_range "0" "9").

Definition cat (m1 m2 : Matcher (list ascii)) : Matcher (list ascii) :=
  fun cs =>
    flat_map
      (fun '(a, rest) => map (fun '(b, rest') => (a ++ b, rest')) (m2 rest))
      (m1 cs).

Definition alt {A : Type} (ms : list (Matcher A)) : Matcher A :=
  fun cs => flat_map (fun m => m cs) ms.

(** [\s+], greedy: the longest run of white space first. *)
Fixpoint spaces (cs : list ascii) : list (list ascii * list ascii) :=
  match cs with
  | c :: rest =>
      if is_space c
      then map (fun '(a, rest') => (c :: a, rest')) (spaces rest) ++ [([c], rest)]
      else []
  | [] => []
  end.

Definition then_ {A B : Type} (m : Matcher A) (k : A -> Matcher B) : Matcher B :=
  fun cs => flat_map (fun '(a, rest) => k a rest) (m cs).

Definition found {A : Type} (a : A) : Matcher A := fun cs => [(a, cs)].

(** [%m]: (1[0-2]|0[1-9]|[1-9]) *)
Definition re_m : Matcher (list ascii) :=
  alt [cat (lit "1") (cls (in_range "0" "2"));
       cat (lit "0") (cls (in_range "1" "9"));
       cls (in_range "1" "9")].

(** [%d]: (3[0-1]|[1-2]\d|0[1-9]|[1-9]| [1-9]) *)
Definition re_d : Matcher (list ascii) :=
  alt [cat (lit "3") (cls (in_range "0" "1"));
       cat (cls (in_range "1" "2")) digit;
       cat (lit "0") (cls (in_range "1" "9"));
       cls (in_range "1" "9");
       cat (lit " ") (cls (in_range "1" "9"))].

(** [%Y]: (\d\d\d\d) *)
Definition re_Y : Matcher (list ascii) :=
  cat digit (cat digit (cat digit digit)).

(** [%H]: (2[0-3]|[0-1]\d|\d) *)
Definition re_H : Matcher (list ascii) :=
  alt [cat (lit "2") (cls (in_range "0" "3"));
       cat (cls (in_range "0" "1")) digit;
       digit].

(** [%M]: ([0-5]\d|\d) *)
Definition re_M : Matcher (list ascii) :=
  alt [cat (cls (in_range "0" "5")) digit; digit].

(** [%S]: (6[0-1]|[0-5]\d|\d) *)
Definition re_S : Matcher (list ascii) :=
  alt [cat (lit "6") (cls (in_range "0" "1"));
       cat (cls (in_range "0" "5")) digit;
       digit].

(** [int(found_dict[...])] on the text of a group. *)
Definition group_int (cs : list ascii) : Z :=
  match py_int (string_of_list_ascii cs) 10 with
  | Returned n => n
  | Raised _ => 0
  end.

Record datetime : Type := mkDatetime {
  year : Z;
  month : Z;
  day : Z;
  hour : Z;
  minute : Z;
  second : Z
}.

Definition format_regex : Matcher datetime :=
  then_ re_m (fun m =>
  then_ (lit "/") (fun _ =>
  then_ re_d (fun d =>
  then_ (lit "/") (fun _ =>
  then_ re_Y (fun Y =>
  then_ spaces (fun _ =>
  then_ re_H (fun H =>
  then_ (lit ":") (fun _ =>
  then_ re_M (fun M =>
  then_ (lit ":") (fun _ =>
  then_ re_S (fun S =>
  found (mkDatetime (group_int Y) (group_int m) (group_int d)
                    (group_int H) (group_int M) (group_int S))))))))))))).

Definition is_leap (y : Z) : bool :=
  (y mod 4 =? 0) && (negb (y mod 100 =? 0) || (y mod 400 =? 0)).

Definition days_in_month (y m : Z) : Z :=
  if m =? 2 then (if is_leap y then 29 else 28)
  else if (m =? 4) || (m =? 6) || (m =? 9) || (m =? 11) then 30
  else 31.

(** The range checks of the [datetime] constructor. *)
Definition valid_datetime (t : datetime) : bool :=
  (1 <=? year t) && (year t <=? 9999)
  && (1 <=? month t) && (month t <=? 12)
  && (1 <=? day t) && (day t <=? days_in_month (year t) (month t))
  && (0 <=? hour t) && (hour t <=? 23)
  && (0 <=? minute t) && (minute t <=? 59)
  && (0 <=? second t) && (second t <=? 59).

(** ValueError when the text does not match the format, when text is left
    over after the match, and when the fields are no date and time. *)
Definition strptime (text : string) : Outcome datetime :=
  match format_regex (chars text) with
  | [] => Raised ValueError
  | (t, []) :: _ => if valid_datetime t then Returned t else Raised ValueError
  | (_, _ :: _) :: _ => Raised ValueError
  end.

(** Seconds since 1970-01-01 of a date and time read as UTC. *)
Definition days_from_civil (y m d : Z) : Z :=
  let y' := if m <=? 2 then y - 1 else y in
  let era := y' / 400 in
  let yoe := y' - era * 400 in
  let doy := (153 * ((m + 9) mod 12) + 2) / 5 + d - 1 in
  let doe := yoe * 365 + yoe / 4 - yoe / 100 + doy in
  era * 146097 + doe - 719468.

Definition timegm (t : datetime) : Z :=
  days_from_civil (year t) (month t) (day t) * 86400
  + hour t * 3600 + minute t * 60 + second t.

(** ** Event data and events *)

(** An attribute that holds an [int] or a [str]. *)
Inductive IntOrStr : Type :=
| AnInt (n : Z)
| AStr (s : string).

(** Amcache event data ([windows:registry:amcache]).  [set_x v d] is the
    assignment [d.x = v]. *)
Module AmcacheEventData.

Record t : Type := mk {
  full_path : option string;
  sha1 : option string;
  productname : option string;
  companyname : option string;
  fileversion : option string;
  languagecode : option Z;
  filesize : option Z;
  filedescription : option string;
  linkerts : option Z;
  lastmodifiedts : option Z;
  createdts : option Z;
  programid : option string
}.

(** [__init__]: every attribute is None. *)
Definition init : t :=
  mk None None None None None None None None None None None None.

Definition set_full_path (v : string) (d : t) : t :=
  mk (Some v) (sha1 d) (productname d) (companyname d) (fileversion d)
    (languagecode d) (filesize d) (filedescription d) (linkerts d)
    (lastmodifiedts d) (createdts d) (programid d).

Definition set_sha1 (v : string) (d : t) : t :=
  mk (full_path d) (Some v) (productname d) (companyname d) (fileversion d)
    (languagecode d) (filesize d) (filedescription d) (linkerts d)
    (lastmodifiedts d) (createdts d) (programid d).

Definition set_productname (v : string) (d : t) : t :=
  mk (full_path d) (sha1 d) (Some v) (companyname d) (fileversion d)
    (languagecode d) (filesize d) (filedescription d) (linkerts d)
    (lastmodifiedts d) (createdts d) (programid d).

Definition set_companyname (v : string) (d : t) : t :=
  mk (full_path d) (sha1 d) (productname d) (Some v) (fileversion d)
    (languagecode d) (filesize d) (filedescription d) (linkerts d)
    (lastmodifiedts d) (createdts d) (programid d).

Definition set_fileversion (v : string) (d : t) : t :=
  mk (full_path d) (sha1 d) (productname d) (companyname d) (Some v)
    (languagecode d) (filesize d) (filedescription d) (linkerts d)
    (lastmodifiedts d) (createdts d) (programid d).

Definition set_languagecode (v : Z) (d : t) : t :=
  mk (full_path d) (sha1 d) (productname d) (companyname d) (fileversion d)
    (Some v) (filesize d) (filedescription d) (linkerts d)
    (lastmodifiedts d) (createdts d) (programid d).

Definition set_filesize (v : Z) (d : t) : t :=
  mk (full_path d) (sha1 d) (productname d) (companyname d) (fileversion d)
    (languagecode d) (Some v) (filedescription d) (linkerts d)
    (lastmodifiedts d) (createdts d) (programid d).

Definition set_filedescription (v : string) (d : t) : t :=
  mk (full_path d) (sha1 d) (productname d) (companyname d) (fileversion d)
    (languagecode d) (filesize d) (Some v) (linkerts d) (lastmodifiedts d)
    (createdts d) (programid d).

Definition set_linkerts (v : Z) (d : t) : t :=
  mk (full_path d) (sha1 d) (productname d) (companyname d) (fileversion d)
    (languagecode d) (filesize d) (filedescription d) (Some v)
    (lastmodifiedts d) (createdts d) (programid d).

Definition set_lastmodifiedts (v : Z) (d : t) : t :=
  mk (full_path d) (sha1 d) (productname d) (companyname d) (fileversion d)
    (languagecode d) (filesize d) (filedescription d) (linkerts d) (Some v)
    (createdts d) (programid d).

Definition set_createdts (v : Z) (d : t) : t :=
  mk (full_path d) (sha1 d) (productname d) (companyname d) (fileversion d)
    (languagecode d) (filesize d) (filedescription d) (linkerts d)
    (lastmodifiedts d) (Some v) (programid d).

Definition set_programid (v : string) (d : t) : t :=
  mk (full_path d) (sha1 d) (productname d) (companyname d) (fileversion d)
    (languagecode d) (filesize d) (filedescription d) (linkerts d)
    (lastmodifiedts d) (createdts d) (Some v).

End AmcacheEventData.

(** Amcache programs event data ([windows:registry:amcache:programs]). *)
Module AmcacheProgramEventData.

Record t : Type := mk {
  name : option string;
  version : option string;
  publisher : option string;
  languagecode : option IntOrStr;
  entrytype : option string;
  uninstallkey : option string;
  filepaths : option string;
  productcode : option string;
  packagecode : option string;
  msiproductcode : option string;
  msipackagecode : option string;
  files : option string;
  OSatinstall : option string
}.

(** [__init__]: every attribute is None. *)
Definition init : t :=
  mk None None None None None None None None None None None None None.

Definition set_name (v : string) (d : t) : t :=
  mk (Some v) (version d) (publisher d) (languagecode d) (entrytype d)
    (uninstallkey d) (filepaths d) (productcode d) (packagecode d)
    (msiproductcode d) (msipackagecode d) (files d) (OSatinstall d).

Definition set_version (v : string) (d : t) : t :=
  mk (name d) (Some v) (publisher d) (languagecode d) (entrytype d)
    (uninstallkey d) (filepaths d) (productcode d) (packagecode d)
    (msiproductcode d) (msipackagecode d) (files d) (OSatinstall d).

Definition set_publisher (v : string) (d : t) : t :=
  mk (name d) (version d) (Some v) (languagecode d) (entrytype d)
    (uninstallkey d) (filepaths d) (productcode d) (packagecode d)
    (msiproductcode d) (msipackagecode d) (files d) (OSatinstall d).

Definition set_languagecode (v : IntOrStr) (d : t) : t :=
  mk (name d) (version d) (publisher d) (Some v) (entrytype d)
    (uninstallkey d) (filepaths d) (productcode d) (packagecode d)
    (msiproductcode d) (msipackagecode d) (files d) (OSatinstall d).

Definition set_entrytype (v : string) (d : t) : t :=
  mk (name d) (version d) (publisher d) (languagecode d) (Some v)
    (uninstallkey d) (filepaths d) (productcode d) (packagecode d)
    (msiproductcode d) (msipackagecode d) (files d) (OSatinstall d).

Definition set_uninstallkey (v : string) (d : t) : t :=
  mk (name d) (version d) (publisher d) (languagecode d) (entrytype d)
    (Some v) (filepaths d) (productcode d) (packagecode d)
    (msiproductcode d) (msipackagecode d) (files d) (OSatinstall d).

Definition set_filepaths (v : string) (d : t) : t :=
  mk (name d) (version d) (publisher d) (languagecode d) (entrytype d)
    (uninstallkey d) (Some v) (productcode d) (packagecode d)
    (msiproductcode d) (msipackagecode d) (files d) (OSatinstall d).

Definition set_productcode (v : string) (d : t) : t :=
  mk (name d) (version d) (publisher d) (languagecode d) (entrytype d)
    (uninstallkey d) (filepaths d) (Some v) (packagecode d)
    (msiproductcode d) (msipackagecode d) (files d) (OSatinstall d).

Definition set_packagecode (v : string) (d : t) : t :=
  mk (name d) (version d) (publisher d) (languagecode d) (entrytype d)
    (uninstallkey d) (filepaths d) (productcode d) (Some v)
    (msiproductcode d) (msipackagecode d) (files d) (OSatinstall d).

Definition set_msiproductcode (v : string) (d : t) : t :=
  mk (name d) (version d) (publisher d) (languagecode d) (entrytype d)
    (uninstallkey d) (filepaths d) (productcode d) (packagecode d) (Some v)
    (msipackagecode d) (files d) (OSatinstall d).

Definition set_msipackagecode (v : string) (d : t) : t :=
  mk (name d) (version d) (publisher d) (languagecode d) (entrytype d)
    (uninstallkey d) (filepaths d) (productcode d) (packagecode d)
    (msiproductcode d) (Some v) (files d) (OSatinstall d).

Definition set_files (v : string) (d : t) : t :=
  mk (name d) (version d) (publisher d) (languagecode d) (entrytype d)
    (uninstallkey d) (filepaths d) (productcode d) (packagecode d)
    (msiproductcode d) (msipackagecode d) (Some v) (OSatinstall d).

Definition set_OSatinstall (v : string) (d : t) : t :=
  mk (name d) (version d) (publisher d) (languagecode d) (entrytype d)
    (uninstallkey d) (filepaths d) (productcode d) (packagecode d)
    (msiproductcode d) (msipackagecode d) (files d) (Some v).

End AmcacheProgramEventData.

Inductive EventData : Type :=
| FileData (d : AmcacheEventData.t)
| ProgramData (d : AmcacheProgramEventData.t).

(** [definitions.TIME_DESCRIPTION_...] *)
Inductive TimeDescription : Type :=
| TIME_DESCRIPTION_CREATION
| TIME_DESCRIPTION_MODIFICATION
| TIME_DESCRIPTION_INSTALLATION
| TIME_DESCRIPTION_CHANGE.

(** [time_events.DateTimeValuesEvent(date_time, date_time_description)] *)
Record DateTimeValuesEvent : Type := mkEvent {
  date_time : DateTimeValues;
  timestamp_desc : TimeDescription
}.

(** [event.timestamp]: the constructor sets it to
    [date_time.GetPlasoTimestamp()]. *)
Definition timestamp (event : DateTimeValuesEvent) : option Z :=
  GetPlasoTimestamp (date_time event).

(** The events stored so far, oldest first, each with its event data. *)
Definition ParserMediator : Type := list (DateTimeValuesEvent * EventData).

Definition INT64_MIN : Z := - 2 ^ 63.
Definition INT64_MAX : Z := 2 ^ 63 - 1.

(** A statement that acts on the parser mediator: it returns or raises,
    and leaves the mediator with the events stored until then. *)
Definition Statement : Type :=
  ParserMediator -> Outcome unit * ParserMediator.

(** [parser_mediator.ProduceEventWithEventData(event, event_data)]
    (plaso/parsers/mediator.py) raises InvalidEvent for an event whose time
    stamp is not set or is out of the bounds of a signed 64-bit integer,
    and stores the event otherwise. *)
Definition ProduceEventWithEventData (event : DateTimeValuesEvent)
    (event_data : EventData) : Statement :=
  fun parser_mediator =>
    match timestamp event with
    | None => (Raised InvalidEvent, parser_mediator)
    | Some t =>
        if (t <? INT64_MIN) || (INT64_MAX <? t)
        then (Raised InvalidEvent, parser_mediator)
        else (Returned tt, parser_mediator ++ [(event, event_data)])
    end.

(** One statement after the other; an exception of the first leaves the
    second undone. *)
Definition and_then (first second : Statement) : Statement :=
  fun parser_mediator =>
    match first parser_mediator with
    | (Returned _, parser_mediator') => second parser_mediator'
    | (Raised e, parser_mediator') => (Raised e, parser_mediator')
    end.

Definition pass : Statement :=
  fun parser_mediator => (Returned tt, parser_mediator).

(** [if x: produce(x)] and [if x is not None: produce(x)] *)
Definition if_truthy (x : option Z) (produce : Z -> Statement) : Statement :=
  match x with
  | Some n => if n =? 0 then pass else produce n
  | None => pass
  end.

Definition if_not_None (x : option Z) (produce : Z -> Statement)
    : Statement :=
  match x with
  | Some n => produce n
  | None => pass
  end.

Notation "a == b" := (String.eqb a b) (at level 70, no associativity).

(** ** Amcache10Parser: the Windows 10 plugin *)

Module Amcache10Parser.

Definition _AMCACHE_ROOT_WIN10_FILE_KEY : string :=
  "\Root\InventoryApplicationFile".
Definition _AMCACHE_ROOT_WIN10_PROGRAM_KEY : string :=
  "\Root\InventoryApplication".

Section WithLocalTime.

(** [strftime('%s')] is the C library's: the seconds since the Epoch of
    the date and time read in the time zone of the process.  [mktime] is
    that reading. *)
Variable mktime : datetime -> Z.

(** [int(datetime.datetime.strptime(text, '%m/%d/%Y %H:%M:%S').strftime('%s'))] *)
Definition strptime_seconds (text : string) : Outcome Z :=
  t <- strptime text ;; py_int (decimal_text (mktime t)) 10.

(** The body of the loop of [_ProcessAMCacheWin10FileKey] over
    [registry_key.GetValues()]; the state is [event_data] and
    [linkdateint]. *)
Definition FileKey_body (st : AmcacheEventData.t * option Z)
    (registry_value : WinRegistryValue)
    : Outcome (AmcacheEventData.t * option Z) :=
  let (event_data, linkdateint) := st in
  let obj := GetDataAsObject registry_value in
  if name registry_value == "LinkDate" then
    linkdatestr <- format_s obj ;;
    if negb (linkdatestr == "") then
      n <- strptime_seconds linkdatestr ;;
      Returned (event_data, Some n)
    else Returned (event_data, linkdateint)
  else if name registry_value == "LowerCaseLongPath" then
    v <- format_s obj ;;
    Returned (AmcacheEventData.set_full_path v event_data, linkdateint)
  else if name registry_value == "FileId" then
    v <- format_s obj ;;
    Returned (AmcacheEventData.set_sha1 (slice_from 4 v) event_data,
              linkdateint)
  else if name registry_value == "ProductName" then
    v <- format_s obj ;;
    Returned (AmcacheEventData.set_productname v event_data, linkdateint)
  else if name registry_value == "Publisher" then
    v <- format_s obj ;;
    Returned (AmcacheEventData.set_companyname v event_data, linkdateint)
  else if name registry_value == "Version" then
    v <- format_s obj ;;
    Returned (AmcacheEventData.set_fileversion v event_data, linkdateint)
  else if name registry_value == "Language" then
    n <- try_except_ValueError (int_format_d obj)
           (text <- format_s obj ;; py_int text 16) ;;
    Returned (AmcacheEventData.set_languagecode n event_data, linkdateint)
  else if name registry_value == "Size" then
    n <- try_except_ValueError (int_format_d obj)
           (text <- format_s obj ;; py_int text 16) ;;
    Returned (AmcacheEventData.set_filesize n event_data, linkdateint)
  else if name registry_value == "ProgramId" then
    v <- format_s obj ;;
    Returned (AmcacheEventData.set_programid v event_data, linkdateint)
  else Returned (event_data, linkdateint).

Definition _ProcessAMCacheWin10FileKey (parser_mediator : ParserMediator)
    (registry_key : WinRegistryKey) : Outcome unit * ParserMediator :=
  let amcache_datetime := last_written_time registry_key in
  match for_each FileKey_body (GetValues registry_key)
          (AmcacheEventData.init, None) with
  | Raised e => (Raised e, parser_mediator)
  | Returned (event_data, linkdateint) =>
      let event := mkEvent amcache_datetime TIME_DESCRIPTION_MODIFICATION in
      and_then
        (ProduceEventWithEventData event (FileData event_data))
        (if_truthy linkdateint
           (fun n =>
              let link_event :=
                mkEvent (PosixTime n) TIME_DESCRIPTION_CREATION in
              ProduceEventWithEventData link_event (FileData event_data)))
        parser_mediator
  end.

(** The body of the loop of [_ProcessAMCacheWin10ProgramKey]; the state
    is [event_data] and [installdateint]. *)
Definition ProgramKey_body (st : AmcacheProgramEventData.t * option Z)
    (registry_value : WinRegistryValue)
    : Outcome (AmcacheProgramEventData.t * option Z) :=
  let (event_data, installdateint) := st in
  let obj := GetDataAsObject registry_value in
  if name registry_value == "InstallDate" then
    installdatestr <- format_s obj ;;
    if negb (installdatestr == "") then
      n <- strptime_seconds installdatestr ;;
      Returned (event_data, Some n)
    else Returned (event_data, installdateint)
  else if name registry_value == "Name" then
    v <- format_s obj ;;
    Returned (AmcacheProgramEventData.set_name v event_data, installdateint)
  else if name registry_value == "Version" then
    v <- format_s obj ;;
    Returned (AmcacheProgramEventData.set_version v event_data,
              installdateint)
  else if name registry_value == "Publisher" then
    v <- format_s obj ;;
    Returned (AmcacheProgramEventData.set_publisher v event_data,
              installdateint)
  else if name registry_value == "Language" then
    v <- try_except_ValueError
           (n <- int_format_d obj ;; Returned (AnInt n))
           (text <- format_s obj ;; Returned (AStr text)) ;;
    Returned (AmcacheProgramEventData.set_languagecode v event_data,
              installdateint)
  else if name registry_value == "Type" then
    v <- format_s obj ;;
    Returned (AmcacheProgramEventData.set_entrytype v event_data,
              installdateint)
  else if name registry_value == "RegistryKeyPath" then
    v <- format_s obj ;;
    Returned (AmcacheProgramEventData.set_uninstallkey v event_data,
              installdateint)
  else if name registry_value == "ManifestPath" then
    v <- format_s obj ;;
    Returned (AmcacheProgramEventData.set_filepaths v event_data,
              installdateint)
  else if name registry_value == "OSVersionAtInstallTime" then
    v <- format_s obj ;;
    Returned (AmcacheProgramEventData.set_OSatinstall v event_data,
              installdateint)
  else if name registry_value == "MsiProductCode" then
    v <- format_s obj ;;
    Returned (AmcacheProgramEventData.set_msiproductcode v event_data,
              installdateint)
  else if name registry_value == "MsiPackageCode" then
    v <- format_s obj ;;
    Returned (AmcacheProgramEventData.set_msipackagecode v event_data,
              installdateint)
  else if name registry_value == "RootDirPath" then
    v <- format_s obj ;;
    Returned (AmcacheProgramEventData.set_files v event_data, installdateint)
  else Returned (event_data, installdateint).

Definition _ProcessAMCacheWin10ProgramKey (parser_mediator : ParserMediator)
    (registry_key : WinRegistryKey) : Outcome unit * ParserMediator :=
  let amcache_datetime := last_written_time registry_key in
  match for_each ProgramKey_body (GetValues registry_key)
          (AmcacheProgramEventData.init, None) with
  | Raised e => (Raised e, parser_mediator)
  | Returned (event_data, installdateint) =>
      let event := mkEvent amcache_datetime TIME_DESCRIPTION_INSTALLATION in
      and_then
        (ProduceEventWithEventData event (ProgramData event_data))
        (if_not_None installdateint
           (fun n =>
              let install_event :=
                mkEvent (PosixTime n) TIME_DESCRIPTION_INSTALLATION in
              ProduceEventWithEventData install_event
                (ProgramData event_data)))
        parser_mediator
  end.

Definition ExtractEvents (parser_mediator : ParserMediator)
    (registry_key : WinRegistryKey) : Outcome unit * ParserMediator :=
  if (number_of_values registry_key =? 0)%nat then
    (Returned tt, parser_mediator)
  else if startswith (path registry_key) _AMCACHE_ROOT_WIN10_FILE_KEY then
    _ProcessAMCacheWin10FileKey parser_mediator registry_key
  else if startswith (path registry_key) _AMCACHE_ROOT_WIN10_PROGRAM_KEY then
    _ProcessAMCacheWin10ProgramKey parser_mediator registry_key
  else (Returned tt, parser_mediator).

End WithLocalTime.

End Amcache10Parser.

(** ** Amcache8Parser: the Windows 8 plugin *)

Module Amcache8Parser.

Definition _AMCACHE_ROOT_FILE_KEY : string := "\Root\File".
Definition _AMCACHE_SHA1 : string := "101".
Definition _AMCACHE_DATETIME : string := "17".
Definition _AMCACHE_FULL_PATH : string := "15".
Definition _AMCACHE_PRODUCTNAME : string := "0".
Definition _AMCACHE_COMPANYNAME : string := "1".
Definition _AMCACHE_FILEVERSION : string := "5".
Definition _AMCACHE_LANGUAGECODE : string := "3".
Definition _AMCACHE_FILESIZE : string := "6".
Definition _AMCACHE_FILEDESCRIPTION : string := "c".
Definition _AMCACHE_LINKERTS : string := "f".
Definition _AMCACHE_LASTMODIFIEDTS : string := "11".
Definition _AMCACHE_CREATEDTS : string := "12".
Definition _AMCACHE_PROGRAMID : string := "100".

Definition _AMCACHE_ROOT_PROGRAM_KEY : string := "\Root\Programs".
Definition _AMCACHE_P_INSTALLDATE : string := "a".
Definition _AMCACHE_P_NAME : string := "0".
Definition _AMCACHE_P_VERSION : string := "1".
Definition _AMCACHE_P_PUBLISHER : string := "2".
Definition _AMCACHE_P_LANGUAGECODE : string := "3".
Definition _AMCACHE_P_ENTRYTYPE : string := "6".
Definition _AMCACHE_P_UNINSTALLKEY : string := "7".
Definition _AMCACHE_P_FILEPATHS : string := "d".
Definition _AMCACHE_P_PRODUCTCODE : string := "f".
Definition _AMCACHE_P_PACKAGECODE : string := "10".
Definition _AMCACHE_P_MSIPRODUCTCODE : string := "11".
Definition _AMCACHE_P_MSIPACKAGECODE : string := "12".
Definition _AMCACHE_P_FILES : string := "Files".

(** The body of the loop of [_ProcessAMCacheProgramKey]; the state is
    [amcache_datetime] and [event_data]. *)
Definition ProgramKey_body (st : Z * AmcacheProgramEventData.t)
    (registry_value : WinRegistryValue)
    : Outcome (Z * AmcacheProgramEventData.t) :=
  let (amcache_datetime, event_data) := st in
  let obj := GetDataAsObject registry_value in
  if name registry_value == _AMCACHE_P_INSTALLDATE then
    n <- int_format_d obj ;;
    Returned (n, event_data)
  else if name registry_value == _AMCACHE_P_NAME then
    v <- format_s obj ;;
    Returned (amcache_datetime, AmcacheProgramEventData.set_name v event_data)
  else if name registry_value == _AMCACHE_P_VERSION then
    v <- format_s obj ;;
    Returned (amcache_datetime,
              AmcacheProgramEventData.set_version v event_data)
  else if name registry_value == _AMCACHE_P_PUBLISHER then
    v <- format_s obj ;;
    Returned (amcache_datetime,
              AmcacheProgramEventData.set_publisher v event_data)
  else if name registry_value == _AMCACHE_P_LANGUAGECODE then
    v <- format_s obj ;;
    Returned (amcache_datetime,
              AmcacheProgramEventData.set_languagecode (AStr v) event_data)
  else if name registry_value == _AMCACHE_P_ENTRYTYPE then
    v <- format_s obj ;;
    Returned (amcache_datetime,
              AmcacheProgramEventData.set_entrytype v event_data)
  else if name registry_value == _AMCACHE_P_UNINSTALLKEY then
    let event_uninstallkey := obj in
    match event_uninstallkey with
    | DNone => Returned (amcache_datetime, event_data)
    | _ =>
        joined <- join_LF event_uninstallkey ;;
        v <- format_s (DStr joined) ;;
        Returned (amcache_datetime,
                  AmcacheProgramEventData.set_uninstallkey v event_data)
    end
  else if name registry_value == _AMCACHE_P_FILEPATHS then
    joined <- join_LF obj ;;
    v <- format_s (DStr joined) ;;
    Returned (amcache_datetime,
              AmcacheProgramEventData.set_filepaths v event_data)
  else if name registry_value == _AMCACHE_P_PRODUCTCODE then
    v <- format_s obj ;;
    Returned (amcache_datetime,
              AmcacheProgramEventData.set_productcode v event_data)
  else if name registry_value == _AMCACHE_P_PACKAGECODE then
    v <- format_s obj ;;
    Returned (amcache_datetime,
              AmcacheProgramEventData.set_packagecode v event_data)
  else if name registry_value == _AMCACHE_P_MSIPRODUCTCODE then
    v <- join_LF obj ;;
    Returned (amcache_datetime,
              AmcacheProgramEventData.set_msiproductcode v event_data)
  else if name registry_value == _AMCACHE_P_MSIPACKAGECODE then
    v <- join_LF obj ;;
    Returned (amcache_datetime,
              AmcacheProgramEventData.set_msipackagecode v event_data)
  else if name registry_value == _AMCACHE_P_FILES then
    let event_files := obj in
    match event_files with
    | DNone => Returned (amcache_datetime, event_data)
    | _ =>
        joined <- join_LF event_files ;;
        v <- format_s (DStr joined) ;;
        Returned (amcache_datetime,
                  AmcacheProgramEventData.set_files v event_data)
    end
  else Returned (amcache_datetime, event_data).

Definition _ProcessAMCacheProgramKey (parser_mediator : ParserMediator)
    (registry_key : WinRegistryKey) : Outcome unit * ParserMediator :=
  match for_each ProgramKey_body (GetValues registry_key)
          (0, AmcacheProgramEventData.init) with
  | Raised e => (Raised e, parser_mediator)
  | Returned (amcache_datetime, event_data) =>
      let event :=
        mkEvent (PosixTime amcache_datetime) TIME_DESCRIPTION_INSTALLATION in
      ProduceEventWithEventData event (ProgramData event_data)
        parser_mediator
  end.

(** The body of the loop of [_ProcessAMCacheFileKey]; the state is
    [amcache_datetime] and [event_data]. *)
Definition FileKey_body (st : Z * AmcacheEventData.t)
    (registry_value : WinRegistryValue) : Outcome (Z * AmcacheEventData.t) :=
  let (amcache_datetime, event_data) := st in
  let obj := GetDataAsObject registry_value in
  if name registry_value == _AMCACHE_DATETIME then
    n <- int_format_d obj ;;
    Returned (n, event_data)
  else if name registry_value == _AMCACHE_FULL_PATH then
    v <- format_s obj ;;
    Returned (amcache_datetime, AmcacheEventData.set_full_path v event_data)
  else if name registry_value == _AMCACHE_SHA1 then
    v <- format_s obj ;;
    Returned (amcache_datetime,
              AmcacheEventData.set_sha1 (slice_from 4 v) event_data)
  else if name registry_value == _AMCACHE_PRODUCTNAME then
    v <- format_s obj ;;
    Returned (amcache_datetime, AmcacheEventData.set_productname v event_data)
  else if name registry_value == _AMCACHE_COMPANYNAME then
    v <- format_s obj ;;
    Returned (amcache_datetime, AmcacheEventData.set_companyname v event_data)
  else if name registry_value == _AMCACHE_FILEVERSION then
    v <- format_s obj ;;
    Returned (amcache_datetime, AmcacheEventData.set_fileversion v event_data)
  else if name registry_value == _AMCACHE_LANGUAGECODE then
    n <- int_format_d obj ;;
    Returned (amcache_datetime, AmcacheEventData.set_languagecode n event_data)
  else if name registry_value == _AMCACHE_FILESIZE then
    n <- int_format_d obj ;;
    Returned (amcache_datetime, AmcacheEventData.set_filesize n event_data)
  else if name registry_value == _AMCACHE_FILEDESCRIPTION then
    v <- format_s obj ;;
    Returned (amcache_datetime,
              AmcacheEventData.set_filedescription v event_data)
  else if name registry_value == _AMCACHE_LINKERTS then
    n <- int_format_d obj ;;
    Returned (amcache_datetime, AmcacheEventData.set_linkerts n event_data)
  else if name registry_value == _AMCACHE_LASTMODIFIEDTS then
    n <- int_format_d obj ;;
    Returned (amcache_datetime,
              AmcacheEventData.set_lastmodifiedts n event_data)
  else if name registry_value == _AMCACHE_CREATEDTS then
    n <- int_format_d obj ;;
    Returned (amcache_datetime, AmcacheEventData.set_createdts n event_data)
  else if name registry_value == _AMCACHE_PROGRAMID then
    v <- format_s obj ;;
    Returned (amcache_datetime, AmcacheEventData.set_programid v event_data)
  else Returned (amcache_datetime, event_data).

Definition _ProcessAMCacheFileKey (parser_mediator : ParserMediator)
    (registry_key : WinRegistryKey) : Outcome unit * ParserMediator :=
  match for_each FileKey_body (GetValues registry_key)
          (0, AmcacheEventData.init) with
  | Raised e => (Raised e, parser_mediator)
  | Returned (amcache_datetime, event_data) =>
      let data := FileData event_data in
      and_then
        (ProduceEventWithEventData
           (mkEvent (Filetime amcache_datetime) TIME_DESCRIPTION_MODIFICATION)
           data)
        (and_then
           (if_truthy (AmcacheEventData.createdts event_data)
              (fun n =>
                 ProduceEventWithEventData
                   (mkEvent (Filetime n) TIME_DESCRIPTION_CREATION) data))
           (and_then
              (if_truthy (AmcacheEventData.lastmodifiedts event_data)
                 (fun n =>
                    ProduceEventWithEventData
                      (mkEvent (Filetime n) TIME_DESCRIPTION_MODIFICATION)
                      data))
              (if_truthy (AmcacheEventData.linkerts event_data)
                 (fun n =>
                    ProduceEventWithEventData
                      (mkEvent (PosixTime n) TIME_DESCRIPTION_CHANGE) data))))
        parser_mediator
  end.

Definition ExtractEvents (parser_mediator : ParserMediator)
    (registry_key : WinRegistryKey) : Outcome unit * ParserMediator :=
  if (number_of_values registry_key =? 0)%nat then
    (Returned tt, parser_mediator)
  else if startswith (path registry_key) _AMCACHE_ROOT_FILE_KEY then
    _ProcessAMCacheFileKey parser_mediator registry_key
  else if startswith (path registry_key) _AMCACHE_ROOT_PROGRAM_KEY then
    _ProcessAMCacheProgramKey parser_mediator registry_key
  else (Returned tt, parser_mediator).

End Amcache8Parser.

(** ** Definitions used to state the properties *)

(** The value names each loop tests for, in the order of its branches. *)
Definition modern_file_names : list string :=
  ["LinkDate"; "LowerCaseLongPath"; "FileId"; "ProductName"; "Publisher";
   "Version"; "Language"; "Size"; "ProgramId"].

Definition modern_program_names : list string :=
  ["InstallDate"; "Name"; "Version"; "Publisher"; "Language"; "Type";
   "RegistryKeyPath"; "ManifestPath"; "OSVersionAtInstallTime";
   "MsiProductCode"; "MsiPackageCode"; "RootDirPath"].

Definition legacy_program_names : list string :=
  [Amcache8Parser._AMCACHE_P_INSTALLDATE; Amcache8Parser._AMCACHE_P_NAME;
   Amcache8Parser._AMCACHE_P_VERSION; Amcache8Parser._AMCACHE_P_PUBLISHER;
   Amcache8Parser._AMCACHE_P_LANGUAGECODE;
   Amcache8Parser._AMCACHE_P_ENTRYTYPE;
   Amcache8Parser._AMCACHE_P_UNINSTALLKEY;
   Amcache8Parser._AMCACHE_P_FILEPATHS;
   Amcache8Parser._AMCACHE_P_PRODUCTCODE;
   Amcache8Parser._AMCACHE_P_PACKAGECODE;
   Amcache8Parser._AMCACHE_P_MSIPRODUCTCODE;
   Amcache8Parser._AMCACHE_P_MSIPACKAGECODE;
   Amcache8Parser._AMCACHE_P_FILES].

Definition legacy_file_names : list string :=
  [Amcache8Parser._AMCACHE_DATETIME; Amcache8Parser._AMCACHE_FULL_PATH;
   Amcache8Parser._AMCACHE_SHA1; Amcache8Parser._AMCACHE_PRODUCTNAME;
   Amcache8Parser._AMCACHE_COMPANYNAME; Amcache8Parser._AMCACHE_FILEVERSION;
   Amcache8Parser._AMCACHE_LANGUAGECODE; Amcache8Parser._AMCACHE_FILESIZE;
   Amcache8Parser._AMCACHE_FILEDESCRIPTION; Amcache8Parser._AMCACHE_LINKERTS;
   Amcache8Parser._AMCACHE_LASTMODIFIEDTS; Amcache8Parser._AMCACHE_CREATEDTS;
   Amcache8Parser._AMCACHE_PROGRAMID].

(** The payload of the last value of a key that bears a given name. *)
Definition last_value (field : string) (values : list WinRegistryValue)
    : option RawData :=
  fold_left
    (fun found v => if name v == field then Some (GetDataAsObject v) else found)
    values None.

(** A field that is absent from the key, or whose last payload is the
    integer zero. *)
Definition zero_or_absent (field : string) (values : list WinRegistryValue)
    : Prop :=
  last_value field values = None \/ last_value field values = Some (DInt 0).

(** The integer the legacy loops leave in [amcache_datetime]. *)
Definition last_int (field : string) (values : list WinRegistryValue) : Z :=
  match last_value field values with
  | Some (DInt n) => n
  | _ => 0
  end.

(** The meaning of a produced event. *)
Definition meaning (produced : DateTimeValuesEvent * EventData)
    : TimeDescription :=
  timestamp_desc (fst produced).

(** The value of a run of digits read in a base, most significant first. *)
Definition digits_value (base : Z) (ds : list Z) : Z :=
  fold_left (fun acc d => acc * base + d) ds 0.

(** The value of the digits of a [Decimal.uint], continuing from [acc]. *)
Fixpoint horner10 (u : Decimal.uint) (acc : Z) : Z :=
  match u with
  | Decimal.Nil => acc
  | Decimal.D0 u' => horner10 u' (acc * 10 + 0)
  | Decimal.D1 u' => horner10 u' (acc * 10 + 1)
  | Decimal.D2 u' => horner10 u' (acc * 10 + 2)
  | Decimal.D3 u' => horner10 u' (acc * 10 + 3)
  | Decimal.D4 u' => horner10 u' (acc * 10 + 4)
  | Decimal.D5 u' => horner10 u' (acc * 10 + 5)
  | Decimal.D6 u' => horner10 u' (acc * 10 + 6)
  | Decimal.D7 u' => horner10 u' (acc * 10 + 7)
  | Decimal.D8 u' => horner10 u' (acc * 10 + 8)
  | Decimal.D9 u' => horner10 u' (acc * 10 + 9)
  end.

(** The mediator stores an event whose time stamp is set and within the
    bounds of a signed 64-bit integer, and refuses every other. *)
Definition accepted (event : DateTimeValuesEvent) : bool :=
  match timestamp event with
  | Some t => (INT64_MIN <=? t) && (t <=? INT64_MAX)
  | None => false
  end.

Definition all_accepted (events : ParserMediator) : Prop :=
  Forall (fun produced => accepted (fst produced) = true) events.

(** Events handed to the mediator one after the other, up to the first
    it refuses. *)
Fixpoint produce_all (events : ParserMediator) : Statement :=
  match events with
  | [] => pass
  | produced :: rest =>
      and_then (ProduceEventWithEventData (fst produced) (snd produced))
        (produce_all rest)
  end.

(** The events a guarded [if x:] block hands to the mediator. *)
Definition events_if_truthy (x : option Z)
    (produced : Z -> DateTimeValuesEvent * EventData) : ParserMediator :=
  match x with
  | Some n => if n =? 0 then [] else [produced n]
  | None => []
  end.

(** The events a legacy file key whose loop ends normally hands to the
    mediator, after the first one. *)
Definition legacy_file_events (dt : Z) (ed : AmcacheEventData.t)
    : ParserMediator :=
  events_if_truthy (AmcacheEventData.createdts ed)
    (fun n => (mkEvent (Filetime n) TIME_DESCRIPTION_CREATION, FileData ed))
  ++ events_if_truthy (AmcacheEventData.lastmodifiedts ed)
       (fun n =>
          (mkEvent (Filetime n) TIME_DESCRIPTION_MODIFICATION, FileData ed))
  ++ events_if_truthy (AmcacheEventData.linkerts ed)
       (fun n => (mkEvent (PosixTime n) TIME_DESCRIPTION_CHANGE, FileData ed)).

(** The text of a run of decimal digits, most significant first. *)
Definition digit_char (d : Z) : ascii := ascii_of_nat (48 + Z.to_nat d).

Definition numeral (ds : list Z) : string :=
  string_of_list_ascii (map digit_char ds).

Definition decimal_digit (d : Z) : Prop := 0 <= d <= 9.

(** What [int(text, 16)] accepts, as the language reference writes it:
    white space, an optional sign, an optional [0x] or [0X], hexadecimal
    digits with single underscores between them (one may follow the
    prefix), white space.

    [digit_run base cs acc v]: [cs] is a run of digits of the base, each
    of which an underscore may precede; read after digits of value [acc]
    it has the value [v]. *)
Inductive digit_run (base : Z) : list ascii -> Z -> Z -> Prop :=
| run_end (acc : Z) : digit_run base [] acc acc
| run_digit (c : ascii) (d : Z) (cs : list ascii) (acc v : Z) :
    digit_value c = Some d -> d < base ->
    digit_run base cs (acc * base + d) v ->
    digit_run base (c :: cs) acc v
| run_underscore (c : ascii) (d : Z) (cs : list ascii) (acc v : Z) :
    digit_value c = Some d -> d < base ->
    digit_run base cs (acc * base + d) v ->
    digit_run base ("_"%char :: c :: cs) acc v.

(** Digits of which the first is not preceded by an underscore. *)
Definition digits_of (base : Z) (cs : list ascii) (v : Z) : Prop :=
  exists c d rest,
    cs = c :: rest /\ digit_value c = Some d /\ d < base
    /\ digit_run base rest d v.

(** A run of digits ends in front of a character that is neither a digit
    of the base nor an underscore. *)
Definition ends_run (base : Z) (rest : list ascii) : Prop :=
  match rest with
  | [] => True
  | c :: _ =>
      Ascii.eqb c "_" = false
      /\ match digit_value c with Some d => base <= d | None => True end
  end.

Definition white_space (cs : list ascii) : Prop :=
  Forall (fun c => is_int_space c = true) cs.

Definition hex_prefixes : list (list ascii) :=
  [[]; ["0"; "x"]; ["0"; "X"]; ["0"; "x"; "_"]; ["0"; "X"; "_"]]%char.

Definition hex_literal (text : string) (n : Z) : Prop :=
  exists before sign prefix digits after v,
    chars text = before ++ sign ++ prefix ++ digits ++ after
    /\ white_space before /\ white_space after
    /\ ((sign = [] /\ n = v) \/ (sign = ["+"%char] /\ n = v)
        \/ (sign = ["-"%char] /\ n = - v))
    /\ In prefix hex_prefixes
    /\ digits_of 16 digits v.

(** ** Definitions used to state the further properties *)

(** A value decodes when its turn of the loop, taken from the initial
    state, returns. *)
Definition decodes {S X : Type} (body : S -> X -> Outcome S) (st0 : S) (x : X)
    : Prop :=
  exists st, body st0 x = Returned st.

(** A function that takes the parser mediator and a key. *)
Definition Extractor : Type :=
  ParserMediator -> WinRegistryKey -> Outcome unit * ParserMediator.

(** The extractor only adds events at the end of the mediator: the events
    that were there stay, in their order, and what is added and whether
    an exception is raised do not depend on them. *)
Definition appends_only (extract : Extractor) : Prop :=
  forall parser_mediator key,
    extract parser_mediator key
    = (fst (extract [] key), parser_mediator ++ snd (extract [] key)).

(** The values of the key are decoded before any event is produced.  A
    value that does not decode raises its exception, and the first such
    value of the key decides: nothing is produced.  When every value
    decodes, the events of the record are handed to the mediator in their
    order, up to the first it refuses.  So the decoder returns normally
    exactly when every value decodes and every event is accepted. *)
Definition record_iff_values_decode {S : Type} (decode : Extractor)
    (body : S -> WinRegistryValue -> Outcome S) (st0 : S)
    (events : WinRegistryKey -> ParserMediator) : Prop :=
  forall parser_mediator key,
    ((exists parser_mediator',
        decode parser_mediator key = (Returned tt, parser_mediator'))
     <-> (forall v, In v (GetValues key) -> decodes body st0 v)
         /\ all_accepted (events key))
    /\ (forall pre v post e,
          GetValues key = pre ++ v :: post ->
          (forall w, In w pre -> decodes body st0 w) ->
          body st0 v = Raised e ->
          decode parser_mediator key = (Raised e, parser_mediator))
    /\ ((forall v, In v (GetValues key) -> decodes body st0 v) ->
        decode parser_mediator key
        = produce_all (events key) parser_mediator).

(** The events produced do not depend on the order of the values of the
    key, when no two values bear the same name. *)
Definition order_independent (decode : Extractor) : Prop :=
  forall parser_mediator p lwt values values',
    Permutation values values' ->
    NoDup (map name values) ->
    snd (decode parser_mediator (mkKey p lwt values))
    = snd (decode parser_mediator (mkKey p lwt values'))
    /\ (forall parser_mediator',
          decode parser_mediator (mkKey p lwt values)
          = (Returned tt, parser_mediator') ->
          decode parser_mediator (mkKey p lwt values')
          = (Returned tt, parser_mediator')).

(** The events of the three other decoders, from the state the loop ends
    in. *)
Definition modern_file_events (lwt : DateTimeValues)
    (st : AmcacheEventData.t * option Z) : ParserMediator :=
  (mkEvent lwt TIME_DESCRIPTION_MODIFICATION, FileData (fst st))
  :: events_if_truthy (snd st)
       (fun n => (mkEvent (PosixTime n) TIME_DESCRIPTION_CREATION,
                  FileData (fst st))).

Definition modern_program_events (lwt : DateTimeValues)
    (st : AmcacheProgramEventData.t * option Z) : ParserMediator :=
  (mkEvent lwt TIME_DESCRIPTION_INSTALLATION, ProgramData (fst st))
  :: match snd st with
     | Some n => [(mkEvent (PosixTime n) TIME_DESCRIPTION_INSTALLATION,
                   ProgramData (fst st))]
     | None => []
     end.

Definition legacy_program_events (st : Z * AmcacheProgramEventData.t)
    : ParserMediator :=
  [(mkEvent (PosixTime (fst st)) TIME_DESCRIPTION_INSTALLATION,
    ProgramData (snd st))].

Definition legacy_file_all_events (st : Z * AmcacheEventData.t)
    : ParserMediator :=
  (mkEvent (Filetime (fst st)) TIME_DESCRIPTION_MODIFICATION,
   FileData (snd st))
  :: legacy_file_events (fst st) (snd st).

(** A decoder is its loop followed by its events. *)
Definition runs_loop {S : Type} (decode : Extractor)
    (body : S -> WinRegistryValue -> Outcome S) (st0 : S)
    (events : DateTimeValues -> S -> ParserMediator) : Prop :=
  forall parser_mediator key,
    decode parser_mediator key
    = match for_each body (GetValues key) st0 with
      | Returned st =>
          produce_all (events (last_written_time key) st) parser_mediator
      | Raised e => (Raised e, parser_mediator)
      end.

(** The payload of a value read as what a field takes. *)
Definition text_of (obj : RawData) : option string :=
  match obj with DStr s => Some s | _ => None end.

Definition int_of (obj : RawData) : option Z :=
  match obj with DInt n => Some n | _ => None end.

Definition int_or_hex_of (obj : RawData) : option Z :=
  match obj with
  | DInt n => Some n
  | DStr s => match py_int s 16 with Returned n => Some n | Raised _ => None end
  | _ => None
  end.

Definition int_or_text_of (obj : RawData) : option IntOrStr :=
  match obj with
  | DInt n => Some (AnInt n)
  | DStr s => Some (AStr s)
  | _ => None
  end.

Definition joined_of (obj : RawData) : option string :=
  match join_LF obj with Returned s => Some s | Raised _ => None end.

(** The field read off the last value of a key that bears a name. *)
Definition field {A : Type} (read : RawData -> option A) (field_name : string)
    (values : list WinRegistryValue) : option A :=
  match last_value field_name values with
  | Some obj => read obj
  | None => None
  end.

(** The record of a legacy file key, by its table of names. *)
Definition legacy_file_record (values : list WinRegistryValue)
    : AmcacheEventData.t :=
  AmcacheEventData.mk
    (field text_of "15" values)
    (option_map (slice_from 4) (field text_of "101" values))
    (field text_of "0" values)
    (field text_of "1" values)
    (field text_of "5" values)
    (field int_of "3" values)
    (field int_of "6" values)
    (field text_of "c" values)
    (field int_of "f" values)
    (field int_of "11" values)
    (field int_of "12" values)
    (field text_of "100" values).

(** The field read off the last value under a name whose payload is not
    None. *)
Definition given {A : Type} (read : RawData -> option A) (field_name : string)
    (values : list WinRegistryValue) : option A :=
  fold_left
    (fun found v =>
       if name v == field_name then
         match GetDataAsObject v with
         | DNone => found
         | obj => read obj
         end
       else found)
    values None.

(** The last value of the key under a name that is not the empty text
    holds the text [s]. *)
Definition last_text (field_name s : string)
    (values : list WinRegistryValue) : Prop :=
  exists pre post,
    values = pre ++ mkValue field_name (DStr s) :: post
    /\ forall v, In v post -> name v = field_name ->
                 GetDataAsObject v = DStr "".

(** The seconds a date text leaves in [linkdateint] or [installdateint]. *)
Definition seconds_of (mktime : datetime -> Z) (found : option Z)
    (obj : RawData) : option Z :=
  match obj with
  | DStr s =>
      if s == "" then found
      else match strptime s with
           | Returned t => Some (mktime t)
           | Raised _ => None
           end
  | _ => None
  end.

Definition last_date (mktime : datetime -> Z) (field_name : string)
    (values : list WinRegistryValue) : option Z :=
  fold_left
    (fun found v =>
       if name v == field_name
       then seconds_of mktime found (GetDataAsObject v)
       else found)
    values None.

Definition legacy_program_record (values : list WinRegistryValue)
    : AmcacheProgramEventData.t :=
  AmcacheProgramEventData.mk
    (field text_of "0" values)
    (field text_of "1" values)
    (field text_of "2" values)
    (option_map AStr (field text_of "3" values))
    (field text_of "6" values)
    (given joined_of "7" values)
    (field joined_of "d" values)
    (field text_of "f" values)
    (field text_of "10" values)
    (field joined_of "11" values)
    (field joined_of "12" values)
    (given joined_of "Files" values)
    None.

Definition modern_file_record (values : list WinRegistryValue)
    : AmcacheEventData.t :=
  AmcacheEventData.mk
    (field text_of "LowerCaseLongPath" values)
    (option_map (slice_from 4) (field text_of "FileId" values))
    (field text_of "ProductName" values)
    (field text_of "Publisher" values)
    (field text_of "Version" values)
    (field int_or_hex_of "Language" values)
    (field int_or_hex_of "Size" values)
    None None None None
    (field text_of "ProgramId" values).

Definition modern_program_record (values : list WinRegistryValue)
    : AmcacheProgramEventData.t :=
  AmcacheProgramEventData.mk
    (field text_of "Name" values)
    (field text_of "Version" values)
    (field text_of "Publisher" values)
    (field int_or_text_of "Language" values)
    (field text_of "Type" values)
    (field text_of "RegistryKeyPath" values)
    (field text_of "ManifestPath" values)
    None None
    (field text_of "MsiProductCode" values)
    (field text_of "MsiPackageCode" values)
    (field text_of "RootDirPath" values)
    (field text_of "OSVersionAtInstallTime" values).

(** The events of a key whose values all decode, read off the key by the
    tables of names. *)
Definition modern_file_key_events (mktime : datetime -> Z)
    (key : WinRegistryKey) : ParserMediator :=
  modern_file_events (last_written_time key)
    (modern_file_record (GetValues key),
     last_date mktime "LinkDate" (GetValues key)).

Definition modern_program_key_events (mktime : datetime -> Z)
    (key : WinRegistryKey) : ParserMediator :=
  modern_program_events (last_written_time key)
    (modern_program_record (GetValues key),
     last_date mktime "InstallDate" (GetValues key)).

Definition legacy_program_key_events (key : WinRegistryKey)
    : ParserMediator :=
  legacy_program_events
    (last_int "a" (GetValues key), legacy_program_record (GetValues key)).

Definition legacy_file_key_events (key : WinRegistryKey) : ParserMediator :=
  legacy_file_all_events
    (last_int "17" (GetValues key), legacy_file_record (GetValues key)).

(** The text [MM/DD/YYYY HH:MM:SS] of a date and time, every field padded
    with zeros. *)
Definition two_digits (n : Z) : list ascii :=
  [digit_char (n / 10); digit_char (n mod 10)].

Definition four_digits (n : Z) : list ascii :=
  map digit_char [n / 1000; (n / 100) mod 10; (n / 10) mod 10; n mod 10].

Definition date_text (t : datetime) : string :=
  string_of_list_ascii
    (two_digits (month t) ++ "/"%char :: two_digits (day t)
     ++ "/"%char :: four_digits (year t)
     ++ " "%char :: two_digits (hour t)
     ++ ":"%char :: two_digits (minute t)
     ++ ":"%char :: two_digits (second t)).

(** The first match of a matcher. *)
Definition first_match {A : Type} (m : Matcher A) (cs : list ascii) (a : A)
    (rest : list ascii) : Prop :=
  exists more, m cs = (a, rest) :: more.

(** Hexadecimal digits, in lower case, and the text of a run of them. *)
Definition hex_char (d : Z) : ascii :=
  if d <? 10 then digit_char d else ascii_of_nat (87 + Z.to_nat d).

Definition hex_digit (d : Z) : Prop := 0 <= d <= 15.

Definition hex_text (ds : list Z) : string :=
  string_of_list_ascii (map hex_char ds).

(** ** Example keys *)

Definition a_filetime : DateTimeValues := Filetime 131460650153024523.

Definition modern_file_key (values : list WinRegistryValue) : WinRegistryKey :=
  mkKey "\Root\InventoryApplicationFile\logonui.exe|8b1f" a_filetime values.

Definition modern_program_key (values : list WinRegistryValue)
    : WinRegistryKey :=
  mkKey "\Root\InventoryApplication\0000f519feec486d" a_filetime values.

Definition legacy_file_key (values : list WinRegistryValue) : WinRegistryKey :=
  mkKey "\Root\File\e9a7d1c2\b0001" a_filetime values.

Definition legacy_program_key (values : list WinRegistryValue)
    : WinRegistryKey :=
  mkKey "\Root\Programs\0006e76af55675279a5f" a_filetime values.

(** * Properties *)

(** ** Loops *)

Lemma for_each_app {S X : Type} (body : S -> X -> Outcome S)
    (xs ys : list X) (st : S) :
  for_each body (xs ++ ys) st
  = (st' <- for_each body xs st ;; for_each body ys st').
Proof.
  revert st. induction xs as [|x xs IH]; intros st; simpl.
  - reflexivity.
  - destruct (body st x) as [st1|e]; simpl; [apply IH | reflexivity].
Qed.

Lemma for_each_raises {S X : Type} (body : S -> X -> Outcome S)
    (pre post : list X) (x : X) (st0 st : S) (e : PyError) :
  for_each body pre st0 = Returned st ->
  body st x = Raised e ->
  for_each body (pre ++ x :: post) st0 = Raised e.
Proof.
  intros Hpre Hx. rewrite for_each_app, Hpre. simpl. rewrite Hx. reflexivity.
Qed.

Lemma for_each_skip {S X : Type} (body : S -> X -> Outcome S)
    (pre post : list X) (x : X) (st0 : S) :
  (forall st, body st x = Returned st) ->
  for_each body (pre ++ x :: post) st0 = for_each body (pre ++ post) st0.
Proof.
  intros Hx. rewrite !for_each_app.
  destruct (for_each body pre st0) as [st|e]; simpl; [|reflexivity].
  rewrite Hx. reflexivity.
Qed.

(** ** Reading back the decimal rendering of an integer *)

Lemma scan_digits_uint (u : Decimal.uint) :
  forall acc count,
    scan_digits 10 false acc count (chars (NilEmpty.string_of_uint u))
    = Some (horner10 u acc, (count + Decimal.nb_digits u)%nat, []).
Proof.
  unfold chars.
  induction u; intros acc count;
    cbn [NilEmpty.string_of_uint list_ascii_of_string horner10
         Decimal.nb_digits];
    [ simpl; rewrite Nat.add_0_r; reflexivity
    | simpl scan_digits; rewrite IHu, Nat.add_succ_r; reflexivity .. ].
Qed.

Lemma horner10_pos (u : Decimal.uint) :
  forall a : positive, horner10 u (Z.pos a) = Z.pos (Pos.of_uint_acc u a).
Proof.
  induction u; intros a; cbn [horner10 Pos.of_uint_acc]; try reflexivity;
    rewrite <- IHu; f_equal; lia.
Qed.

Lemma horner10_zero (u : Decimal.uint) :
  horner10 u 0 = Z.of_N (Pos.of_uint u).
Proof.
  induction u; cbn [horner10 Pos.of_uint]; try reflexivity;
    try (change (0 * 10 + 0) with 0; exact IHu);
    simpl Z.add; rewrite horner10_pos; reflexivity.
Qed.

Lemma py_int_uint (u : Decimal.uint) (negative : bool) :
  u <> Decimal.Nil ->
  py_int (String.append (if negative then "-" else "")
            (NilEmpty.string_of_uint u)) 10
  = Returned (if negative then - Z.of_N (Pos.of_uint u)
              else Z.of_N (Pos.of_uint u)).
Proof.
  intros Hu.
  assert (Hscan := scan_digits_uint u 0 0%nat).
  rewrite horner10_zero in Hscan.
  destruct u; try congruence; destruct negative;
    unfold py_int, chars in *;
    cbn [String.append NilEmpty.string_of_uint list_ascii_of_string] in *;
    simpl lstrip; simpl strip_sign; cbv iota beta; simpl Z.eqb; cbv iota;
    rewrite Hscan; reflexivity.
Qed.

(** [int(str(n)) == n] *)
Lemma py_int_decimal_text (n : Z) : py_int (decimal_text n) 10 = Returned n.
Proof.
  unfold decimal_text.
  destruct n as [|p|p]; [reflexivity | |].
  - pose proof (Unsigned.to_uint_nonnil p) as Hnil.
    pose proof (py_int_uint (Pos.to_uint p) false Hnil) as H.
    rewrite Unsigned.of_to in H.
    simpl Z.to_int. unfold NilZero.string_of_int, NilZero.string_of_uint.
    destruct (Pos.to_uint p) eqn:E; try congruence; exact H.
  - pose proof (Unsigned.to_uint_nonnil p) as Hnil.
    pose proof (py_int_uint (Pos.to_uint p) true Hnil) as H.
    rewrite Unsigned.of_to in H.
    simpl Z.to_int. unfold NilZero.string_of_int, NilZero.string_of_uint.
    destruct (Pos.to_uint p) eqn:E; try congruence; exact H.
Qed.

(** [int('{:d}'.format(obj))] is the payload itself for an [int], raises
    ValueError for a [str] and TypeError for a list or None. *)
Lemma int_format_d_DInt (n : Z) : int_format_d (DInt n) = Returned n.
Proof. unfold int_format_d. simpl. apply py_int_decimal_text. Qed.

Lemma int_format_d_DStr (s : string) : int_format_d (DStr s) = Raised ValueError.
Proof. reflexivity. Qed.

Lemma strptime_seconds_spec (mktime : datetime -> Z) (text : string) :
  Amcache10Parser.strptime_seconds mktime text
  = (t <- strptime text ;; Returned (mktime t)).
Proof.
  unfold Amcache10Parser.strptime_seconds.
  destruct (strptime text) as [t|e]; simpl; [|reflexivity].
  apply py_int_decimal_text.
Qed.

Arguments strptime : simpl never.
Arguments py_int : simpl never.
Arguments Amcache10Parser.strptime_seconds : simpl never.

Lemma int_format_d_cases (obj : RawData) :
  int_format_d obj
  = match obj with
    | DInt n => Returned n
    | DStr _ => Raised ValueError
    | DList _ => Raised TypeError
    | DNone => Raised TypeError
    end.
Proof. destruct obj; try reflexivity. apply int_format_d_DInt. Qed.

Lemma for_each_snoc {S X : Type} (body : S -> X -> Outcome S)
    (xs : list X) (x : X) (st0 st : S) :
  for_each body (xs ++ [x]) st0 = Returned st ->
  exists st1, for_each body xs st0 = Returned st1 /\ body st1 x = Returned st.
Proof.
  rewrite for_each_app. destruct (for_each body xs st0) as [st1|e]; simpl.
  - intros H. exists st1. split; [reflexivity|].
    destruct (body st1 x); [exact H | discriminate].
  - discriminate.
Qed.

Lemma last_value_snoc (field : string) (vs : list WinRegistryValue)
    (v : WinRegistryValue) :
  last_value field (vs ++ [v])
  = if name v == field then Some (GetDataAsObject v) else last_value field vs.
Proof. unfold last_value. rewrite fold_left_app. reflexivity. Qed.

(** ** The parser mediator *)

Lemma produce_accepted event data pm :
  accepted event = true ->
  ProduceEventWithEventData event data pm
  = (Returned tt, pm ++ [(event, data)]).
Proof.
  unfold accepted, ProduceEventWithEventData.
  destruct (timestamp event) as [t|]; [|discriminate].
  intros H. apply andb_prop in H. destruct H as [Hlo Hhi].
  apply Z.leb_le in Hlo, Hhi.
  replace (t <? INT64_MIN) with false by (symmetry; apply Z.ltb_ge; lia).
  replace (INT64_MAX <? t) with false by (symmetry; apply Z.ltb_ge; lia).
  reflexivity.
Qed.

Lemma produce_refused event data pm :
  accepted event = false ->
  ProduceEventWithEventData event data pm = (Raised InvalidEvent, pm).
Proof.
  unfold accepted, ProduceEventWithEventData.
  destruct (timestamp event) as [t|]; [|reflexivity].
  intros H. apply andb_false_iff in H.
  destruct H as [H|H]; apply Z.leb_gt in H.
  - replace (t <? INT64_MIN) with true by (symmetry; apply Z.ltb_lt; lia).
    reflexivity.
  - replace (INT64_MAX <? t) with true by (symmetry; apply Z.ltb_lt; lia).
    rewrite orb_true_r. reflexivity.
Qed.

(** Which date and time values make an event the mediator accepts. *)
Lemma accepted_cases (d : DateTimeValues) (m : TimeDescription) :
  accepted (mkEvent d m)
  = match d with
    | Filetime t => (0 <=? t) && (t <=? UINT64_MAX)
    | PosixTime t =>
        (INT64_MIN <=? t * 1000000) && (t * 1000000 <=? INT64_MAX)
    end.
Proof.
  unfold accepted, timestamp, GetPlasoTimestamp. cbn [date_time].
  destruct d as [t|t]; [|reflexivity].
  destruct (t <? 0) eqn:Elo; cbn [orb].
  - apply Z.ltb_lt in Elo.
    replace (0 <=? t) with false by (symmetry; apply Z.leb_gt; lia).
    reflexivity.
  - apply Z.ltb_ge in Elo.
    replace (0 <=? t) with true by (symmetry; apply Z.leb_le; lia).
    destruct (UINT64_MAX <? t) eqn:Ehi; cbn [andb].
    + apply Z.ltb_lt in Ehi. symmetry. apply Z.leb_gt. lia.
    + apply Z.ltb_ge in Ehi.
      replace (t <=? UINT64_MAX) with true by (symmetry; apply Z.leb_le; lia).
      unfold UINT64_MAX, FILETIME_TO_POSIX_BASE, INT64_MIN, INT64_MAX in *.
      apply andb_true_intro. split; apply Z.leb_le;
        Z.div_mod_to_equations; lia.
Qed.

Lemma and_then_ext (s1 s1' s2 s2' : Statement) pm :
  (forall pm', s1 pm' = s1' pm') -> (forall pm', s2 pm' = s2' pm') ->
  and_then s1 s2 pm = and_then s1' s2' pm.
Proof.
  intros H1 H2. unfold and_then. rewrite H1.
  destruct (s1' pm) as [[u|e] pm1]; [apply H2 | reflexivity].
Qed.

Lemma and_then_produce_all a b pm :
  and_then (produce_all a) (produce_all b) pm = produce_all (a ++ b) pm.
Proof.
  revert pm. induction a as [|[event data] a IH]; intros pm.
  - reflexivity.
  - cbn [app produce_all fst snd]. unfold and_then.
    destruct (ProduceEventWithEventData event data pm) as [[u|e] pm1];
      [exact (IH pm1) | reflexivity].
Qed.

Lemma produce_all_returned evs pm pm' :
  produce_all evs pm = (Returned tt, pm') ->
  pm' = pm ++ evs /\ all_accepted evs.
Proof.
  revert pm. induction evs as [|[event data] evs IH]; intros pm H.
  - inversion H. rewrite List.app_nil_r. split; [reflexivity | constructor].
  - cbn [produce_all fst snd] in H. unfold and_then in H.
    destruct (accepted event) eqn:E.
    + rewrite (produce_accepted event data pm E) in H.
      destruct (IH _ H) as [-> Hall]. rewrite <- List.app_assoc.
      split; [reflexivity | constructor; assumption].
    + rewrite (produce_refused event data pm E) in H. discriminate.
Qed.

Lemma produce_all_accepted evs pm :
  all_accepted evs -> produce_all evs pm = (Returned tt, pm ++ evs).
Proof.
  intros Hall. revert pm.
  induction Hall as [|[event data] evs E _ IH]; intros pm.
  - simpl. unfold pass. rewrite List.app_nil_r. reflexivity.
  - cbn [produce_all fst snd]. unfold and_then.
    rewrite (produce_accepted event data pm E), IH, <- List.app_assoc.
    reflexivity.
Qed.

(** What the mediator holds afterwards is what it held before and a
    prefix of the events. *)
Lemma produce_all_stored evs pm :
  exists stored rest,
    evs = stored ++ rest
    /\ produce_all evs pm = (fst (produce_all evs []), pm ++ stored)
    /\ snd (produce_all evs []) = stored.
Proof.
  revert pm. induction evs as [|[event data] evs IH]; intros pm.
  - exists [], []. simpl. unfold pass. rewrite List.app_nil_r.
    repeat split.
  - cbn [produce_all fst snd]. unfold and_then.
    destruct (accepted event) eqn:E.
    + rewrite !(produce_accepted event data _ E).
      destruct (IH (pm ++ [(event, data)])) as (stored & rest & -> & H1 & H2).
      destruct (IH ([] ++ [(event, data)])) as (stored' & rest' & H0 & H3 & H4).
      exists ((event, data) :: stored), rest. split; [reflexivity|].
      rewrite H1, H3. rewrite <- List.app_assoc. cbn [fst snd app].
      rewrite H4 in H2. subst stored'. split; reflexivity.
    + rewrite !(produce_refused event data _ E).
      exists [], ((event, data) :: evs). rewrite List.app_nil_r.
      repeat split.
Qed.

Lemma produce_all_appends evs pm :
  produce_all evs pm
  = (fst (produce_all evs []), pm ++ snd (produce_all evs [])).
Proof.
  destruct (produce_all_stored evs pm) as (stored & rest & _ & H & ->).
  exact H.
Qed.

Lemma produce_all_In evs produced :
  In produced (snd (produce_all evs [])) -> In produced evs.
Proof.
  destruct (produce_all_stored evs []) as (stored & rest & -> & _ & ->).
  intros H. apply in_or_app. left. exact H.
Qed.

(** ** Value names the loops do not test for *)

Ltac not_listed H :=
  repeat match goal with
  | |- context [String.eqb ?a ?c] =>
      replace (String.eqb a c) with false
        by (symmetry; apply String.eqb_neq;
            let Heq := fresh "Heq" in
            intro Heq; apply H; rewrite Heq; simpl;
            repeat (first [left; reflexivity | right]))
  end.

Lemma modern_file_unlisted (mktime : datetime -> Z) st v :
  ~ In (name v) modern_file_names ->
  Amcache10Parser.FileKey_body mktime st v = Returned st.
Proof.
  intros H. destruct st as [event_data linkdateint].
  unfold Amcache10Parser.FileKey_body. not_listed H. reflexivity.
Qed.

Lemma modern_program_unlisted (mktime : datetime -> Z) st v :
  ~ In (name v) modern_program_names ->
  Amcache10Parser.ProgramKey_body mktime st v = Returned st.
Proof.
  intros H. destruct st as [event_data installdateint].
  unfold Amcache10Parser.ProgramKey_body. not_listed H. reflexivity.
Qed.

Lemma legacy_program_unlisted st v :
  ~ In (name v) legacy_program_names ->
  Amcache8Parser.ProgramKey_body st v = Returned st.
Proof.
  intros H. destruct st as [amcache_datetime event_data].
  unfold Amcache8Parser.ProgramKey_body. not_listed H. reflexivity.
Qed.

Lemma legacy_file_unlisted st v :
  ~ In (name v) legacy_file_names ->
  Amcache8Parser.FileKey_body st v = Returned st.
Proof.
  intros H. destruct st as [amcache_datetime event_data].
  unfold Amcache8Parser.FileKey_body. not_listed H. reflexivity.
Qed.

Ltac same_loop Hskip :=
  cbv beta delta
    [Amcache10Parser._ProcessAMCacheWin10FileKey
     Amcache10Parser._ProcessAMCacheWin10ProgramKey
     Amcache8Parser._ProcessAMCacheProgramKey
     Amcache8Parser._ProcessAMCacheFileKey GetValues last_written_time];
  cbv zeta; cbv iota beta;
  rewrite (for_each_skip _ _ _ _ _ Hskip); reflexivity.

(** C8: in each of the four record decoders a value whose name is not one
    the loop tests for is passed over: the turn of the loop returns the
    state unchanged and raises nothing, so the decoder's outcome (events,
    event data, or the exception another value raises) is the one of the
    same key with that value removed. *)
Theorem unknown_value_names_are_ignored (mktime : datetime -> Z)
    (pm : ParserMediator) (p : string) (lwt : DateTimeValues)
    (pre post : list WinRegistryValue) (v : WinRegistryValue) :
  (~ In (name v) modern_file_names ->
   (forall st, Amcache10Parser.FileKey_body mktime st v = Returned st)
   /\ Amcache10Parser._ProcessAMCacheWin10FileKey mktime pm
        (mkKey p lwt (pre ++ v :: post))
      = Amcache10Parser._ProcessAMCacheWin10FileKey mktime pm
          (mkKey p lwt (pre ++ post)))
  /\ (~ In (name v) modern_program_names ->
   (forall st, Amcache10Parser.ProgramKey_body mktime st v = Returned st)
   /\ Amcache10Parser._ProcessAMCacheWin10ProgramKey mktime pm
        (mkKey p lwt (pre ++ v :: post))
      = Amcache10Parser._ProcessAMCacheWin10ProgramKey mktime pm
          (mkKey p lwt (pre ++ post)))
  /\ (~ In (name v) legacy_program_names ->
   (forall st, Amcache8Parser.ProgramKey_body st v = Returned st)
   /\ Amcache8Parser._ProcessAMCacheProgramKey pm
        (mkKey p lwt (pre ++ v :: post))
      = Amcache8Parser._ProcessAMCacheProgramKey pm
          (mkKey p lwt (pre ++ post)))
  /\ (~ In (name v) legacy_file_names ->
   (forall st, Amcache8Parser.FileKey_body st v = Returned st)
   /\ Amcache8Parser._ProcessAMCacheFileKey pm
        (mkKey p lwt (pre ++ v :: post))
      = Amcache8Parser._ProcessAMCacheFileKey pm
          (mkKey p lwt (pre ++ post))).
Proof.
  split; [|split; [|split]]; intros Hname.
  - pose proof (fun st => modern_file_unlisted mktime st v Hname) as Hskip.
    split; [exact Hskip | same_loop Hskip].
  - pose proof (fun st => modern_program_unlisted mktime st v Hname) as Hskip.
    split; [exact Hskip | same_loop Hskip].
  - pose proof (fun st => legacy_program_unlisted st v Hname) as Hskip.
    split; [exact Hskip | same_loop Hskip].
  - pose proof (fun st => legacy_file_unlisted st v Hname) as Hskip.
    split; [exact Hskip | same_loop Hskip].
Qed.

Lemma unknown_value_names_are_ignored_witness :
  Amcache10Parser._ProcessAMCacheWin10FileKey timegm []
    (modern_file_key
       ([mkValue "LowerCaseLongPath" (DStr "c:\windows\system32\logonui.exe")]
        ++ mkValue "BinaryType" (DStr "pe64_amd64")
        :: [mkValue "Size" (DStr "0x3400")]))
  = Amcache10Parser._ProcessAMCacheWin10FileKey timegm []
      (modern_file_key
         ([mkValue "LowerCaseLongPath" (DStr "c:\windows\system32\logonui.exe")]
          ++ [mkValue "Size" (DStr "0x3400")]))
  /\ Amcache8Parser._ProcessAMCacheFileKey []
       (legacy_file_key
          ([mkValue "15" (DStr "c:\users\user\idafree50.tmp")]
           ++ mkValue "9" (DInt 4) :: [mkValue "6" (DInt 702976)]))
     = Amcache8Parser._ProcessAMCacheFileKey []
         (legacy_file_key
            ([mkValue "15" (DStr "c:\users\user\idafree50.tmp")]
             ++ [mkValue "6" (DInt 702976)])).
Proof.
  split.
  - apply (proj1 (unknown_value_names_are_ignored timegm [] _ a_filetime
                    _ _ (mkValue "BinaryType" (DStr "pe64_amd64")))).
    cbv. intuition discriminate.
  - apply (proj2 (proj2 (proj2
             (unknown_value_names_are_ignored timegm [] _ a_filetime
                _ _ (mkValue "9" (DInt 4)))))).
    cbv. intuition discriminate.
Defined.

(** ** A value that cannot be decoded *)

Ltac abort_record Hpre Hv :=
  cbv beta delta
    [Amcache10Parser._ProcessAMCacheWin10FileKey
     Amcache10Parser._ProcessAMCacheWin10ProgramKey
     Amcache8Parser._ProcessAMCacheProgramKey
     Amcache8Parser._ProcessAMCacheFileKey GetValues];
  cbv zeta; cbv iota beta;
  rewrite (for_each_raises _ _ _ _ _ _ _ Hpre Hv); reflexivity.

Lemma malformed_date_raises (mktime : datetime -> Z) (s : string)
    (e : PyError) :
  s <> "" -> strptime s = Raised e ->
  (forall st,
     Amcache10Parser.FileKey_body mktime st (mkValue "LinkDate" (DStr s))
     = Raised e)
  /\ (forall st,
     Amcache10Parser.ProgramKey_body mktime st
       (mkValue "InstallDate" (DStr s)) = Raised e).
Proof.
  intros Hs He. apply String.eqb_neq in Hs.
  split; intros [ed i];
    unfold Amcache10Parser.FileKey_body, Amcache10Parser.ProgramKey_body;
    cbn [name GetDataAsObject]; simpl String.eqb; cbv iota;
    simpl format_s; cbn [bind]; rewrite Hs; cbn [negb];
    rewrite strptime_seconds_spec, He; reflexivity.
Qed.

(** C1 (as the code has it): a value under a known name that cannot be
    decoded raises a Python exception (ValueError for a non-empty date text
    that does not parse and for text in an integer field of the legacy
    file key), and the exception is not confined to the field: in each of
    the four decoders it ends the loop over the values and leaves the
    decoder before any event is produced, whatever the values before and
    after it are. *)
Theorem decode_error_aborts_record (mktime : datetime -> Z)
    (pm : ParserMediator) (p : string) (lwt : DateTimeValues)
    (pre post : list WinRegistryValue) (v : WinRegistryValue) (e : PyError) :
  (forall st,
     for_each (Amcache10Parser.FileKey_body mktime) pre
       (AmcacheEventData.init, None) = Returned st ->
     Amcache10Parser.FileKey_body mktime st v = Raised e ->
     Amcache10Parser._ProcessAMCacheWin10FileKey mktime pm
       (mkKey p lwt (pre ++ v :: post)) = (Raised e, pm))
  /\ (forall st,
     for_each (Amcache10Parser.ProgramKey_body mktime) pre
       (AmcacheProgramEventData.init, None) = Returned st ->
     Amcache10Parser.ProgramKey_body mktime st v = Raised e ->
     Amcache10Parser._ProcessAMCacheWin10ProgramKey mktime pm
       (mkKey p lwt (pre ++ v :: post)) = (Raised e, pm))
  /\ (forall st,
     for_each Amcache8Parser.ProgramKey_body pre
       (0, AmcacheProgramEventData.init) = Returned st ->
     Amcache8Parser.ProgramKey_body st v = Raised e ->
     Amcache8Parser._ProcessAMCacheProgramKey pm
       (mkKey p lwt (pre ++ v :: post)) = (Raised e, pm))
  /\ (forall st,
     for_each Amcache8Parser.FileKey_body pre
       (0, AmcacheEventData.init) = Returned st ->
     Amcache8Parser.FileKey_body st v = Raised e ->
     Amcache8Parser._ProcessAMCacheFileKey pm
       (mkKey p lwt (pre ++ v :: post)) = (Raised e, pm))
  /\ (forall s,
     s <> "" -> strptime s = Raised e ->
     (forall st,
        Amcache10Parser.FileKey_body mktime st (mkValue "LinkDate" (DStr s))
        = Raised e)
     /\ (forall st,
        Amcache10Parser.ProgramKey_body mktime st
          (mkValue "InstallDate" (DStr s)) = Raised e))
  /\ (forall s st,
     Amcache8Parser.FileKey_body st
       (mkValue Amcache8Parser._AMCACHE_FILESIZE (DStr s))
     = Raised ValueError).
Proof.
  split; [|split; [|split; [|split; [|split]]]].
  - intros st Hpre Hv. abort_record Hpre Hv.
  - intros st Hpre Hv. abort_record Hpre Hv.
  - intros st Hpre Hv. abort_record Hpre Hv.
  - intros st Hpre Hv. abort_record Hpre Hv.
  - intros s Hs He. exact (malformed_date_raises mktime s e Hs He).
  - intros s [dt ed]. reflexivity.
Qed.

Lemma decode_error_aborts_record_witness :
  Amcache10Parser._ProcessAMCacheWin10FileKey timegm []
    (modern_file_key
       ([mkValue "LowerCaseLongPath" (DStr "c:\windows\system32\logonui.exe");
         mkValue "FileId" (DStr "0000152c524176f105f26d4bed892a454031fb8b871b")]
        ++ mkValue "LinkDate" (DStr "15/45/2018")
        :: [mkValue "Size" (DStr "0x3400")]))
  = (Raised ValueError, [])
  /\ Amcache8Parser._ProcessAMCacheFileKey []
       (legacy_file_key
          ([mkValue "15" (DStr "c:\users\user\idafree50.tmp");
            mkValue "17" (DInt 131460650153024523)]
           ++ mkValue "6" (DStr "702976") :: [mkValue "f" (DInt 708992537)]))
     = (Raised ValueError, []).
Proof.
  split.
  - eapply (proj1 (decode_error_aborts_record timegm [] _ a_filetime _ _
                     (mkValue "LinkDate" (DStr "15/45/2018")) ValueError));
      reflexivity.
  - eapply (proj1 (proj2 (proj2 (proj2
              (decode_error_aborts_record timegm [] _ a_filetime _ _
                 (mkValue "6" (DStr "702976")) ValueError)))));
      reflexivity.
Defined.

(** C1, the claim fails here: a modern file key carries a path and a
    LinkDate that is no date.  The ValueError of the date leaves the
    decoder with no event at all, while the same key without the LinkDate
    yields its Modification event with the full path. *)
Lemma malformed_date_suppresses_every_event :
  Amcache10Parser.ExtractEvents timegm []
    (modern_file_key
       [mkValue "LowerCaseLongPath" (DStr "c:\windows\system32\logonui.exe");
        mkValue "LinkDate" (DStr "15/45/2018")])
  = (Raised ValueError, [])
  /\ Amcache10Parser.ExtractEvents timegm []
       (modern_file_key
          [mkValue "LowerCaseLongPath"
             (DStr "c:\windows\system32\logonui.exe")])
     = (Returned tt,
        [(mkEvent a_filetime TIME_DESCRIPTION_MODIFICATION,
          FileData
            (AmcacheEventData.set_full_path "c:\windows\system32\logonui.exe"
               AmcacheEventData.init))]).
Proof. split; vm_compute; reflexivity. Qed.

(** ** The legacy file key *)

(** What one turn of the legacy file loop does to [amcache_datetime],
    [createdts] and [lastmodifiedts]. *)
Lemma legacy_file_step dt ed v dt' ed' :
  Amcache8Parser.FileKey_body (dt, ed) v = Returned (dt', ed') ->
  dt' = (if name v == "17"
         then match GetDataAsObject v with DInt n => n | _ => 0 end
         else dt)
  /\ AmcacheEventData.createdts ed'
     = (if name v == "12"
        then match GetDataAsObject v with DInt n => Some n | _ => None end
        else AmcacheEventData.createdts ed)
  /\ AmcacheEventData.lastmodifiedts ed'
     = (if name v == "11"
        then match GetDataAsObject v with DInt n => Some n | _ => None end
        else AmcacheEventData.lastmodifiedts ed).
Proof.
  unfold Amcache8Parser.FileKey_body.
  rewrite !int_format_d_cases.
  cbv delta [Amcache8Parser._AMCACHE_DATETIME Amcache8Parser._AMCACHE_FULL_PATH
    Amcache8Parser._AMCACHE_SHA1 Amcache8Parser._AMCACHE_PRODUCTNAME
    Amcache8Parser._AMCACHE_COMPANYNAME Amcache8Parser._AMCACHE_FILEVERSION
    Amcache8Parser._AMCACHE_LANGUAGECODE Amcache8Parser._AMCACHE_FILESIZE
    Amcache8Parser._AMCACHE_FILEDESCRIPTION Amcache8Parser._AMCACHE_LINKERTS
    Amcache8Parser._AMCACHE_LASTMODIFIEDTS Amcache8Parser._AMCACHE_CREATEDTS
    Amcache8Parser._AMCACHE_PROGRAMID].
  intros H.
  repeat match type of H with
  | context [String.eqb (name v) ?c] =>
      let E := fresh "E" in
      destruct (String.eqb (name v) c) eqn:E;
      [ apply String.eqb_eq in E; rewrite E in *; clear E;
        destruct (GetDataAsObject v); simpl in H; try discriminate;
        inversion H; subst; simpl; repeat split; reflexivity
      | ]
  end.
  inversion H; subst. repeat split; reflexivity.
Qed.

Lemma legacy_file_scan vs :
  forall dt ed,
    for_each Amcache8Parser.FileKey_body vs (0, AmcacheEventData.init)
    = Returned (dt, ed) ->
    dt = last_int "17" vs
    /\ AmcacheEventData.createdts ed
       = match last_value "12" vs with Some (DInt n) => Some n | _ => None end
    /\ AmcacheEventData.lastmodifiedts ed
       = match last_value "11" vs with Some (DInt n) => Some n | _ => None end.
Proof.
  induction vs as [|v vs IH] using rev_ind; intros dt ed H.
  - inversion H; subst. repeat split; reflexivity.
  - apply for_each_snoc in H. destruct H as [[dt1 ed1] [Hvs Hv]].
    destruct (IH _ _ Hvs) as [Hdt [Hc Hm]].
    destruct (legacy_file_step _ _ _ _ _ Hv) as [Hdt' [Hc' Hm']].
    unfold last_int in *. rewrite !last_value_snoc.
    rewrite Hdt', Hc', Hm', Hdt, Hc, Hm.
    repeat split.
    + destruct (name v == "17"); reflexivity.
    + destruct (name v == "12"); reflexivity.
    + destruct (name v == "11"); reflexivity.
Qed.

Lemma if_truthy_events x produced pm :
  if_truthy x
    (fun n => ProduceEventWithEventData (fst (produced n)) (snd (produced n)))
    pm
  = produce_all (events_if_truthy x produced) pm.
Proof.
  unfold if_truthy, events_if_truthy.
  destruct x as [n|]; [destruct (n =? 0)|]; try reflexivity.
  cbn [produce_all]. unfold and_then.
  destruct (ProduceEventWithEventData _ _ pm) as [[[]|e] pm1]; reflexivity.
Qed.

Lemma events_if_truthy_In x produced ev :
  In ev (events_if_truthy x produced) -> exists n, ev = produced n.
Proof.
  unfold events_if_truthy.
  destruct x as [n|]; [destruct (n =? 0)|]; simpl; try tauto.
  intros [<-|[]]. exists n. reflexivity.
Qed.

Lemma legacy_file_produces pm key dt ed :
  for_each Amcache8Parser.FileKey_body (GetValues key)
    (0, AmcacheEventData.init) = Returned (dt, ed) ->
  Amcache8Parser._ProcessAMCacheFileKey pm key
  = produce_all
      ((mkEvent (Filetime dt) TIME_DESCRIPTION_MODIFICATION, FileData ed)
       :: legacy_file_events dt ed) pm.
Proof.
  intros H. unfold Amcache8Parser._ProcessAMCacheFileKey. rewrite H.
  cbv zeta. unfold legacy_file_events. cbn [produce_all fst snd].
  apply and_then_ext; [reflexivity|]. intros pm1.
  rewrite <- and_then_produce_all.
  apply and_then_ext;
    [intros pm2;
     apply (if_truthy_events _
              (fun n => (mkEvent (Filetime n) TIME_DESCRIPTION_CREATION,
                         FileData ed)))|].
  intros pm2. rewrite <- and_then_produce_all.
  apply and_then_ext; intros pm3.
  - apply (if_truthy_events _
             (fun n => (mkEvent (Filetime n) TIME_DESCRIPTION_MODIFICATION,
                        FileData ed))).
  - apply (if_truthy_events _
             (fun n => (mkEvent (PosixTime n) TIME_DESCRIPTION_CHANGE,
                        FileData ed))).
Qed.

Lemma legacy_file_returns pm key dt ed pm' :
  for_each Amcache8Parser.FileKey_body (GetValues key)
    (0, AmcacheEventData.init) = Returned (dt, ed) ->
  Amcache8Parser._ProcessAMCacheFileKey pm key = (Returned tt, pm') ->
  pm' = pm ++ (mkEvent (Filetime dt) TIME_DESCRIPTION_MODIFICATION, FileData ed)
           :: legacy_file_events dt ed.
Proof.
  intros H Hret. rewrite (legacy_file_produces pm key dt ed H) in Hret.
  exact (proj1 (produce_all_returned _ _ _ Hret)).
Qed.

Lemma legacy_file_returned pm key pm' :
  Amcache8Parser._ProcessAMCacheFileKey pm key = (Returned tt, pm') ->
  exists dt ed,
    for_each Amcache8Parser.FileKey_body (GetValues key)
      (0, AmcacheEventData.init) = Returned (dt, ed).
Proof.
  unfold Amcache8Parser._ProcessAMCacheFileKey.
  destruct (for_each _ _ _) as [[dt ed]|e]; [eauto | discriminate].
Qed.

(** C3 (as the code has it): a legacy file key that is decoded normally
    yields, first, a Modification event whose instant is the FILETIME of
    the integer held by the key's last value named "17" (zero when the key
    has no such value); the key's [last_written_time] is never read, so
    the outcome is the same under any other last-written time. *)
Theorem legacy_file_key_level_event (pm pm' : ParserMediator)
    (key : WinRegistryKey) :
  Amcache8Parser._ProcessAMCacheFileKey pm key = (Returned tt, pm') ->
  (exists ed rest,
     pm' = pm ++ (mkEvent
                    (Filetime (last_int Amcache8Parser._AMCACHE_DATETIME
                                 (GetValues key)))
                    TIME_DESCRIPTION_MODIFICATION,
                  FileData ed) :: rest)
  /\ (forall lwt,
        Amcache8Parser._ProcessAMCacheFileKey pm
          (mkKey (path key) lwt (GetValues key)) = (Returned tt, pm')).
Proof.
  intros Hret. split.
  - destruct (legacy_file_returned _ _ _ Hret) as (dt & ed & Hscan).
    pose proof (legacy_file_returns _ _ _ _ _ Hscan Hret) as Hpm. subst pm'.
    destruct (legacy_file_scan _ _ _ Hscan) as [Hdt _].
    exists ed, (legacy_file_events dt ed). rewrite Hdt. reflexivity.
  - intros lwt. rewrite <- Hret. reflexivity.
Qed.

Lemma legacy_file_key_level_event_witness :
  (exists ed rest,
     snd (Amcache8Parser._ProcessAMCacheFileKey []
            (legacy_file_key
               [mkValue "15" (DStr "c:\users\user\idafree50.tmp");
                mkValue "17" (DInt 131460650151772758);
                mkValue "f" (DInt 708992537)]))
     = [] ++ (mkEvent (Filetime 131460650151772758)
                TIME_DESCRIPTION_MODIFICATION, FileData ed) :: rest)
  /\ (forall lwt,
        Amcache8Parser._ProcessAMCacheFileKey []
          (mkKey "\Root\File\e9a7d1c2\b0001" lwt
             [mkValue "15" (DStr "c:\users\user\idafree50.tmp");
              mkValue "17" (DInt 131460650151772758);
              mkValue "f" (DInt 708992537)])
        = (Returned tt,
           snd (Amcache8Parser._ProcessAMCacheFileKey []
                  (legacy_file_key
                     [mkValue "15" (DStr "c:\users\user\idafree50.tmp");
                      mkValue "17" (DInt 131460650151772758);
                      mkValue "f" (DInt 708992537)])))).
Proof.
  apply (legacy_file_key_level_event [] _
           (legacy_file_key
              [mkValue "15" (DStr "c:\users\user\idafree50.tmp");
               mkValue "17" (DInt 131460650151772758);
               mkValue "f" (DInt 708992537)])).
  vm_compute. reflexivity.
Defined.

(** C3, the claim fails here: the key was last written at a non-zero
    FILETIME and has no value named "17"; the one event produced is a
    Modification at FILETIME zero, not at the key's last-written time. *)
Lemma legacy_file_instant_is_not_last_written_time :
  Amcache8Parser.ExtractEvents []
    (legacy_file_key [mkValue "15" (DStr "c:\users\user\idafree50.tmp")])
  = (Returned tt,
     [(mkEvent (Filetime 0) TIME_DESCRIPTION_MODIFICATION,
       FileData
         (AmcacheEventData.set_full_path "c:\users\user\idafree50.tmp"
            AmcacheEventData.init))])
  /\ last_written_time
       (legacy_file_key [mkValue "15" (DStr "c:\users\user\idafree50.tmp")])
     = Filetime 131460650153024523
  /\ Filetime 0 <> Filetime 131460650153024523.
Proof.
  split; [vm_compute; reflexivity|].
  split; [reflexivity | discriminate].
Qed.

(** C4 (as the code has it): in a legacy file key that is decoded normally,
    a created value "12" or a last-modified value "11" that is absent or
    zero yields no event of its own (no Creation event, and no
    Modification event after the first); the first event, the Modification
    at the FILETIME of value "17", is produced in every case, at FILETIME
    zero when "17" is absent or zero. *)
Theorem legacy_file_zero_filetime (pm pm' : ParserMediator)
    (key : WinRegistryKey) :
  Amcache8Parser._ProcessAMCacheFileKey pm key = (Returned tt, pm') ->
  exists ed rest,
    pm' = pm ++ (mkEvent
                   (Filetime (last_int Amcache8Parser._AMCACHE_DATETIME
                                (GetValues key)))
                   TIME_DESCRIPTION_MODIFICATION,
                 FileData ed) :: rest
    /\ (zero_or_absent Amcache8Parser._AMCACHE_DATETIME (GetValues key) ->
        last_int Amcache8Parser._AMCACHE_DATETIME (GetValues key) = 0)
    /\ (zero_or_absent Amcache8Parser._AMCACHE_CREATEDTS (GetValues key) ->
        forall produced, In produced rest ->
          meaning produced <> TIME_DESCRIPTION_CREATION)
    /\ (zero_or_absent Amcache8Parser._AMCACHE_LASTMODIFIEDTS (GetValues key) ->
        forall produced, In produced rest ->
          meaning produced <> TIME_DESCRIPTION_MODIFICATION).
Proof.
  intros Hret.
  destruct (legacy_file_returned _ _ _ Hret) as (dt & ed & Hscan).
  pose proof (legacy_file_returns _ _ _ _ _ Hscan Hret) as Hpm. subst pm'.
  clear Hret.
  destruct (legacy_file_scan _ _ _ Hscan) as (Hdt & Hc & Hm).
  exists ed, (legacy_file_events dt ed).
  split; [rewrite Hdt; reflexivity|].
  split; [|split].
  - unfold zero_or_absent, last_int. intros [-> | ->]; reflexivity.
  - unfold zero_or_absent. change Amcache8Parser._AMCACHE_CREATEDTS with "12".
    intros Hzero produced Hin. unfold legacy_file_events in Hin.
    assert (Hnone : events_if_truthy (AmcacheEventData.createdts ed)
                      (fun n => (mkEvent (Filetime n) TIME_DESCRIPTION_CREATION,
                                 FileData ed)) = [])
      by (rewrite Hc; destruct Hzero as [-> | ->]; reflexivity).
    rewrite Hnone in Hin. cbn [app] in Hin.
    apply in_app_or in Hin.
    destruct Hin as [Hin|Hin]; apply events_if_truthy_In in Hin;
      destruct Hin as [n ->]; discriminate.
  - unfold zero_or_absent.
    change Amcache8Parser._AMCACHE_LASTMODIFIEDTS with "11".
    intros Hzero produced Hin. unfold legacy_file_events in Hin.
    assert (Hnone : events_if_truthy (AmcacheEventData.lastmodifiedts ed)
                      (fun n =>
                         (mkEvent (Filetime n) TIME_DESCRIPTION_MODIFICATION,
                          FileData ed)) = [])
      by (rewrite Hm; destruct Hzero as [-> | ->]; reflexivity).
    rewrite Hnone in Hin. cbn [app] in Hin.
    apply in_app_or in Hin.
    destruct Hin as [Hin|Hin]; apply events_if_truthy_In in Hin;
      destruct Hin as [n ->]; discriminate.
Qed.

Lemma legacy_file_zero_filetime_witness :
  exists ed rest,
    snd (Amcache8Parser._ProcessAMCacheFileKey []
           (legacy_file_key
              [mkValue "15" (DStr "c:\users\user\idafree50.tmp");
               mkValue "12" (DInt 0);
               mkValue "f" (DInt 708992537)]))
    = [] ++ (mkEvent (Filetime 0) TIME_DESCRIPTION_MODIFICATION, FileData ed)
         :: rest
    /\ (forall produced, In produced rest ->
          meaning produced <> TIME_DESCRIPTION_CREATION)
    /\ (forall produced, In produced rest ->
          meaning produced <> TIME_DESCRIPTION_MODIFICATION).
Proof.
  destruct (legacy_file_zero_filetime [] _
              (legacy_file_key
                 [mkValue "15" (DStr "c:\users\user\idafree50.tmp");
                  mkValue "12" (DInt 0);
                  mkValue "f" (DInt 708992537)]) eq_refl)
    as (ed & rest & Hpm & _ & Hcreated & Hmodified).
  exists ed, rest. split; [exact Hpm|]. split.
  - apply Hcreated. right. reflexivity.
  - apply Hmodified. left. reflexivity.
Defined.

(** C4, the claim fails here: the key-level timestamp "17" of the key is
    zero, and it is not suppressed: the decoder produces a Modification
    event at FILETIME zero (the year 1601). *)
Lemma zero_key_level_filetime_is_emitted :
  Amcache8Parser.ExtractEvents []
    (legacy_file_key
       [mkValue "17" (DInt 0);
        mkValue "15" (DStr "c:\users\user\idafree50.tmp")])
  = (Returned tt,
     [(mkEvent (Filetime 0) TIME_DESCRIPTION_MODIFICATION,
       FileData
         (AmcacheEventData.set_full_path "c:\users\user\idafree50.tmp"
            AmcacheEventData.init))])
  /\ zero_or_absent Amcache8Parser._AMCACHE_DATETIME
       [mkValue "17" (DInt 0);
        mkValue "15" (DStr "c:\users\user\idafree50.tmp")].
Proof.
  split; [vm_compute; reflexivity | right; reflexivity].
Qed.

(** ** Multi-valued fields of the legacy program key *)

(** C5: in the legacy program key a list payload under "7", "d", "11", "12"
    or "Files" is joined with newlines in the order of the list.  A payload
    of None leaves the field unset under "7" and "Files", which test for
    it; under "d", "11" and "12", which do not, the join raises TypeError
    and the record is lost with it. *)
Theorem legacy_program_list_fields (dt : Z) (ed : AmcacheProgramEventData.t) :
  (forall l,
     Amcache8Parser.ProgramKey_body (dt, ed)
       (mkValue Amcache8Parser._AMCACHE_P_UNINSTALLKEY (DList l))
     = Returned (dt, AmcacheProgramEventData.set_uninstallkey
                       (String.concat LF l) ed))
  /\ (forall l,
     Amcache8Parser.ProgramKey_body (dt, ed)
       (mkValue Amcache8Parser._AMCACHE_P_FILEPATHS (DList l))
     = Returned (dt, AmcacheProgramEventData.set_filepaths
                       (String.concat LF l) ed))
  /\ (forall l,
     Amcache8Parser.ProgramKey_body (dt, ed)
       (mkValue Amcache8Parser._AMCACHE_P_MSIPRODUCTCODE (DList l))
     = Returned (dt, AmcacheProgramEventData.set_msiproductcode
                       (String.concat LF l) ed))
  /\ (forall l,
     Amcache8Parser.ProgramKey_body (dt, ed)
       (mkValue Amcache8Parser._AMCACHE_P_MSIPACKAGECODE (DList l))
     = Returned (dt, AmcacheProgramEventData.set_msipackagecode
                       (String.concat LF l) ed))
  /\ (forall l,
     Amcache8Parser.ProgramKey_body (dt, ed)
       (mkValue Amcache8Parser._AMCACHE_P_FILES (DList l))
     = Returned (dt, AmcacheProgramEventData.set_files
                       (String.concat LF l) ed))
  /\ Amcache8Parser.ProgramKey_body (dt, ed)
       (mkValue Amcache8Parser._AMCACHE_P_UNINSTALLKEY DNone)
     = Returned (dt, ed)
  /\ Amcache8Parser.ProgramKey_body (dt, ed)
       (mkValue Amcache8Parser._AMCACHE_P_FILES DNone)
     = Returned (dt, ed)
  /\ Amcache8Parser.ProgramKey_body (dt, ed)
       (mkValue Amcache8Parser._AMCACHE_P_FILEPATHS DNone)
     = Raised TypeError
  /\ Amcache8Parser.ProgramKey_body (dt, ed)
       (mkValue Amcache8Parser._AMCACHE_P_MSIPRODUCTCODE DNone)
     = Raised TypeError
  /\ Amcache8Parser.ProgramKey_body (dt, ed)
       (mkValue Amcache8Parser._AMCACHE_P_MSIPACKAGECODE DNone)
     = Raised TypeError
  /\ (forall pm p lwt pre post st,
        for_each Amcache8Parser.ProgramKey_body pre
          (0, AmcacheProgramEventData.init) = Returned st ->
        Amcache8Parser._ProcessAMCacheProgramKey pm
          (mkKey p lwt
             (pre ++ mkValue Amcache8Parser._AMCACHE_P_FILEPATHS DNone :: post))
        = (Raised TypeError, pm)).
Proof.
  repeat split; try reflexivity.
  intros pm p lwt pre post [dt1 ed1] Hpre.
  unfold Amcache8Parser._ProcessAMCacheProgramKey. cbn [GetValues].
  rewrite (for_each_raises _ pre post _ _ (dt1, ed1) TypeError Hpre);
    reflexivity.
Qed.

Lemma legacy_program_list_fields_witness :
  Amcache8Parser._ProcessAMCacheProgramKey []
    (legacy_program_key
       ([mkValue "0" (DStr "IDA Free"); mkValue "7" DNone]
        ++ mkValue "d" DNone :: [mkValue "a" (DInt 1516010400)]))
  = (Raised TypeError, []).
Proof.
  eapply (proj2 (proj2 (proj2 (proj2 (proj2 (proj2 (proj2 (proj2 (proj2 (proj2
            (legacy_program_list_fields 0 AmcacheProgramEventData.init)))))))))));
    reflexivity.
Defined.


(** ** Stripping the prefix of the hash *)

Lemma slice_from_split (n : nat) :
  forall s, (n <= String.length s)%nat ->
    exists prefix, String.length prefix = n
                   /\ s = String.append prefix (slice_from n s).
Proof.
  induction n as [|n IH]; intros s Hlen.
  - exists "". split; reflexivity.
  - destruct s as [|c s]; simpl in Hlen; [lia|].
    destruct (IH s ltac:(lia)) as (prefix & Hp & Hs).
    exists (String c prefix). simpl. split; [lia|]. rewrite <- Hs. reflexivity.
Qed.

Lemma slice_from_short (n : nat) :
  forall s, (String.length s <= n)%nat -> slice_from n s = "".
Proof.
  induction n as [|n IH]; intros s Hlen.
  - destruct s; simpl in *; [reflexivity | lia].
  - destruct s as [|c s]; simpl in *; [reflexivity | apply IH; lia].
Qed.

(** C6 (as the code has it): under "FileId" and under "101" the stored
    sha1 is the text from its fifth character on.  For a text of four or
    more characters that is the text without its first four characters; for
    a shorter text it is the empty string, and nothing is raised. *)
Theorem hash_prefix_strip (mktime : datetime -> Z) (s : string) :
  (forall ed i,
     Amcache10Parser.FileKey_body mktime (ed, i) (mkValue "FileId" (DStr s))
     = Returned (AmcacheEventData.set_sha1 (slice_from 4 s) ed, i))
  /\ (forall dt ed,
     Amcache8Parser.FileKey_body (dt, ed)
       (mkValue Amcache8Parser._AMCACHE_SHA1 (DStr s))
     = Returned (dt, AmcacheEventData.set_sha1 (slice_from 4 s) ed))
  /\ ((4 <= String.length s)%nat ->
      exists prefix, String.length prefix = 4%nat
                     /\ s = String.append prefix (slice_from 4 s))
  /\ ((String.length s < 4)%nat -> slice_from 4 s = "").
Proof.
  split; [|split; [|split]].
  - intros ed i. reflexivity.
  - intros dt ed. reflexivity.
  - apply slice_from_split.
  - intros H. apply slice_from_short. lia.
Qed.

Lemma hash_prefix_strip_witness :
  (exists prefix,
     String.length prefix = 4%nat
     /\ "0000152c524176f105f26d4bed892a454031fb8b871b"
        = String.append prefix
            (slice_from 4 "0000152c524176f105f26d4bed892a454031fb8b871b"))
  /\ slice_from 4 "000" = "".
Proof.
  split.
  - apply (proj1 (proj2 (proj2
             (hash_prefix_strip timegm
                "0000152c524176f105f26d4bed892a454031fb8b871b")))).
    simpl. lia.
  - apply (proj2 (proj2 (proj2 (hash_prefix_strip timegm "000")))).
    simpl. lia.
Defined.

(** C6, the claim fails here: a hash text of three characters raises
    nothing; the sha1 of the record is set to the empty string, in the
    modern and in the legacy file decoder. *)
Lemma short_hash_becomes_empty :
  Amcache10Parser.FileKey_body timegm (AmcacheEventData.init, None)
    (mkValue "FileId" (DStr "abc"))
  = Returned (AmcacheEventData.set_sha1 "" AmcacheEventData.init, None)
  /\ Amcache8Parser.FileKey_body (0, AmcacheEventData.init)
       (mkValue "101" (DStr "abc"))
     = Returned (0, AmcacheEventData.set_sha1 "" AmcacheEventData.init)
  /\ String.length "abc" = 3%nat.
Proof. repeat split. Qed.

(** ** Integer fields *)

Lemma decimal_digit_cases d :
  decimal_digit d ->
  d = 0 \/ d = 1 \/ d = 2 \/ d = 3 \/ d = 4 \/ d = 5 \/ d = 6 \/ d = 7
  \/ d = 8 \/ d = 9.
Proof. unfold decimal_digit. lia. Qed.

Lemma chars_numeral ds : chars (numeral ds) = map digit_char ds.
Proof. apply list_ascii_of_string_of_list_ascii. Qed.

Lemma digit_char_value d :
  decimal_digit d ->
  digit_value (digit_char d) = Some d
  /\ Ascii.eqb (digit_char d) "_" = false.
Proof.
  intros Hd. apply decimal_digit_cases in Hd.
  destruct Hd as [->|[->|[->|[->|[->|[->|[->|[->|[->| ->]]]]]]]]];
    split; reflexivity.
Qed.

Lemma scan_digits_numeral (base : Z) (ds : list Z) :
  10 <= base ->
  Forall decimal_digit ds ->
  forall acc count,
    scan_digits base false acc count (map digit_char ds)
    = Some (fold_left (fun a d => a * base + d) ds acc,
            (count + List.length ds)%nat, []).
Proof.
  intros Hbase Hds. induction Hds as [|d ds Hd _ IH]; intros acc count.
  - simpl. rewrite Nat.add_0_r. reflexivity.
  - cbn [map fold_left List.length].
    rewrite Nat.add_succ_r.
    change (S (count + List.length ds))%nat with (S count + List.length ds)%nat.
    rewrite <- (IH (acc * base + d) (S count)).
    cbn [scan_digits].
    destruct (digit_char_value d Hd) as [Hvalue Hus].
    rewrite Hus, Hvalue.
    replace (d <? base) with true
      by (symmetry; apply Z.ltb_lt; unfold decimal_digit in Hd; lia).
    reflexivity.
Qed.

(** A clean decimal numeral is read as its digits in the base asked for:
    in base 16 the text "16" is twenty-two. *)
Lemma py_int_numeral (base : Z) (ds : list Z) :
  base = 10 \/ base = 16 ->
  ds <> [] ->
  Forall decimal_digit ds ->
  py_int (numeral ds) base = Returned (digits_value base ds).
Proof.
  intros Hbase Hne Hds.
  assert (H10 : 10 <= base) by lia.
  pose proof (scan_digits_numeral base ds H10 Hds 0 0%nat) as Hscan.
  unfold py_int. rewrite chars_numeral.
  destruct ds as [|d ds]; [congruence|].
  inversion Hds as [|? ? Hd Hds']; subst.
  apply decimal_digit_cases in Hd.
  assert (Hstrip : forall d0 rest0,
            decimal_digit d0 -> Forall decimal_digit rest0 ->
            strip_0x (digit_char d0 :: map digit_char rest0)
            = digit_char d0 :: map digit_char rest0).
  { intros d0 rest0 Hd0 Hrest0.
    apply decimal_digit_cases in Hd0.
    destruct Hd0 as [->|[->|[->|[->|[->|[->|[->|[->|[->| ->]]]]]]]]];
      try reflexivity.
    destruct rest0 as [|d1 rest1]; [reflexivity|].
    inversion Hrest0 as [|? ? Hd1 _]; subst.
    apply decimal_digit_cases in Hd1.
    destruct Hd1 as [->|[->|[->|[->|[->|[->|[->|[->|[->| ->]]]]]]]]];
      reflexivity. }
  specialize (Hstrip d ds ltac:(unfold decimal_digit; lia) Hds').
  assert (Hsign : strip_sign (lstrip (map digit_char (d :: ds)))
                  = (false, map digit_char (d :: ds))).
  { destruct Hd as [->|[->|[->|[->|[->|[->|[->|[->|[->| ->]]]]]]]]];
      reflexivity. }
  rewrite Hsign.
  assert (Hcs : (if base =? 16 then strip_0x (map digit_char (d :: ds))
                 else map digit_char (d :: ds)) = map digit_char (d :: ds)).
  { destruct (base =? 16); [exact Hstrip | reflexivity]. }
  rewrite Hcs.
  assert (Hus : forall rest : Outcome Z, match map digit_char (d :: ds) with
                | "_"%char :: _ => Raised ValueError
                | _ => rest
                end = rest).
  { intros rest.
    destruct Hd as [->|[->|[->|[->|[->|[->|[->|[->|[->| ->]]]]]]]]];
      reflexivity. }
  rewrite Hus, Hscan. reflexivity.
Qed.

Lemma int_space_is_no_digit (c : ascii) :
  is_int_space c = true ->
  digit_value c = None /\ Ascii.eqb c "_" = false
  /\ Ascii.eqb c "+" = false /\ Ascii.eqb c "-" = false
  /\ Ascii.eqb c "0" = false.
Proof.
  destruct c as [[] [] [] [] [] [] [] []]; intros H; try discriminate H;
    repeat split; reflexivity.
Qed.

Lemma lstrip_white_space before rest :
  white_space before ->
  match rest with c :: _ => is_int_space c = false | [] => True end ->
  lstrip (before ++ rest) = rest.
Proof.
  intros Hws Hrest. induction Hws as [|c before Hc _ IH]; cbn [app lstrip].
  - destruct rest as [|c rest]; [reflexivity|]. cbn [lstrip]. rewrite Hrest.
    reflexivity.
  - rewrite Hc. exact IH.
Qed.

Lemma lstrip_split cs :
  exists before,
    cs = before ++ lstrip cs /\ white_space before
    /\ match lstrip cs with c :: _ => is_int_space c = false | [] => True end.
Proof.
  induction cs as [|c cs (before & Hcs & Hws & Hhead)].
  - exists []. repeat split. constructor.
  - cbn [lstrip]. destruct (is_int_space c) eqn:E.
    + exists (c :: before). cbn [app]. rewrite <- Hcs.
      repeat split; [constructor; assumption | exact Hhead].
    + exists []. repeat split; [constructor | exact E].
Qed.

Lemma lstrip_nil cs : lstrip cs = [] -> white_space cs.
Proof.
  intros H. destruct (lstrip_split cs) as (before & Hcs & Hws & _).
  rewrite H, List.app_nil_r in Hcs. subst. exact Hws.
Qed.

Lemma lstrip_all cs : white_space cs -> lstrip cs = [].
Proof.
  intros H. rewrite <- (List.app_nil_r cs). apply lstrip_white_space; auto.
Qed.

Lemma digit_is_no_underscore c d :
  digit_value c = Some d -> Ascii.eqb c "_" = false.
Proof.
  destruct (Ascii.eqb c "_") eqn:E; [|reflexivity].
  apply Ascii.eqb_eq in E. subst c. discriminate.
Qed.

Lemma scan_digits_run base cs :
  forall acc v count rest,
    digit_run base cs acc v -> ends_run base rest ->
    exists count',
      scan_digits base false acc count (cs ++ rest) = Some (v, count', rest)
      /\ (count <= count')%nat /\ (cs <> [] -> (count < count')%nat).
Proof.
  intros acc v count rest Hrun Hends. revert count.
  induction Hrun as [acc|c d cs acc v Hc Hd Hrun IH|c d cs acc v Hc Hd Hrun IH];
    intros count.
  - exists count. split; [|split; [lia | congruence]].
    cbn [app]. destruct rest as [|c rest]; [reflexivity|].
    destruct Hends as [Hus Hdig]. cbn [scan_digits]. rewrite Hus.
    destruct (digit_value c) as [d|]; [|reflexivity].
    replace (d <? base) with false by (symmetry; apply Z.ltb_ge; lia).
    reflexivity.
  - destruct (IH (S count)) as (count' & Hscan & Hle & _).
    exists count'. split; [|split; [lia | intros _; lia]].
    cbn [app scan_digits]. rewrite (digit_is_no_underscore c d Hc), Hc.
    replace (d <? base) with true by (symmetry; apply Z.ltb_lt; lia).
    exact Hscan.
  - destruct (IH (S count)) as (count' & Hscan & Hle & _).
    exists count'. split; [|split; [lia | intros _; lia]].
    cbn [app scan_digits]. change (Ascii.eqb "_" "_") with true. cbv iota.
    rewrite (digit_is_no_underscore c d Hc), Hc.
    replace (d <? base) with true by (symmetry; apply Z.ltb_lt; lia).
    exact Hscan.
Qed.

Lemma scan_digits_split base cs :
  forall prev acc count v count' rest,
    scan_digits base prev acc count cs = Some (v, count', rest) ->
    exists run,
      cs = run ++ rest
      /\ (if prev then digit_run base ("_"%char :: run) acc v
          else digit_run base run acc v)
      /\ (if prev then (count < count')%nat
          else (count <= count')%nat /\ (run = [] -> count' = count)).
Proof.
  induction cs as [|c cs IH]; intros prev acc count v count' rest H.
  - cbn [scan_digits] in H. destruct prev; [discriminate|].
    inversion H; subst. exists []. repeat split; [constructor | lia].
  - cbn [scan_digits] in H.
    destruct (Ascii.eqb c "_") eqn:Eus.
    + destruct prev; [discriminate|].
      apply Ascii.eqb_eq in Eus. subst c.
      destruct (IH _ _ _ _ _ _ H) as (run & -> & Hrun & Hcount).
      exists ("_"%char :: run).
      repeat split; [exact Hrun | lia | discriminate].
    + destruct (digit_value c) as [d|] eqn:Ed.
      * destruct (d <? base) eqn:Elt.
        -- apply Z.ltb_lt in Elt.
           destruct (IH _ _ _ _ _ _ H) as (run & -> & Hrun & Hle & _).
           exists (c :: run). split; [reflexivity|].
           destruct prev.
           ++ split; [|lia]. apply (run_underscore base c d); assumption.
           ++ split; [|split; [lia | discriminate]].
              apply (run_digit base c d); assumption.
        -- destruct prev; [discriminate|]. inversion H; subst.
           exists []. repeat split; [constructor | lia].
      * destruct prev; [discriminate|]. inversion H; subst.
        exists []. repeat split; [constructor | lia].
Qed.

Lemma white_space_ends_run base cs : white_space cs -> ends_run base cs.
Proof.
  intros H. destruct H as [|c cs Hc _]; [exact I|].
  destruct (int_space_is_no_digit c Hc) as (Hd & Hus & _).
  cbn [ends_run]. rewrite Hd. split; [exact Hus | exact I].
Qed.

Lemma digit_is_no_space c d :
  digit_value c = Some d -> is_int_space c = false.
Proof.
  intros H. destruct (is_int_space c) eqn:E; [|reflexivity].
  rewrite (proj1 (int_space_is_no_digit c E)) in H. discriminate.
Qed.

Lemma py_int_raises text base e : py_int text base = Raised e -> e = ValueError.
Proof.
  unfold py_int.
  destruct (strip_sign (lstrip (chars text))) as [negative cs].
  set (cs' := if base =? 16 then strip_0x cs else cs).
  assert (Hscan :
            match scan_digits base false 0 0 cs' with
            | Some (v, count, rest) =>
                match count, lstrip rest with
                | S _, [] => Returned (if negative then - v else v)
                | _, _ => Raised ValueError
                end
            | None => Raised ValueError
            end = Raised e -> e = ValueError).
  { destruct (scan_digits base false 0 0 cs') as [[[v count] rest]|];
      [|congruence].
    destruct count; [congruence|]. destruct (lstrip rest); congruence. }
  destruct cs' as [|c cs'']; [exact Hscan|].
  destruct c as [[] [] [] [] [] [] [] []]; try exact Hscan; congruence.
Qed.

(** The first character of a run is a digit of the base or an underscore. *)
Lemma digit_run_head base cs acc v :
  digit_run base cs acc v ->
  match cs with
  | [] => True
  | c :: _ => Ascii.eqb c "_" = true
              \/ exists d, digit_value c = Some d /\ d < base
  end.
Proof.
  intros H. destruct H; [exact I | right; eauto | left; reflexivity].
Qed.

Lemma strip_0x_digits c d rest after v :
  digit_value c = Some d -> d < 16 -> digit_run 16 rest d v ->
  white_space after ->
  strip_0x (c :: rest ++ after) = c :: rest ++ after.
Proof.
  intros Hc Hd Hrun Hws. cbn [strip_0x].
  destruct (Ascii.eqb c "0") eqn:E0.
  - apply Ascii.eqb_eq in E0. subst c.
    destruct (rest ++ after) as [|x more] eqn:Emore; [reflexivity|].
    assert (Hx : Ascii.eqb x "x" || Ascii.eqb x "X" = false).
    { destruct rest as [|r rest'].
      - cbn [app] in Emore. subst after. inversion Hws as [|? ? Hsp _]; subst.
        destruct x as [[] [] [] [] [] [] [] []]; try discriminate Hsp;
          reflexivity.
      - cbn [app] in Emore. inversion Emore; subst.
        pose proof (digit_run_head _ _ _ _ Hrun) as Hhead. cbn in Hhead.
        destruct Hhead as [Hus|(d' & Hd' & Hlt)].
        + apply Ascii.eqb_eq in Hus. subst x. reflexivity.
        + destruct (Ascii.eqb x "x") eqn:Ex.
          * apply Ascii.eqb_eq in Ex. subst x. inversion Hd'; subst. lia.
          * destruct (Ascii.eqb x "X") eqn:EX; [|reflexivity].
            apply Ascii.eqb_eq in EX. subst x. inversion Hd'; subst. lia. }
    rewrite Hx. reflexivity.
  - destruct c as [[] [] [] [] [] [] [] []]; try discriminate E0;
      reflexivity.
Qed.

(** [int(text, 16)] returns for the hexadecimal literals, with their
    value, and for nothing else. *)
Lemma py_int_hex_literal (text : string) (n : Z) :
  py_int text 16 = Returned n <-> hex_literal text n.
Proof.
  split.
  - unfold py_int. change (16 =? 16) with true. cbv iota.
    destruct (lstrip_split (chars text)) as (before & Hchars & Hbefore & _).
    destruct (strip_sign (lstrip (chars text))) as [negative cs2] eqn:Esign.
    assert (Hsign : exists sign,
              lstrip (chars text) = sign ++ cs2
              /\ ((sign = [] /\ negative = false)
                  \/ (sign = ["+"%char] /\ negative = false)
                  \/ (sign = ["-"%char] /\ negative = true))).
    { unfold strip_sign in Esign.
      destruct (lstrip (chars text)) as [|c cs];
        [inversion Esign; subst; exists []; (split; [reflexivity | auto])|].
      destruct (Ascii.eqb c "+") eqn:Ep.
      - apply Ascii.eqb_eq in Ep. subst c. inversion Esign; subst.
        exists ["+"%char]. split; [reflexivity | auto].
      - destruct (Ascii.eqb c "-") eqn:Em.
        + apply Ascii.eqb_eq in Em. subst c. inversion Esign; subst.
          exists ["-"%char]. split; [reflexivity | auto].
        + destruct c as [[] [] [] [] [] [] [] []];
            try discriminate Ep; try discriminate Em;
            inversion Esign; subst; exists [];
            (split; [reflexivity | auto]). }
    destruct Hsign as (sign & Hcs1 & Hneg).
    assert (Hprefix : exists prefix,
              cs2 = prefix ++ strip_0x cs2 /\ In prefix hex_prefixes).
    { unfold hex_prefixes.
      destruct cs2 as [|c0 cs]; [exists []; split; [reflexivity | left; auto]|].
      destruct (Ascii.eqb c0 "0") eqn:E0.
      - apply Ascii.eqb_eq in E0. subst c0. cbn [strip_0x].
        destruct cs as [|x cs]; [exists []; split; [reflexivity|left; auto]|].
        destruct (Ascii.eqb x "x") eqn:Ex.
        + apply Ascii.eqb_eq in Ex. subst x. cbn [orb].
          destruct cs as [|u cs];
            [exists ["0"; "x"]%char; split; [reflexivity | right; left; auto]|].
          destruct (Ascii.eqb u "_") eqn:Eu.
          * apply Ascii.eqb_eq in Eu. subst u.
            exists ["0"; "x"; "_"]%char.
            split; [reflexivity | right; right; right; left; auto].
          * exists ["0"; "x"]%char. split; [|right; left; auto].
            destruct u as [[] [] [] [] [] [] [] []]; try discriminate Eu;
              reflexivity.
        + destruct (Ascii.eqb x "X") eqn:EX.
          * apply Ascii.eqb_eq in EX. subst x. cbn [orb].
            destruct cs as [|u cs];
              [exists ["0"; "X"]%char; split;
               [reflexivity | right; right; left; auto]|].
            destruct (Ascii.eqb u "_") eqn:Eu.
            -- apply Ascii.eqb_eq in Eu. subst u.
               exists ["0"; "X"; "_"]%char.
               split; [reflexivity | right; right; right; right; left; auto].
            -- exists ["0"; "X"]%char. split; [|right; right; left; auto].
               destruct u as [[] [] [] [] [] [] [] []]; try discriminate Eu;
                 reflexivity.
          * exists []. split; [reflexivity | left; auto].
      - exists []. split; [|left; auto].
        destruct c0 as [[] [] [] [] [] [] [] []]; try discriminate E0;
          reflexivity. }
    destruct Hprefix as (prefix & Hcs2 & Hin).
    remember (strip_0x cs2) as cs3 eqn:Ecs3. clear Ecs3.
    intros H.
    assert (Hhead : match cs3 with
                    | c :: _ => Ascii.eqb c "_" = false
                    | [] => True
                    end).
    { destruct cs3 as [|c cs]; [exact I|].
      destruct (Ascii.eqb c "_") eqn:E; [|reflexivity].
      apply Ascii.eqb_eq in E. subst c. discriminate H. }
    assert (H' : match scan_digits 16 false 0 0 cs3 with
                 | Some (v, count, rest) =>
                     match count, lstrip rest with
                     | S _, [] => Returned (if negative then - v else v)
                     | _, _ => Raised ValueError
                     end
                 | None => Raised ValueError
                 end = Returned n).
    { destruct cs3 as [|c cs]; [exact H|].
      destruct c as [[] [] [] [] [] [] [] []]; try exact H;
        discriminate Hhead. }
    clear H.
    destruct (scan_digits 16 false 0 0 cs3) as [[[v count] rest]|] eqn:Escan;
      [|discriminate].
    destruct count as [|count]; [discriminate|].
    destruct (lstrip rest) eqn:Erest; [|discriminate].
    inversion H'; subst n. clear H'.
    destruct (scan_digits_split _ _ _ _ _ _ _ _ Escan)
      as (run & Hcs3 & Hrun & _ & Hcount).
    cbv iota in Hrun.
    destruct run as [|c run];
      [specialize (Hcount eq_refl); discriminate Hcount | clear Hcount].
    rewrite Hcs3 in Hhead. cbn [app] in Hhead.
    inversion Hrun as [|c' d cs' acc' v' Hc Hd Hrest|]; subst;
      [|discriminate Hhead].
    exists before, sign, prefix, (c :: run), rest, v.
    split.
    { rewrite Hchars, Hcs1. reflexivity. }
    split; [exact Hbefore|]. split; [apply lstrip_nil; exact Erest|].
    split.
    { destruct Hneg as [[-> ->]|[[-> ->]|[-> ->]]]; auto. }
    split; [exact Hin|].
    exists c, d, run. repeat split; assumption.
  - intros (before & sign & prefix & digits & after & v
            & Hchars & Hbefore & Hafter & Hsign & Hprefix & Hdigits).
    destruct Hdigits as (c & d & rest & -> & Hc & Hd & Hrun).
    assert (Hspace : is_int_space c = false)
      by exact (digit_is_no_space c d Hc).
    assert (Hus : Ascii.eqb c "_" = false)
      by exact (digit_is_no_underscore c d Hc).
    assert (Hscan : exists count,
              scan_digits 16 false 0 0 ((c :: rest) ++ after)
              = Some (v, S count, after)).
    { destruct (scan_digits_run 16 (c :: rest) 0 v 0%nat after
                  (run_digit 16 c d rest 0 v Hc Hd Hrun)
                  (white_space_ends_run 16 after Hafter))
        as (count' & Hscan & _ & Hpos).
      specialize (Hpos ltac:(discriminate)).
      destruct count' as [|count]; [lia|]. exists count. exact Hscan. }
    destruct Hscan as [count Hscan].
    assert (Hstrip : strip_0x (prefix ++ (c :: rest) ++ after)
                     = (c :: rest) ++ after).
    { unfold hex_prefixes in Hprefix.
      destruct Hprefix as [<-|[<-|[<-|[<-|[<-|[]]]]]]; cbn [app].
      - exact (strip_0x_digits c d rest after v Hc Hd Hrun Hafter).
      - cbn [strip_0x]. change (Ascii.eqb "x" "x" || Ascii.eqb "x" "X")
          with true. cbv iota.
        destruct c as [[] [] [] [] [] [] [] []]; try discriminate Hus;
          reflexivity.
      - cbn [strip_0x]. change (Ascii.eqb "X" "x" || Ascii.eqb "X" "X")
          with true. cbv iota.
        destruct c as [[] [] [] [] [] [] [] []]; try discriminate Hus;
          reflexivity.
      - reflexivity.
      - reflexivity. }
    assert (Hguard : forall r : Outcome Z,
              match (c :: rest) ++ after with
              | "_"%char :: _ => Raised ValueError
              | _ => r
              end = r).
    { intros r. cbn [app].
      destruct c as [[] [] [] [] [] [] [] []]; try discriminate Hus;
        reflexivity. }
    assert (Hhead : forall more,
              match prefix ++ (c :: rest) ++ more with
              | h :: _ =>
                  is_int_space h = false /\ Ascii.eqb h "+" = false
                  /\ Ascii.eqb h "-" = false
              | [] => True
              end).
    { intros more. unfold hex_prefixes in Hprefix.
      destruct Hprefix as [<-|[<-|[<-|[<-|[<-|[]]]]]]; cbn [app];
        try (repeat split; reflexivity).
      split; [exact Hspace|].
      destruct c as [[] [] [] [] [] [] [] []]; try discriminate Hc;
        split; reflexivity. }
    assert (Hsigned : strip_sign (lstrip (chars text))
                      = (match sign with
                         | ["-"%char] => true
                         | _ => false
                         end, prefix ++ (c :: rest) ++ after)).
    { rewrite Hchars. pose proof (Hhead after) as HR.
      set (R := prefix ++ (c :: rest) ++ after) in *. clearbody R.
      destruct Hsign as [[-> _]|[[-> _]|[-> _]]]; cbn [app].
      - destruct R as [|h more].
        + rewrite List.app_nil_r, (lstrip_all before Hbefore). reflexivity.
        + destruct HR as (Hsp & Hp & Hm).
          rewrite (lstrip_white_space before (h :: more) Hbefore Hsp).
          unfold strip_sign.
          destruct h as [[] [] [] [] [] [] [] []];
            try discriminate Hp; try discriminate Hm; reflexivity.
      - rewrite (lstrip_white_space before ("+"%char :: R) Hbefore eq_refl).
        reflexivity.
      - rewrite (lstrip_white_space before ("-"%char :: R) Hbefore eq_refl).
        reflexivity. }
    unfold py_int. rewrite Hsigned. change (16 =? 16) with true. cbv iota.
    rewrite Hstrip, Hguard, Hscan, (lstrip_all after Hafter).
    destruct Hsign as [[-> ->]|[[-> ->]|[-> ->]]]; reflexivity.
Qed.

(** C2 (as the code has it): under the modern "Language" and "Size" an
    [int] payload is the value itself.  A [str] payload is read in base 16
    whatever it looks like: it is decoded exactly when it is a hexadecimal
    literal (white space, sign, [0x], hexadecimal digits with single
    underscores between them, white space), to the value of the literal,
    and every other text raises ValueError.  So a clean decimal numeral is
    read as hexadecimal too ("16" is 22), "1a" is 26 and "zz" raises
    ValueError.  The legacy "3" and "6" have no second reading: an [int]
    payload is the value itself and every [str] payload raises
    ValueError. *)
Theorem integer_fields_decoding (mktime : datetime -> Z) :
  (forall ed i n,
     Amcache10Parser.FileKey_body mktime (ed, i) (mkValue "Language" (DInt n))
     = Returned (AmcacheEventData.set_languagecode n ed, i))
  /\ (forall ed i n,
     Amcache10Parser.FileKey_body mktime (ed, i) (mkValue "Size" (DInt n))
     = Returned (AmcacheEventData.set_filesize n ed, i))
  /\ (forall ed i s n,
     Amcache10Parser.FileKey_body mktime (ed, i) (mkValue "Language" (DStr s))
     = Returned (AmcacheEventData.set_languagecode n ed, i)
     <-> hex_literal s n)
  /\ (forall ed i s n,
     Amcache10Parser.FileKey_body mktime (ed, i) (mkValue "Size" (DStr s))
     = Returned (AmcacheEventData.set_filesize n ed, i)
     <-> hex_literal s n)
  /\ (forall ed i s,
     (forall n, ~ hex_literal s n) ->
     Amcache10Parser.FileKey_body mktime (ed, i) (mkValue "Language" (DStr s))
     = Raised ValueError
     /\ Amcache10Parser.FileKey_body mktime (ed, i) (mkValue "Size" (DStr s))
        = Raised ValueError)
  /\ (forall ds, ds <> [] -> Forall decimal_digit ds ->
        hex_literal (numeral ds) (digits_value 16 ds))
  /\ (forall ed i,
     Amcache10Parser.FileKey_body mktime (ed, i) (mkValue "Size" (DStr "16"))
     = Returned (AmcacheEventData.set_filesize 22 ed, i)
     /\ Amcache10Parser.FileKey_body mktime (ed, i)
          (mkValue "Size" (DStr "1a"))
        = Returned (AmcacheEventData.set_filesize 26 ed, i)
     /\ Amcache10Parser.FileKey_body mktime (ed, i)
          (mkValue "Size" (DStr "zz"))
        = Raised ValueError)
  /\ (forall dt ed n,
     Amcache8Parser.FileKey_body (dt, ed)
       (mkValue Amcache8Parser._AMCACHE_LANGUAGECODE (DInt n))
     = Returned (dt, AmcacheEventData.set_languagecode n ed))
  /\ (forall dt ed n,
     Amcache8Parser.FileKey_body (dt, ed)
       (mkValue Amcache8Parser._AMCACHE_FILESIZE (DInt n))
     = Returned (dt, AmcacheEventData.set_filesize n ed))
  /\ (forall dt ed s,
     Amcache8Parser.FileKey_body (dt, ed)
       (mkValue Amcache8Parser._AMCACHE_LANGUAGECODE (DStr s))
     = Raised ValueError)
  /\ (forall dt ed s,
     Amcache8Parser.FileKey_body (dt, ed)
       (mkValue Amcache8Parser._AMCACHE_FILESIZE (DStr s))
     = Raised ValueError).
Proof.
  assert (Hlanguage : forall ed i s,
            Amcache10Parser.FileKey_body mktime (ed, i)
              (mkValue "Language" (DStr s))
            = (n <- py_int s 16 ;;
               Returned (AmcacheEventData.set_languagecode n ed, i)))
    by reflexivity.
  assert (Hsize : forall ed i s,
            Amcache10Parser.FileKey_body mktime (ed, i)
              (mkValue "Size" (DStr s))
            = (n <- py_int s 16 ;;
               Returned (AmcacheEventData.set_filesize n ed, i)))
    by reflexivity.
  split; [|split; [|split; [|split; [|split; [|split; [|split]]]]]].
  - intros. unfold Amcache10Parser.FileKey_body.
    cbn [name GetDataAsObject]. simpl String.eqb. cbv iota.
    rewrite int_format_d_cases. reflexivity.
  - intros. unfold Amcache10Parser.FileKey_body.
    cbn [name GetDataAsObject]. simpl String.eqb. cbv iota.
    rewrite int_format_d_cases. reflexivity.
  - intros ed i s n. rewrite Hlanguage, <- py_int_hex_literal.
    destruct (py_int s 16) as [n'|e]; cbn [bind].
    + split; intros H; inversion H; reflexivity.
    + split; discriminate.
  - intros ed i s n. rewrite Hsize, <- py_int_hex_literal.
    destruct (py_int s 16) as [n'|e]; cbn [bind].
    + split; intros H; inversion H; reflexivity.
    + split; discriminate.
  - intros ed i s Hnone. rewrite Hlanguage, Hsize.
    destruct (py_int s 16) as [n|e] eqn:E; cbn [bind].
    + apply py_int_hex_literal in E. destruct (Hnone n E).
    + rewrite (py_int_raises _ _ _ E). split; reflexivity.
  - intros ds Hne Hds. apply py_int_hex_literal.
    apply py_int_numeral; auto.
  - intros ed i. rewrite !Hsize. repeat split.
  - repeat split; intros;
      unfold Amcache8Parser.FileKey_body;
      cbn [name GetDataAsObject]; simpl String.eqb; cbv iota;
      rewrite ?int_format_d_cases; reflexivity.
Qed.

Lemma integer_fields_decoding_witness :
  hex_literal (numeral [1; 6]) (digits_value 16 [1; 6])
  /\ numeral [1; 6] = "16"
  /\ digits_value 16 [1; 6] = 22
  /\ Amcache10Parser.FileKey_body timegm (AmcacheEventData.init, None)
       (mkValue "Language" (DStr " -0x1A "))
     = Returned (AmcacheEventData.set_languagecode (-26) AmcacheEventData.init,
                 None).
Proof.
  split; [|split; [reflexivity|split; [reflexivity|]]].
  - apply (proj1 (proj2 (proj2 (proj2 (proj2 (proj2
             (integer_fields_decoding timegm))))))).
    + discriminate.
    + repeat constructor; unfold decimal_digit; lia.
  - apply (proj1 (proj2 (proj2 (integer_fields_decoding timegm)))).
    exists [" "%char], ["-"%char], ["0"; "x"]%char, ["1"; "A"]%char,
      [" "%char], 26.
    split; [reflexivity|].
    split; [repeat constructor|]. split; [repeat constructor|].
    split; [right; right; split; reflexivity|].
    split; [right; left; reflexivity|].
    exists "1"%char, 1, ["A"%char].
    split; [reflexivity|]. split; [reflexivity|]. split; [lia|].
    apply (run_digit 16 "A" 10 [] 1 26); [reflexivity | lia|].
    exact (run_end 16 26).
Defined.

(** C2, the claim fails here: the text "16" under the modern "Language"
    is decoded to 22, not to 16, and the text "1a" under the legacy "3"
    raises ValueError instead of giving 26. *)
Lemma decimal_text_is_read_as_hexadecimal :
  Amcache10Parser.FileKey_body timegm (AmcacheEventData.init, None)
    (mkValue "Language" (DStr "16"))
  = Returned (AmcacheEventData.set_languagecode 22 AmcacheEventData.init, None)
  /\ Amcache8Parser.FileKey_body (0, AmcacheEventData.init)
       (mkValue "3" (DStr "1a"))
     = Raised ValueError.
Proof. split; vm_compute; reflexivity. Qed.

(** ** The modern keys *)

Section Modern.

Variable mktime : datetime -> Z.

Lemma modern_program_produces pm key ed i :
  for_each (Amcache10Parser.ProgramKey_body mktime) (GetValues key)
    (AmcacheProgramEventData.init, None) = Returned (ed, i) ->
  Amcache10Parser._ProcessAMCacheWin10ProgramKey mktime pm key
  = produce_all
      ((mkEvent (last_written_time key) TIME_DESCRIPTION_INSTALLATION,
        ProgramData ed)
       :: match i with
          | Some n => [(mkEvent (PosixTime n) TIME_DESCRIPTION_INSTALLATION,
                        ProgramData ed)]
          | None => []
          end) pm.
Proof.
  intros H. unfold Amcache10Parser._ProcessAMCacheWin10ProgramKey.
  rewrite H. cbv zeta. cbn [produce_all fst snd].
  apply and_then_ext; [reflexivity|]. intros pm1.
  destruct i as [n|]; [|reflexivity].
  cbn [if_not_None produce_all fst snd]. unfold and_then.
  destruct (ProduceEventWithEventData _ _ pm1) as [[[]|e] pm2]; reflexivity.
Qed.

Lemma modern_program_returns pm key ed i pm' :
  for_each (Amcache10Parser.ProgramKey_body mktime) (GetValues key)
    (AmcacheProgramEventData.init, None) = Returned (ed, i) ->
  Amcache10Parser._ProcessAMCacheWin10ProgramKey mktime pm key
  = (Returned tt, pm') ->
  pm' = pm ++ (mkEvent (last_written_time key) TIME_DESCRIPTION_INSTALLATION,
               ProgramData ed)
           :: match i with
              | Some n =>
                  [(mkEvent (PosixTime n) TIME_DESCRIPTION_INSTALLATION,
                    ProgramData ed)]
              | None => []
              end.
Proof.
  intros H Hret. rewrite (modern_program_produces pm key ed i H) in Hret.
  exact (proj1 (produce_all_returned _ _ _ Hret)).
Qed.

Lemma modern_file_produces pm key ed i :
  for_each (Amcache10Parser.FileKey_body mktime) (GetValues key)
    (AmcacheEventData.init, None) = Returned (ed, i) ->
  Amcache10Parser._ProcessAMCacheWin10FileKey mktime pm key
  = produce_all
      ((mkEvent (last_written_time key) TIME_DESCRIPTION_MODIFICATION,
        FileData ed)
       :: events_if_truthy i
            (fun n => (mkEvent (PosixTime n) TIME_DESCRIPTION_CREATION,
                       FileData ed))) pm.
Proof.
  intros H. unfold Amcache10Parser._ProcessAMCacheWin10FileKey.
  rewrite H. cbv zeta. cbn [produce_all fst snd].
  apply and_then_ext; [reflexivity|]. intros pm1.
  apply (if_truthy_events _
           (fun n => (mkEvent (PosixTime n) TIME_DESCRIPTION_CREATION,
                      FileData ed))).
Qed.

Lemma modern_file_returns pm key ed i pm' :
  for_each (Amcache10Parser.FileKey_body mktime) (GetValues key)
    (AmcacheEventData.init, None) = Returned (ed, i) ->
  Amcache10Parser._ProcessAMCacheWin10FileKey mktime pm key
  = (Returned tt, pm') ->
  pm' = pm ++ (mkEvent (last_written_time key) TIME_DESCRIPTION_MODIFICATION,
               FileData ed)
           :: events_if_truthy i
                (fun n => (mkEvent (PosixTime n) TIME_DESCRIPTION_CREATION,
                           FileData ed)).
Proof.
  intros H Hret. rewrite (modern_file_produces pm key ed i H) in Hret.
  exact (proj1 (produce_all_returned _ _ _ Hret)).
Qed.

(** What one turn of the modern program loop does to [installdateint]. *)
Lemma modern_program_step ed i v ed' i' :
  Amcache10Parser.ProgramKey_body mktime (ed, i) v = Returned (ed', i') ->
  if name v == "InstallDate" then
    exists s, GetDataAsObject v = DStr s
      /\ (if s == "" then i' = i
          else exists t, strptime s = Returned t /\ i' = Some (mktime t))
  else i' = i.
Proof.
  unfold Amcache10Parser.ProgramKey_body.
  rewrite !int_format_d_cases.
  intros H.
  destruct (name v == "InstallDate") eqn:E.
  - destruct (GetDataAsObject v) as [n|s|l|]; simpl in H; try discriminate.
    exists s. split; [reflexivity|].
    destruct (s == ""); simpl in H.
    + inversion H; reflexivity.
    + rewrite strptime_seconds_spec in H.
      destruct (strptime s) as [t|e]; simpl in H; [|discriminate].
      exists t. split; [reflexivity|]. inversion H; reflexivity.
  - repeat match type of H with
    | context [String.eqb (name v) ?c] =>
        let E := fresh "E" in
        destruct (String.eqb (name v) c) eqn:E;
        [ destruct (GetDataAsObject v); simpl in H; try discriminate;
          inversion H; reflexivity
        | ]
    end.
    inversion H; reflexivity.
Qed.

(** After the loop, [installdateint] is still its initial value when every
    InstallDate of the key was the empty string, and the seconds of one
    of the non-empty InstallDate texts of the key otherwise. *)
Lemma modern_program_scan vs :
  forall ed0 i0 ed i,
    for_each (Amcache10Parser.ProgramKey_body mktime) vs (ed0, i0)
    = Returned (ed, i) ->
    (i = i0
     /\ forall v, In v vs -> name v = "InstallDate" ->
                  GetDataAsObject v = DStr "")
    \/ (exists s t,
          In (mkValue "InstallDate" (DStr s)) vs /\ s <> ""
          /\ strptime s = Returned t /\ i = Some (mktime t)).
Proof.
  induction vs as [|v vs IH]; intros ed0 i0 ed i H.
  - simpl in H. inversion H; subst. left. split; [reflexivity | intros v []].
  - cbn [for_each] in H.
    destruct (Amcache10Parser.ProgramKey_body mktime (ed0, i0) v)
      as [[ed1 i1]|e] eqn:Hv; [|discriminate].
    apply modern_program_step in Hv.
    destruct (IH _ _ _ _ H) as [[Hi Hall]|(s & t & Hin & Hs & Ht & Hi)].
    + destruct (name v == "InstallDate") eqn:E.
      * destruct Hv as (s & Hdata & Hs).
        destruct (s == "") eqn:Es.
        -- apply String.eqb_eq in Es. subst s.
           left. split; [congruence|].
           intros w [<-|Hw] Hname; [exact Hdata | exact (Hall w Hw Hname)].
        -- destruct Hs as (t & Ht & Hi1).
           right. exists s, t.
           apply String.eqb_eq in E. apply String.eqb_neq in Es.
           repeat split; try assumption; [|congruence].
           left. destruct v as [nm obj]; simpl in *. congruence.
      * left. split; [congruence|].
        intros w [<-|Hw] Hname; [|exact (Hall w Hw Hname)].
        apply String.eqb_neq in E. contradiction.
    + right. exists s, t. repeat split; try assumption. right; exact Hin.
Qed.

Lemma modern_program_returned pm key pm' :
  Amcache10Parser._ProcessAMCacheWin10ProgramKey mktime pm key
  = (Returned tt, pm') ->
  exists ed i,
    for_each (Amcache10Parser.ProgramKey_body mktime) (GetValues key)
      (AmcacheProgramEventData.init, None) = Returned (ed, i).
Proof.
  unfold Amcache10Parser._ProcessAMCacheWin10ProgramKey.
  destruct (for_each _ _ _) as [[ed i]|e]; [eauto | discriminate].
Qed.

(** C7 (as the code has it): when the modern program decoder returns
    normally, so that no value of the key raised, a key that carries a
    non-empty InstallDate text yields exactly two events, both
    Installation and both with the same event data: the first at the key's
    last-written time, the second at the Unix time of a non-empty
    InstallDate text of the key; a key whose InstallDate is the empty
    string, or that has none, yields exactly the first. *)
Theorem modern_program_emissions (pm pm' : ParserMediator)
    (key : WinRegistryKey) :
  Amcache10Parser._ProcessAMCacheWin10ProgramKey mktime pm key
  = (Returned tt, pm') ->
  ((exists s, In (mkValue "InstallDate" (DStr s)) (GetValues key) /\ s <> "") ->
   exists ed s t,
     In (mkValue "InstallDate" (DStr s)) (GetValues key) /\ s <> ""
     /\ strptime s = Returned t
     /\ pm' = pm ++ [(mkEvent (last_written_time key)
                        TIME_DESCRIPTION_INSTALLATION, ProgramData ed);
                     (mkEvent (PosixTime (mktime t))
                        TIME_DESCRIPTION_INSTALLATION, ProgramData ed)])
  /\ ((forall v, In v (GetValues key) -> name v = "InstallDate" ->
                 GetDataAsObject v = DStr "") ->
      exists ed,
        pm' = pm ++ [(mkEvent (last_written_time key)
                        TIME_DESCRIPTION_INSTALLATION, ProgramData ed)]).
Proof.
  intros Hret.
  destruct (modern_program_returned _ _ _ Hret) as (ed & i & Hscan).
  pose proof (modern_program_returns _ _ _ _ _ Hscan Hret) as Hpm.
  subst pm'. clear Hret.
  destruct (modern_program_scan _ _ _ _ _ Hscan)
    as [[Hi Hall]|(s & t & Hin & Hs & Ht & Hi)]; subst i.
  - split.
    + intros (s & Hin & Hs). apply Hall in Hin; [|reflexivity].
      simpl in Hin. congruence.
    + intros _. exists ed. reflexivity.
  - split.
    + intros _. exists ed, s, t. repeat split; assumption || reflexivity.
    + intros Hall. apply Hall in Hin; [|reflexivity].
      simpl in Hin. congruence.
Qed.

End Modern.

Lemma modern_program_emissions_witness :
  (exists ed s t,
     In (mkValue "InstallDate" (DStr s))
        [mkValue "Name" (DStr "IDA Free");
         mkValue "InstallDate" (DStr "01/15/2018 10:00:00");
         mkValue "Language" (DStr "en-us")]
     /\ s <> ""
     /\ strptime s = Returned t
     /\ snd (Amcache10Parser._ProcessAMCacheWin10ProgramKey timegm []
               (modern_program_key
                  [mkValue "Name" (DStr "IDA Free");
                   mkValue "InstallDate" (DStr "01/15/2018 10:00:00");
                   mkValue "Language" (DStr "en-us")]))
        = [] ++ [(mkEvent a_filetime TIME_DESCRIPTION_INSTALLATION,
                  ProgramData ed);
                 (mkEvent (PosixTime (timegm t))
                    TIME_DESCRIPTION_INSTALLATION, ProgramData ed)])
  /\ (exists ed,
        snd (Amcache10Parser._ProcessAMCacheWin10ProgramKey timegm []
               (modern_program_key
                  [mkValue "Name" (DStr "IDA Free");
                   mkValue "InstallDate" (DStr "")]))
        = [] ++ [(mkEvent a_filetime TIME_DESCRIPTION_INSTALLATION,
                  ProgramData ed)]).
Proof.
  split.
  - apply (proj1 (modern_program_emissions timegm [] _
                    (modern_program_key
                       [mkValue "Name" (DStr "IDA Free");
                        mkValue "InstallDate" (DStr "01/15/2018 10:00:00");
                        mkValue "Language" (DStr "en-us")]) eq_refl)).
    exists "01/15/2018 10:00:00". split; [right; left; reflexivity|].
    discriminate.
  - apply (proj2 (modern_program_emissions timegm [] _
                    (modern_program_key
                       [mkValue "Name" (DStr "IDA Free");
                        mkValue "InstallDate" (DStr "")]) eq_refl)).
    intros v [<-|[<-|[]]] Hname; [discriminate Hname | reflexivity].
Defined.

(** C7, the claim fails here: the key carries an InstallDate that parses,
    and a Version stored as an integer.  ['{:s}'.format] raises ValueError
    on the integer, the decoder is left, and the key yields no event
    instead of two. *)
Lemma undecodable_sibling_suppresses_installation_events :
  Amcache10Parser.ExtractEvents timegm []
    (modern_program_key
       [mkValue "InstallDate" (DStr "01/15/2018 10:00:00");
        mkValue "Version" (DInt 5)])
  = (Raised ValueError, [])
  /\ Amcache10Parser.strptime_seconds timegm "01/15/2018 10:00:00"
     = Returned 1516010400.
Proof. split; vm_compute; reflexivity. Qed.

(** ** The router of the Windows 10 plugin *)

Lemma prefix_app (a b s : string) :
  String.prefix (String.append a b) s = true -> String.prefix a s = true.
Proof.
  revert s. induction a as [|c a IH]; intros s H; [destruct s; reflexivity|].
  destruct s as [|c' s]; simpl in *; [discriminate|].
  destruct (ascii_dec c c'); [apply IH; exact H | discriminate].
Qed.

Lemma file_prefix_is_program_prefix (s : string) :
  startswith s Amcache10Parser._AMCACHE_ROOT_WIN10_FILE_KEY = true ->
  startswith s Amcache10Parser._AMCACHE_ROOT_WIN10_PROGRAM_KEY = true.
Proof.
  unfold startswith. intros H.
  apply (prefix_app Amcache10Parser._AMCACHE_ROOT_WIN10_PROGRAM_KEY "File").
  exact H.
Qed.

(** C9: a modern key with at least one value whose path starts with
    "\Root\InventoryApplicationFile" also starts with the program prefix
    "\Root\InventoryApplication"; the router tests the file prefix first,
    so it hands the key to the file decoder: its outcome is that decoder's,
    and every event it produces carries file event data, never program
    event data. *)
Theorem modern_router_tests_file_prefix_first (mktime : datetime -> Z)
    (pm : ParserMediator) (key : WinRegistryKey) :
  number_of_values key <> 0%nat ->
  startswith (path key) Amcache10Parser._AMCACHE_ROOT_WIN10_FILE_KEY = true ->
  startswith (path key) Amcache10Parser._AMCACHE_ROOT_WIN10_PROGRAM_KEY = true
  /\ Amcache10Parser.ExtractEvents mktime pm key
     = Amcache10Parser._ProcessAMCacheWin10FileKey mktime pm key
  /\ (forall produced,
        In produced (snd (Amcache10Parser.ExtractEvents mktime [] key)) ->
        exists d, snd produced = FileData d).
Proof.
  intros Hn Hfile.
  assert (Hrouted : forall pm0,
            Amcache10Parser.ExtractEvents mktime pm0 key
            = Amcache10Parser._ProcessAMCacheWin10FileKey mktime pm0 key).
  { intros pm0. unfold Amcache10Parser.ExtractEvents.
    apply Nat.eqb_neq in Hn. rewrite Hn, Hfile. reflexivity. }
  split; [apply file_prefix_is_program_prefix; exact Hfile|].
  split; [apply Hrouted|].
  intros produced. rewrite Hrouted.
  destruct (for_each (Amcache10Parser.FileKey_body mktime) (GetValues key)
              (AmcacheEventData.init, None)) as [[ed i]|e] eqn:Hscan.
  - rewrite (modern_file_produces mktime [] key ed i Hscan).
    intros Hin. apply produce_all_In in Hin.
    destruct Hin as [<-|Hin]; [exists ed; reflexivity|].
    apply events_if_truthy_In in Hin. destruct Hin as [n ->].
    exists ed; reflexivity.
  - unfold Amcache10Parser._ProcessAMCacheWin10FileKey. rewrite Hscan.
    intros [].
Qed.

Lemma strptime_empty : strptime "" = Raised ValueError.
Proof. reflexivity. Qed.

Lemma modern_router_tests_file_prefix_first_witness :
  startswith "\Root\InventoryApplicationFile\logonui.exe|8b1f"
    Amcache10Parser._AMCACHE_ROOT_WIN10_PROGRAM_KEY = true
  /\ Amcache10Parser.ExtractEvents timegm []
       (modern_file_key
          [mkValue "LowerCaseLongPath" (DStr "c:\windows\system32\logonui.exe");
           mkValue "Publisher" (DStr "microsoft corporation")])
     = Amcache10Parser._ProcessAMCacheWin10FileKey timegm []
         (modern_file_key
            [mkValue "LowerCaseLongPath"
               (DStr "c:\windows\system32\logonui.exe");
             mkValue "Publisher" (DStr "microsoft corporation")])
  /\ (forall produced,
        In produced
          (snd (Amcache10Parser.ExtractEvents timegm []
                  (modern_file_key
                     [mkValue "LowerCaseLongPath"
                        (DStr "c:\windows\system32\logonui.exe");
                      mkValue "Publisher" (DStr "microsoft corporation")]))) ->
        exists d, snd produced = FileData d).
Proof.
  apply (modern_router_tests_file_prefix_first timegm []
           (modern_file_key
              [mkValue "LowerCaseLongPath"
                 (DStr "c:\windows\system32\logonui.exe");
               mkValue "Publisher" (DStr "microsoft corporation")])).
  - discriminate.
  - reflexivity.
Defined.

(** * Further properties *)

Ltac along_chain v :=
  repeat match goal with
  | |- context [String.eqb (name v) ?c] =>
      destruct (String.eqb (name v) c); cbv iota
  end.

Ltac along_chain_eq v :=
  repeat match goal with
  | |- context [String.eqb (name v) ?c] =>
      let E := fresh "E" in
      destruct (String.eqb (name v) c) eqn:E; cbv iota;
      [apply String.eqb_eq in E | clear E]
  end.

Ltac open_outcomes :=
  repeat (match goal with
          | |- context [String.eqb ?s ""] => destruct (String.eqb s "")
          | |- context [Amcache10Parser.strptime_seconds ?m ?s] =>
              destruct (Amcache10Parser.strptime_seconds m s)
          | |- context [py_int ?s ?b] => destruct (py_int s b)
          end; simpl).

Ltac same_exception v :=
  along_chain v; destruct (GetDataAsObject v); simpl; open_outcomes;
  intros; congruence.

Ltac swap_turns x y :=
  along_chain_eq x; destruct (GetDataAsObject x); simpl; open_outcomes;
  (let H := fresh "H" in
   intros H; try discriminate H; inversion H; subst; clear H);
  along_chain_eq y; try congruence;
  destruct (GetDataAsObject y); simpl; open_outcomes;
  (let H := fresh "H" in
   intros H; try discriminate H; inversion H; subst; clear H);
  eexists; split; reflexivity.

Ltac unfold_names :=
  cbv delta [Amcache8Parser._AMCACHE_DATETIME Amcache8Parser._AMCACHE_FULL_PATH
    Amcache8Parser._AMCACHE_SHA1 Amcache8Parser._AMCACHE_PRODUCTNAME
    Amcache8Parser._AMCACHE_COMPANYNAME Amcache8Parser._AMCACHE_FILEVERSION
    Amcache8Parser._AMCACHE_LANGUAGECODE Amcache8Parser._AMCACHE_FILESIZE
    Amcache8Parser._AMCACHE_FILEDESCRIPTION Amcache8Parser._AMCACHE_LINKERTS
    Amcache8Parser._AMCACHE_LASTMODIFIEDTS Amcache8Parser._AMCACHE_CREATEDTS
    Amcache8Parser._AMCACHE_PROGRAMID
    Amcache8Parser._AMCACHE_P_INSTALLDATE Amcache8Parser._AMCACHE_P_NAME
    Amcache8Parser._AMCACHE_P_VERSION Amcache8Parser._AMCACHE_P_PUBLISHER
    Amcache8Parser._AMCACHE_P_LANGUAGECODE Amcache8Parser._AMCACHE_P_ENTRYTYPE
    Amcache8Parser._AMCACHE_P_UNINSTALLKEY Amcache8Parser._AMCACHE_P_FILEPATHS
    Amcache8Parser._AMCACHE_P_PRODUCTCODE Amcache8Parser._AMCACHE_P_PACKAGECODE
    Amcache8Parser._AMCACHE_P_MSIPRODUCTCODE
    Amcache8Parser._AMCACHE_P_MSIPACKAGECODE Amcache8Parser._AMCACHE_P_FILES].

Lemma modern_file_raise_any_state (mktime : datetime -> Z) v st st' e :
  Amcache10Parser.FileKey_body mktime st v = Raised e ->
  Amcache10Parser.FileKey_body mktime st' v = Raised e.
Proof.
  destruct st as [ed i], st' as [ed' i'].
  unfold Amcache10Parser.FileKey_body. rewrite !int_format_d_cases.
  same_exception v.
Qed.

Lemma modern_program_raise_any_state (mktime : datetime -> Z) v st st' e :
  Amcache10Parser.ProgramKey_body mktime st v = Raised e ->
  Amcache10Parser.ProgramKey_body mktime st' v = Raised e.
Proof.
  destruct st as [ed i], st' as [ed' i'].
  unfold Amcache10Parser.ProgramKey_body. rewrite !int_format_d_cases.
  same_exception v.
Qed.

Lemma legacy_program_raise_any_state v st st' e :
  Amcache8Parser.ProgramKey_body st v = Raised e ->
  Amcache8Parser.ProgramKey_body st' v = Raised e.
Proof.
  destruct st as [dt ed], st' as [dt' ed'].
  unfold Amcache8Parser.ProgramKey_body. rewrite !int_format_d_cases.
  unfold_names. same_exception v.
Qed.

Lemma legacy_file_raise_any_state v st st' e :
  Amcache8Parser.FileKey_body st v = Raised e ->
  Amcache8Parser.FileKey_body st' v = Raised e.
Proof.
  destruct st as [dt ed], st' as [dt' ed'].
  unfold Amcache8Parser.FileKey_body. rewrite !int_format_d_cases.
  unfold_names. same_exception v.
Qed.

Lemma modern_file_turns_commute (mktime : datetime -> Z) x y st st1 st2 :
  name x <> name y ->
  Amcache10Parser.FileKey_body mktime st x = Returned st1 ->
  Amcache10Parser.FileKey_body mktime st1 y = Returned st2 ->
  exists st1',
    Amcache10Parser.FileKey_body mktime st y = Returned st1'
    /\ Amcache10Parser.FileKey_body mktime st1' x = Returned st2.
Proof.
  intros Hne. destruct st as [ed i], st1 as [ed1 i1], st2 as [ed2 i2].
  unfold Amcache10Parser.FileKey_body. rewrite !int_format_d_cases.
  swap_turns x y.
Qed.

Lemma modern_program_turns_commute (mktime : datetime -> Z) x y st st1 st2 :
  name x <> name y ->
  Amcache10Parser.ProgramKey_body mktime st x = Returned st1 ->
  Amcache10Parser.ProgramKey_body mktime st1 y = Returned st2 ->
  exists st1',
    Amcache10Parser.ProgramKey_body mktime st y = Returned st1'
    /\ Amcache10Parser.ProgramKey_body mktime st1' x = Returned st2.
Proof.
  intros Hne. destruct st as [ed i], st1 as [ed1 i1], st2 as [ed2 i2].
  unfold Amcache10Parser.ProgramKey_body. rewrite !int_format_d_cases.
  swap_turns x y.
Qed.

Lemma legacy_program_turns_commute x y st st1 st2 :
  name x <> name y ->
  Amcache8Parser.ProgramKey_body st x = Returned st1 ->
  Amcache8Parser.ProgramKey_body st1 y = Returned st2 ->
  exists st1',
    Amcache8Parser.ProgramKey_body st y = Returned st1'
    /\ Amcache8Parser.ProgramKey_body st1' x = Returned st2.
Proof.
  intros Hne. destruct st as [dt ed], st1 as [dt1 ed1], st2 as [dt2 ed2].
  unfold Amcache8Parser.ProgramKey_body. rewrite !int_format_d_cases.
  unfold_names. swap_turns x y.
Qed.

Lemma legacy_file_turns_commute x y st st1 st2 :
  name x <> name y ->
  Amcache8Parser.FileKey_body st x = Returned st1 ->
  Amcache8Parser.FileKey_body st1 y = Returned st2 ->
  exists st1',
    Amcache8Parser.FileKey_body st y = Returned st1'
    /\ Amcache8Parser.FileKey_body st1' x = Returned st2.
Proof.
  intros Hne. destruct st as [dt ed], st1 as [dt1 ed1], st2 as [dt2 ed2].
  unfold Amcache8Parser.FileKey_body. rewrite !int_format_d_cases.
  unfold_names. swap_turns x y.
Qed.

Section LoopOverValues.

Variables S X N : Type.
Variable body : S -> X -> Outcome S.
Variable name_of : X -> N.

Hypothesis raise_any_state :
  forall x st st' e, body st x = Raised e -> body st' x = Raised e.

Hypothesis turns_commute :
  forall x y st st1 st2,
    name_of x <> name_of y ->
    body st x = Returned st1 -> body st1 y = Returned st2 ->
    exists st1', body st y = Returned st1' /\ body st1' x = Returned st2.

Lemma return_any_state x st st' st1 :
  body st x = Returned st1 -> exists st1', body st' x = Returned st1'.
Proof.
  intros H. destruct (body st' x) as [st1'|e] eqn:E; [eauto|].
  rewrite (raise_any_state _ _ st _ E) in H. discriminate.
Qed.

Lemma for_each_returns_iff (st0 st : S) (xs : list X) :
  (exists st', for_each body xs st = Returned st')
  <-> (forall x, In x xs -> decodes body st0 x).
Proof.
  revert st. induction xs as [|x xs IH]; intros st; simpl.
  - split; [intros _ x [] | eauto].
  - split.
    + intros [st' H] y [<-|Hy].
      * destruct (body st x) as [st1|e] eqn:E; [|discriminate].
        exact (return_any_state _ _ st0 _ E).
      * destruct (body st x) as [st1|e]; [|discriminate].
        apply (proj1 (IH st1)); eauto.
    + intros Hall.
      destruct (Hall x (or_introl eq_refl)) as [s0 Hx].
      destruct (return_any_state _ _ st _ Hx) as [st1 Hst1].
      rewrite Hst1. apply (proj2 (IH st1)). intros y Hy. apply Hall. now right.
Qed.

Lemma for_each_first_raise (st0 st : S) (pre post : list X) (x : X) e :
  (forall w, In w pre -> decodes body st0 w) ->
  body st0 x = Raised e ->
  for_each body (pre ++ x :: post) st = Raised e.
Proof.
  intros Hpre Hx.
  destruct (proj2 (for_each_returns_iff st0 st pre) Hpre) as [st' Hst'].
  apply (for_each_raises _ _ _ _ _ _ _ Hst').
  exact (raise_any_state _ _ _ _ Hx).
Qed.

Lemma for_each_permutation (xs ys : list X) :
  Permutation xs ys ->
  NoDup (map name_of xs) ->
  forall st st', for_each body xs st = Returned st' ->
                 for_each body ys st = Returned st'.
Proof.
  induction 1 as [|x xs ys Hperm IH|x y l|xs ys zs H1 IH1 H2 IH2];
    intros Hnodup st st' Hrun.
  - exact Hrun.
  - simpl in *. destruct (body st x) as [st1|e]; [|discriminate].
    inversion Hnodup; subst. apply IH; assumption.
  - simpl in *.
    destruct (body st y) as [st1|e] eqn:Ey; [|discriminate].
    destruct (body st1 x) as [st2|e] eqn:Ex; [|discriminate].
    assert (Hne : name_of y <> name_of x).
    { inversion Hnodup as [|? ? Hnotin _]; subst.
      intros Heq. apply Hnotin. left. symmetry. exact Heq. }
    destruct (turns_commute _ _ _ _ _ Hne Ey Ex) as (st1' & Hx & Hy).
    rewrite Hx, Hy. exact Hrun.
  - apply IH2.
    + apply (Permutation_NoDup (Permutation_map name_of H1)). exact Hnodup.
    + apply IH1; assumption.
Qed.

End LoopOverValues.

Lemma modern_file_runs_loop (mktime : datetime -> Z) :
  runs_loop (Amcache10Parser._ProcessAMCacheWin10FileKey mktime)
    (Amcache10Parser.FileKey_body mktime) (AmcacheEventData.init, None)
    modern_file_events.
Proof.
  intros pm key.
  destruct (for_each _ _ _) as [[ed i]|e] eqn:Hloop.
  - rewrite (modern_file_produces mktime pm key ed i Hloop). reflexivity.
  - unfold Amcache10Parser._ProcessAMCacheWin10FileKey. rewrite Hloop.
    reflexivity.
Qed.

Lemma modern_program_runs_loop (mktime : datetime -> Z) :
  runs_loop (Amcache10Parser._ProcessAMCacheWin10ProgramKey mktime)
    (Amcache10Parser.ProgramKey_body mktime)
    (AmcacheProgramEventData.init, None) modern_program_events.
Proof.
  intros pm key.
  destruct (for_each _ _ _) as [[ed i]|e] eqn:Hloop.
  - rewrite (modern_program_produces mktime pm key ed i Hloop). reflexivity.
  - unfold Amcache10Parser._ProcessAMCacheWin10ProgramKey. rewrite Hloop.
    reflexivity.
Qed.

Lemma legacy_program_runs_loop :
  runs_loop Amcache8Parser._ProcessAMCacheProgramKey
    Amcache8Parser.ProgramKey_body (0, AmcacheProgramEventData.init)
    (fun _ => legacy_program_events).
Proof.
  intros pm key. unfold Amcache8Parser._ProcessAMCacheProgramKey.
  destruct (for_each _ _ _) as [[dt ed]|e]; [|reflexivity].
  cbv zeta. unfold legacy_program_events. cbn [produce_all fst snd].
  unfold and_then.
  destruct (ProduceEventWithEventData _ _ pm) as [[[]|e] pm1]; reflexivity.
Qed.

Lemma legacy_file_runs_loop :
  runs_loop Amcache8Parser._ProcessAMCacheFileKey
    Amcache8Parser.FileKey_body (0, AmcacheEventData.init)
    (fun _ => legacy_file_all_events).
Proof.
  intros pm key.
  destruct (for_each _ _ _) as [[dt ed]|e] eqn:Hloop.
  - rewrite (legacy_file_produces pm key dt ed Hloop). reflexivity.
  - unfold Amcache8Parser._ProcessAMCacheFileKey. rewrite Hloop.
    reflexivity.
Qed.

Section DecoderOfLoop.

Variable S : Type.
Variable decode : Extractor.
Variable body : S -> WinRegistryValue -> Outcome S.
Variable st0 : S.
Variable events : DateTimeValues -> S -> ParserMediator.
Hypothesis Hruns : runs_loop decode body st0 events.

Lemma loop_appends_only : appends_only decode.
Proof.
  intros pm key. rewrite (Hruns pm key), (Hruns [] key).
  destruct (for_each body (GetValues key) st0) as [st|e].
  - apply produce_all_appends.
  - simpl. rewrite List.app_nil_r. reflexivity.
Qed.

Hypothesis raise_any_state :
  forall x st st' e, body st x = Raised e -> body st' x = Raised e.

Variable key_events : WinRegistryKey -> ParserMediator.

Hypothesis events_of_key :
  forall key st,
    for_each body (GetValues key) st0 = Returned st ->
    events (last_written_time key) st = key_events key.

Lemma loop_record_iff_values_decode :
  record_iff_values_decode decode body st0 key_events.
Proof.
  intros pm key.
  assert (Hproduces :
            (forall v, In v (GetValues key) -> decodes body st0 v) ->
            decode pm key = produce_all (key_events key) pm).
  { intros Hall.
    destruct (proj2 (for_each_returns_iff _ _ body raise_any_state st0 st0
                       (GetValues key)) Hall) as [st Hst].
    rewrite Hruns, Hst, (events_of_key key st Hst). reflexivity. }
  split; [split|split].
  - intros [pm' H].
    assert (Hall : forall v, In v (GetValues key) -> decodes body st0 v).
    { rewrite Hruns in H.
      apply (for_each_returns_iff _ _ body raise_any_state st0 st0).
      destruct (for_each body (GetValues key) st0) as [st|e];
        [eauto | discriminate]. }
    split; [exact Hall|].
    rewrite (Hproduces Hall) in H.
    exact (proj2 (produce_all_returned _ _ _ H)).
  - intros [Hall Haccepted].
    rewrite (Hproduces Hall), (produce_all_accepted _ pm Haccepted). eauto.
  - intros pre v post e Hvalues Hpre Hv.
    rewrite Hruns, Hvalues.
    rewrite (for_each_first_raise _ _ body raise_any_state st0 st0
               pre post v e Hpre Hv).
    reflexivity.
  - exact Hproduces.
Qed.

Hypothesis turns_commute :
  forall x y st st1 st2,
    name x <> name y ->
    body st x = Returned st1 -> body st1 y = Returned st2 ->
    exists st1', body st y = Returned st1' /\ body st1' x = Returned st2.

Lemma loop_order_independent : order_independent decode.
Proof.
  intros pm p lwt vs vs' Hperm Hnodup.
  assert (Hnodup' : NoDup (map name vs'))
    by (apply (Permutation_NoDup (Permutation_map name Hperm)); exact Hnodup).
  rewrite !Hruns. cbn [GetValues last_written_time].
  destruct (for_each body vs st0) as [st|e] eqn:E.
  - rewrite (for_each_permutation _ _ _ body name turns_commute
               vs vs' Hperm Hnodup st0 st E).
    split; [reflexivity | auto].
  - destruct (for_each body vs' st0) as [st'|e'] eqn:E'.
    + rewrite (for_each_permutation _ _ _ body name turns_commute
                 vs' vs (Permutation_sym Hperm) Hnodup' st0 st' E') in E.
      discriminate E.
    + split; [reflexivity | intros pm' H; discriminate H].
Qed.

End DecoderOfLoop.

(** X1: the four decoders and the two routers only add events at the end
    of the parser mediator: the events produced before stay as they are,
    and what is added, and whether an exception is raised, does not depend
    on them. *)
Theorem decoders_append_only (mktime : datetime -> Z) :
  appends_only (Amcache10Parser._ProcessAMCacheWin10FileKey mktime)
  /\ appends_only (Amcache10Parser._ProcessAMCacheWin10ProgramKey mktime)
  /\ appends_only Amcache8Parser._ProcessAMCacheProgramKey
  /\ appends_only Amcache8Parser._ProcessAMCacheFileKey
  /\ appends_only (Amcache10Parser.ExtractEvents mktime)
  /\ appends_only Amcache8Parser.ExtractEvents.
Proof.
  pose proof (loop_appends_only _ _ _ _ _ (modern_file_runs_loop mktime))
    as H10f.
  pose proof (loop_appends_only _ _ _ _ _ (modern_program_runs_loop mktime))
    as H10p.
  pose proof (loop_appends_only _ _ _ _ _ legacy_program_runs_loop) as H8p.
  pose proof (loop_appends_only _ _ _ _ _ legacy_file_runs_loop) as H8f.
  repeat split; try assumption.
  - intros pm key. unfold Amcache10Parser.ExtractEvents.
    destruct (number_of_values key =? 0)%nat;
      [simpl; rewrite List.app_nil_r; reflexivity|].
    destruct (startswith _ _); [apply H10f|].
    destruct (startswith _ _); [apply H10p|].
    simpl; rewrite List.app_nil_r; reflexivity.
  - intros pm key. unfold Amcache8Parser.ExtractEvents.
    destruct (number_of_values key =? 0)%nat;
      [simpl; rewrite List.app_nil_r; reflexivity|].
    destruct (startswith _ _); [apply H8f|].
    destruct (startswith _ _); [apply H8p|].
    simpl; rewrite List.app_nil_r; reflexivity.
Qed.

(** X3: in each decoder two values of different names can change places:
    for a key in which no two values bear the same name, the events
    produced are the same under every order of its values, and a key that
    is decoded normally under one order is decoded to the same outcome under
    every other. *)
Theorem events_independent_of_value_order (mktime : datetime -> Z) :
  order_independent (Amcache10Parser._ProcessAMCacheWin10FileKey mktime)
  /\ order_independent (Amcache10Parser._ProcessAMCacheWin10ProgramKey mktime)
  /\ order_independent Amcache8Parser._ProcessAMCacheProgramKey
  /\ order_independent Amcache8Parser._ProcessAMCacheFileKey.
Proof.
  split; [|split; [|split]].
  - apply (loop_order_independent _ _ _ _ _ (modern_file_runs_loop mktime)).
    intros x y st st1 st2. apply modern_file_turns_commute.
  - apply (loop_order_independent _ _ _ _ _
             (modern_program_runs_loop mktime)).
    intros x y st st1 st2. apply modern_program_turns_commute.
  - apply (loop_order_independent _ _ _ _ _ legacy_program_runs_loop).
    intros x y st st1 st2. apply legacy_program_turns_commute.
  - apply (loop_order_independent _ _ _ _ _ legacy_file_runs_loop).
    intros x y st st1 st2. apply legacy_file_turns_commute.
Qed.

Lemma events_independent_of_value_order_witness :
  snd (Amcache8Parser._ProcessAMCacheFileKey []
         (mkKey "\Root\File\e9a7d1c2\b0001" a_filetime
            [mkValue "15" (DStr "c:\users\user\idafree50.tmp");
             mkValue "17" (DInt 131460650151772758);
             mkValue "f" (DInt 708992537)]))
  = snd (Amcache8Parser._ProcessAMCacheFileKey []
           (mkKey "\Root\File\e9a7d1c2\b0001" a_filetime
              [mkValue "17" (DInt 131460650151772758);
               mkValue "15" (DStr "c:\users\user\idafree50.tmp");
               mkValue "f" (DInt 708992537)])).
Proof.
  apply (proj2 (proj2 (proj2 (events_independent_of_value_order timegm)))).
  - apply perm_swap.
  - repeat constructor; cbn [In map name]; intuition discriminate.
Defined.

Lemma field_snoc {A : Type} (read : RawData -> option A) field_name vs v :
  field read field_name (vs ++ [v])
  = if name v == field_name then read (GetDataAsObject v)
    else field read field_name vs.
Proof.
  unfold field. rewrite last_value_snoc.
  destruct (name v == field_name); reflexivity.
Qed.

Ltac one_turn H v :=
  repeat match type of H with
  | context [String.eqb (name v) ?c] =>
      let E := fresh "E" in
      destruct (String.eqb (name v) c) eqn:E;
      [ apply String.eqb_eq in E; rewrite E in *; clear E;
        destruct (GetDataAsObject v); simpl in H; try discriminate H;
        inversion H; subst;
        first [ reflexivity
              | match goal with |- ?e = _ => destruct e; reflexivity end ]
      | ]
  end.

Lemma legacy_file_turn dt ed v dt' ed' :
  Amcache8Parser.FileKey_body (dt, ed) v = Returned (dt', ed') ->
  dt' = (if name v == "17"
         then match GetDataAsObject v with DInt n => n | _ => 0 end
         else dt)
  /\ ed' = AmcacheEventData.mk
      (if name v == "15" then text_of (GetDataAsObject v)
       else AmcacheEventData.full_path ed)
      (if name v == "101"
       then option_map (slice_from 4) (text_of (GetDataAsObject v))
       else AmcacheEventData.sha1 ed)
      (if name v == "0" then text_of (GetDataAsObject v)
       else AmcacheEventData.productname ed)
      (if name v == "1" then text_of (GetDataAsObject v)
       else AmcacheEventData.companyname ed)
      (if name v == "5" then text_of (GetDataAsObject v)
       else AmcacheEventData.fileversion ed)
      (if name v == "3" then int_of (GetDataAsObject v)
       else AmcacheEventData.languagecode ed)
      (if name v == "6" then int_of (GetDataAsObject v)
       else AmcacheEventData.filesize ed)
      (if name v == "c" then text_of (GetDataAsObject v)
       else AmcacheEventData.filedescription ed)
      (if name v == "f" then int_of (GetDataAsObject v)
       else AmcacheEventData.linkerts ed)
      (if name v == "11" then int_of (GetDataAsObject v)
       else AmcacheEventData.lastmodifiedts ed)
      (if name v == "12" then int_of (GetDataAsObject v)
       else AmcacheEventData.createdts ed)
      (if name v == "100" then text_of (GetDataAsObject v)
       else AmcacheEventData.programid ed).
Proof.
  unfold Amcache8Parser.FileKey_body. rewrite !int_format_d_cases.
  unfold_names. intros H. split.
  - exact (proj1 (legacy_file_step _ _ _ _ _
                    ltac:(unfold Amcache8Parser.FileKey_body;
                          rewrite !int_format_d_cases; exact H))).
  - one_turn H v. inversion H; subst. destruct ed'; reflexivity.
Qed.

Lemma legacy_file_loop_record vs :
  forall dt ed,
    for_each Amcache8Parser.FileKey_body vs (0, AmcacheEventData.init)
    = Returned (dt, ed) ->
    ed = legacy_file_record vs.
Proof.
  induction vs as [|v vs IH] using rev_ind; intros dt ed H.
  - inversion H; subst. reflexivity.
  - apply for_each_snoc in H. destruct H as [[dt1 ed1] [Hvs Hv]].
    apply legacy_file_turn in Hv. destruct Hv as [_ ->].
    rewrite (IH _ _ Hvs). unfold legacy_file_record.
    rewrite !field_snoc. cbn [AmcacheEventData.full_path AmcacheEventData.sha1
      AmcacheEventData.productname AmcacheEventData.companyname
      AmcacheEventData.fileversion AmcacheEventData.languagecode
      AmcacheEventData.filesize AmcacheEventData.filedescription
      AmcacheEventData.linkerts AmcacheEventData.lastmodifiedts
      AmcacheEventData.createdts AmcacheEventData.programid].
    f_equal. destruct (name v == "101"); reflexivity.
Qed.

(** X5: the whole outcome of the legacy file decoder on a key it decodes
    normally.  The record is read off the key by the table of names,
    each field from the last value under its name ("101" without its first
    four characters) and None when the key has no such value; the events
    are the Modification event at the FILETIME of "17", then those of
    "12", "11" and "f" that are not zero, all with that record. *)
Theorem legacy_file_output (pm pm' : ParserMediator) (key : WinRegistryKey) :
  Amcache8Parser._ProcessAMCacheFileKey pm key = (Returned tt, pm') ->
  pm' = pm ++ legacy_file_all_events
                (last_int "17" (GetValues key),
                 legacy_file_record (GetValues key)).
Proof.
  intros Hret.
  destruct (legacy_file_returned _ _ _ Hret) as (dt & ed & Hloop).
  pose proof (legacy_file_returns _ _ _ _ _ Hloop Hret) as Hpm. subst pm'.
  destruct (legacy_file_scan _ _ _ Hloop) as [-> _].
  rewrite (legacy_file_loop_record _ _ _ Hloop). reflexivity.
Qed.

Lemma legacy_file_output_witness :
  snd (Amcache8Parser._ProcessAMCacheFileKey []
         (legacy_file_key
            [mkValue "15" (DStr "c:\users\user\idafree50.tmp");
             mkValue "101" (DStr "000082274eef0911a948f91425f5e5b0e730517fe75e");
             mkValue "17" (DInt 131460650151772758);
             mkValue "6" (DInt 702976)]))
  = [] ++ legacy_file_all_events
            (131460650151772758,
             AmcacheEventData.set_filesize 702976
               (AmcacheEventData.set_sha1
                  "82274eef0911a948f91425f5e5b0e730517fe75e"
                  (AmcacheEventData.set_full_path
                     "c:\users\user\idafree50.tmp" AmcacheEventData.init))).
Proof.
  apply (legacy_file_output [] _
           (legacy_file_key
              [mkValue "15" (DStr "c:\users\user\idafree50.tmp");
               mkValue "101"
                 (DStr "000082274eef0911a948f91425f5e5b0e730517fe75e");
               mkValue "17" (DInt 131460650151772758);
               mkValue "6" (DInt 702976)])).
  vm_compute. reflexivity.
Defined.

Lemma given_snoc {A : Type} (read : RawData -> option A) field_name vs v :
  given read field_name (vs ++ [v])
  = if name v == field_name then
      match GetDataAsObject v with
      | DNone => given read field_name vs
      | obj => read obj
      end
    else given read field_name vs.
Proof. unfold given. rewrite fold_left_app. reflexivity. Qed.

Lemma last_date_snoc mktime field_name vs v :
  last_date mktime field_name (vs ++ [v])
  = if name v == field_name
    then seconds_of mktime (last_date mktime field_name vs) (GetDataAsObject v)
    else last_date mktime field_name vs.
Proof. unfold last_date. rewrite fold_left_app. reflexivity. Qed.

Ltac turn_cases v :=
  repeat match goal with
  | |- context [String.eqb (name v) ?c] =>
      let E := fresh "E" in
      destruct (String.eqb (name v) c) eqn:E; cbv iota;
      [ apply String.eqb_eq in E; rewrite ?E; clear E | clear E ]
  end;
  destruct (GetDataAsObject v); simpl; rewrite ?strptime_seconds_spec;
  repeat (match goal with
          | |- context [String.eqb ?s ""] => destruct (String.eqb s "")
          | |- context [strptime ?s] => destruct (strptime s)
          | |- context [py_int ?s ?b] => destruct (py_int s b)
          end; simpl);
  (let H := fresh "H" in
   intros H; try discriminate H; inversion H; subst; clear H);
  first [ reflexivity
        | split; first [ reflexivity
                       | match goal with
                         | |- ?e = _ => destruct e; reflexivity
                         end ] ].

Lemma legacy_program_turn dt ed v dt' ed' :
  Amcache8Parser.ProgramKey_body (dt, ed) v = Returned (dt', ed') ->
  dt' = (if name v == "a"
         then match GetDataAsObject v with DInt n => n | _ => 0 end
         else dt)
  /\ ed' = AmcacheProgramEventData.mk
      (if name v == "0" then text_of (GetDataAsObject v)
       else AmcacheProgramEventData.name ed)
      (if name v == "1" then text_of (GetDataAsObject v)
       else AmcacheProgramEventData.version ed)
      (if name v == "2" then text_of (GetDataAsObject v)
       else AmcacheProgramEventData.publisher ed)
      (if name v == "3" then option_map AStr (text_of (GetDataAsObject v))
       else AmcacheProgramEventData.languagecode ed)
      (if name v == "6" then text_of (GetDataAsObject v)
       else AmcacheProgramEventData.entrytype ed)
      (if name v == "7" then
         match GetDataAsObject v with
         | DNone => AmcacheProgramEventData.uninstallkey ed
         | obj => joined_of obj
         end
       else AmcacheProgramEventData.uninstallkey ed)
      (if name v == "d" then joined_of (GetDataAsObject v)
       else AmcacheProgramEventData.filepaths ed)
      (if name v == "f" then text_of (GetDataAsObject v)
       else AmcacheProgramEventData.productcode ed)
      (if name v == "10" then text_of (GetDataAsObject v)
       else AmcacheProgramEventData.packagecode ed)
      (if name v == "11" then joined_of (GetDataAsObject v)
       else AmcacheProgramEventData.msiproductcode ed)
      (if name v == "12" then joined_of (GetDataAsObject v)
       else AmcacheProgramEventData.msipackagecode ed)
      (if name v == "Files" then
         match GetDataAsObject v with
         | DNone => AmcacheProgramEventData.files ed
         | obj => joined_of obj
         end
       else AmcacheProgramEventData.files ed)
      (AmcacheProgramEventData.OSatinstall ed).
Proof.
  unfold Amcache8Parser.ProgramKey_body. rewrite !int_format_d_cases.
  unfold_names. turn_cases v.
Qed.

Lemma modern_file_turn (mktime : datetime -> Z) ed i v ed' i' :
  Amcache10Parser.FileKey_body mktime (ed, i) v = Returned (ed', i') ->
  i' = (if name v == "LinkDate"
        then seconds_of mktime i (GetDataAsObject v)
        else i)
  /\ ed' = AmcacheEventData.mk
      (if name v == "LowerCaseLongPath" then text_of (GetDataAsObject v)
       else AmcacheEventData.full_path ed)
      (if name v == "FileId"
       then option_map (slice_from 4) (text_of (GetDataAsObject v))
       else AmcacheEventData.sha1 ed)
      (if name v == "ProductName" then text_of (GetDataAsObject v)
       else AmcacheEventData.productname ed)
      (if name v == "Publisher" then text_of (GetDataAsObject v)
       else AmcacheEventData.companyname ed)
      (if name v == "Version" then text_of (GetDataAsObject v)
       else AmcacheEventData.fileversion ed)
      (if name v == "Language" then int_or_hex_of (GetDataAsObject v)
       else AmcacheEventData.languagecode ed)
      (if name v == "Size" then int_or_hex_of (GetDataAsObject v)
       else AmcacheEventData.filesize ed)
      (AmcacheEventData.filedescription ed)
      (AmcacheEventData.linkerts ed)
      (AmcacheEventData.lastmodifiedts ed)
      (AmcacheEventData.createdts ed)
      (if name v == "ProgramId" then text_of (GetDataAsObject v)
       else AmcacheEventData.programid ed).
Proof.
  unfold Amcache10Parser.FileKey_body. rewrite !int_format_d_cases.
  turn_cases v.
Qed.

Lemma modern_program_turn (mktime : datetime -> Z) ed i v ed' i' :
  Amcache10Parser.ProgramKey_body mktime (ed, i) v = Returned (ed', i') ->
  i' = (if name v == "InstallDate"
        then seconds_of mktime i (GetDataAsObject v)
        else i)
  /\ ed' = AmcacheProgramEventData.mk
      (if name v == "Name" then text_of (GetDataAsObject v)
       else AmcacheProgramEventData.name ed)
      (if name v == "Version" then text_of (GetDataAsObject v)
       else AmcacheProgramEventData.version ed)
      (if name v == "Publisher" then text_of (GetDataAsObject v)
       else AmcacheProgramEventData.publisher ed)
      (if name v == "Language" then int_or_text_of (GetDataAsObject v)
       else AmcacheProgramEventData.languagecode ed)
      (if name v == "Type" then text_of (GetDataAsObject v)
       else AmcacheProgramEventData.entrytype ed)
      (if name v == "RegistryKeyPath" then text_of (GetDataAsObject v)
       else AmcacheProgramEventData.uninstallkey ed)
      (if name v == "ManifestPath" then text_of (GetDataAsObject v)
       else AmcacheProgramEventData.filepaths ed)
      (AmcacheProgramEventData.productcode ed)
      (AmcacheProgramEventData.packagecode ed)
      (if name v == "MsiProductCode" then text_of (GetDataAsObject v)
       else AmcacheProgramEventData.msiproductcode ed)
      (if name v == "MsiPackageCode" then text_of (GetDataAsObject v)
       else AmcacheProgramEventData.msipackagecode ed)
      (if name v == "RootDirPath" then text_of (GetDataAsObject v)
       else AmcacheProgramEventData.files ed)
      (if name v == "OSVersionAtInstallTime" then text_of (GetDataAsObject v)
       else AmcacheProgramEventData.OSatinstall ed).
Proof.
  unfold Amcache10Parser.ProgramKey_body. rewrite !int_format_d_cases.
  turn_cases v.
Qed.

Ltac read_fields :=
  cbn [AmcacheEventData.full_path AmcacheEventData.sha1
    AmcacheEventData.productname AmcacheEventData.companyname
    AmcacheEventData.fileversion AmcacheEventData.languagecode
    AmcacheEventData.filesize AmcacheEventData.filedescription
    AmcacheEventData.linkerts AmcacheEventData.lastmodifiedts
    AmcacheEventData.createdts AmcacheEventData.programid
    AmcacheProgramEventData.name AmcacheProgramEventData.version
    AmcacheProgramEventData.publisher AmcacheProgramEventData.languagecode
    AmcacheProgramEventData.entrytype AmcacheProgramEventData.uninstallkey
    AmcacheProgramEventData.filepaths AmcacheProgramEventData.productcode
    AmcacheProgramEventData.packagecode AmcacheProgramEventData.msiproductcode
    AmcacheProgramEventData.msipackagecode AmcacheProgramEventData.files
    AmcacheProgramEventData.OSatinstall].

Lemma legacy_program_loop_record vs :
  forall dt ed,
    for_each Amcache8Parser.ProgramKey_body vs
      (0, AmcacheProgramEventData.init) = Returned (dt, ed) ->
    dt = last_int "a" vs /\ ed = legacy_program_record vs.
Proof.
  induction vs as [|v vs IH] using rev_ind; intros dt ed H.
  - inversion H; subst. split; reflexivity.
  - apply for_each_snoc in H. destruct H as [[dt1 ed1] [Hvs Hv]].
    apply legacy_program_turn in Hv. destruct Hv as [-> ->].
    destruct (IH _ _ Hvs) as [-> ->]. split.
    + unfold last_int. rewrite last_value_snoc.
      destruct (name v == "a"); reflexivity.
    + unfold legacy_program_record.
      rewrite !field_snoc, !given_snoc. read_fields.
      f_equal. destruct (name v == "3"); reflexivity.
Qed.

Lemma modern_file_loop_record (mktime : datetime -> Z) vs :
  forall ed i,
    for_each (Amcache10Parser.FileKey_body mktime) vs
      (AmcacheEventData.init, None) = Returned (ed, i) ->
    i = last_date mktime "LinkDate" vs /\ ed = modern_file_record vs.
Proof.
  induction vs as [|v vs IH] using rev_ind; intros ed i H.
  - inversion H; subst. split; reflexivity.
  - apply for_each_snoc in H. destruct H as [[ed1 i1] [Hvs Hv]].
    apply modern_file_turn in Hv. destruct Hv as [-> ->].
    destruct (IH _ _ Hvs) as [-> ->]. split.
    + rewrite last_date_snoc. reflexivity.
    + unfold modern_file_record. rewrite !field_snoc. read_fields.
      f_equal. destruct (name v == "FileId"); reflexivity.
Qed.

Lemma modern_program_loop_record (mktime : datetime -> Z) vs :
  forall ed i,
    for_each (Amcache10Parser.ProgramKey_body mktime) vs
      (AmcacheProgramEventData.init, None) = Returned (ed, i) ->
    i = last_date mktime "InstallDate" vs /\ ed = modern_program_record vs.
Proof.
  induction vs as [|v vs IH] using rev_ind; intros ed i H.
  - inversion H; subst. split; reflexivity.
  - apply for_each_snoc in H. destruct H as [[ed1 i1] [Hvs Hv]].
    apply modern_program_turn in Hv. destruct Hv as [-> ->].
    destruct (IH _ _ Hvs) as [-> ->]. split.
    + rewrite last_date_snoc. reflexivity.
    + unfold modern_program_record. rewrite !field_snoc. read_fields.
      reflexivity.
Qed.

Lemma returned_of_runs_loop {S : Type} (decode : Extractor)
    (body : S -> WinRegistryValue -> Outcome S) (st0 : S)
    (events : DateTimeValues -> S -> ParserMediator) pm pm' key :
  runs_loop decode body st0 events ->
  decode pm key = (Returned tt, pm') ->
  exists st,
    for_each body (GetValues key) st0 = Returned st
    /\ pm' = pm ++ events (last_written_time key) st.
Proof.
  intros Hruns H. rewrite Hruns in H.
  destruct (for_each body (GetValues key) st0) as [st|e]; [|discriminate].
  exists st. split; [reflexivity|].
  exact (proj1 (produce_all_returned _ _ _ H)).
Qed.

(** X2: in each decoder the values are decoded before any event is
    produced, and whether a value raises does not depend on the values
    before it.  A key with a value that does not decode on its own raises
    the exception of the first such value, and no event is produced.  A
    key whose values all decode has its events handed to the mediator in
    their order, up to the first the mediator refuses.  So the decoder
    returns normally exactly when every value decodes and the mediator
    accepts every event of the record. *)
Theorem record_iff_every_value_decodes (mktime : datetime -> Z) :
  record_iff_values_decode
    (Amcache10Parser._ProcessAMCacheWin10FileKey mktime)
    (Amcache10Parser.FileKey_body mktime) (AmcacheEventData.init, None)
    (modern_file_key_events mktime)
  /\ record_iff_values_decode
       (Amcache10Parser._ProcessAMCacheWin10ProgramKey mktime)
       (Amcache10Parser.ProgramKey_body mktime)
       (AmcacheProgramEventData.init, None)
       (modern_program_key_events mktime)
  /\ record_iff_values_decode Amcache8Parser._ProcessAMCacheProgramKey
       Amcache8Parser.ProgramKey_body (0, AmcacheProgramEventData.init)
       legacy_program_key_events
  /\ record_iff_values_decode Amcache8Parser._ProcessAMCacheFileKey
       Amcache8Parser.FileKey_body (0, AmcacheEventData.init)
       legacy_file_key_events.
Proof.
  split; [|split; [|split]].
  - apply (loop_record_iff_values_decode _ _ _ _ _
             (modern_file_runs_loop mktime)).
    + intros x st st' e. apply modern_file_raise_any_state.
    + intros key [ed i] Hloop.
      destruct (modern_file_loop_record _ _ _ _ Hloop) as [-> ->].
      reflexivity.
  - apply (loop_record_iff_values_decode _ _ _ _ _
             (modern_program_runs_loop mktime)).
    + intros x st st' e. apply modern_program_raise_any_state.
    + intros key [ed i] Hloop.
      destruct (modern_program_loop_record _ _ _ _ Hloop) as [-> ->].
      reflexivity.
  - apply (loop_record_iff_values_decode _ _ _ _ _ legacy_program_runs_loop).
    + intros x st st' e. apply legacy_program_raise_any_state.
    + intros key [dt ed] Hloop.
      destruct (legacy_program_loop_record _ _ _ Hloop) as [-> ->].
      reflexivity.
  - apply (loop_record_iff_values_decode _ _ _ _ _ legacy_file_runs_loop).
    + intros x st st' e. apply legacy_file_raise_any_state.
    + intros key [dt ed] Hloop.
      destruct (legacy_file_scan _ _ _ Hloop) as [-> _].
      rewrite (legacy_file_loop_record _ _ _ Hloop). reflexivity.
Qed.

Lemma record_iff_every_value_decodes_witness :
  (exists pm',
     Amcache8Parser._ProcessAMCacheFileKey []
       (legacy_file_key
          [mkValue "15" (DStr "c:\users\user\idafree50.tmp");
           mkValue "17" (DInt 131460650151772758)])
     = (Returned tt, pm'))
  /\ Amcache10Parser._ProcessAMCacheWin10FileKey timegm []
       (modern_file_key
          ([mkValue "LowerCaseLongPath" (DStr "c:\windows\system32\logonui.exe")]
           ++ mkValue "LinkDate" (DStr "15/45/2018")
           :: [mkValue "Size" (DStr "zz")]))
     = (Raised ValueError, [])
  /\ Amcache8Parser._ProcessAMCacheFileKey []
       (legacy_file_key
          [mkValue "17" (DInt 131460650151772758);
           mkValue "f" (DInt (2 ^ 62))])
     = (Raised InvalidEvent,
        [(mkEvent (Filetime 131460650151772758)
            TIME_DESCRIPTION_MODIFICATION,
          FileData
            (AmcacheEventData.set_linkerts (2 ^ 62) AmcacheEventData.init))]).
Proof.
  destruct (record_iff_every_value_decodes timegm) as (H10f & _ & _ & H8f).
  split; [|split].
  - apply (proj2 (proj1 (H8f [] _))). split.
    + intros v [<-|[<-|[]]]; eexists; reflexivity.
    + repeat constructor.
  - apply (proj1 (proj2 (H10f [] _))
             [mkValue "LowerCaseLongPath"
                (DStr "c:\windows\system32\logonui.exe")]
             (mkValue "LinkDate" (DStr "15/45/2018"))
             [mkValue "Size" (DStr "zz")] ValueError).
    + reflexivity.
    + intros w [<-|[]]. eexists. reflexivity.
    + reflexivity.
  - rewrite (proj2 (proj2 (H8f [] _))).
    + vm_compute. reflexivity.
    + intros v [<-|[<-|[]]]; eexists; reflexivity.
Defined.

(** X7: the whole outcome of the legacy program decoder on a key it
    decodes normally: exactly one event, an Installation at the Unix time
    held by the last value "a" (the Unix time 0 when the key has none),
    with the record read off the key by the table of names; "7" and "Files"
    are read off the last value that is not None. *)
Theorem legacy_program_output (pm pm' : ParserMediator)
    (key : WinRegistryKey) :
  Amcache8Parser._ProcessAMCacheProgramKey pm key = (Returned tt, pm') ->
  pm' = pm ++ [(mkEvent (PosixTime (last_int "a" (GetValues key)))
                  TIME_DESCRIPTION_INSTALLATION,
                ProgramData (legacy_program_record (GetValues key)))].
Proof.
  intros H.
  destruct (returned_of_runs_loop _ _ _ _ _ _ _ legacy_program_runs_loop H)
    as ([dt ed] & Hloop & ->).
  destruct (legacy_program_loop_record _ _ _ Hloop) as [-> ->]. reflexivity.
Qed.

Lemma legacy_program_output_witness :
  snd (Amcache8Parser._ProcessAMCacheProgramKey []
         (legacy_program_key
            [mkValue "0" (DStr "IDA Free");
             mkValue "Files" (DList ["idag.exe"; "idaw.exe"]);
             mkValue "7" DNone]))
  = [] ++ [(mkEvent (PosixTime 0) TIME_DESCRIPTION_INSTALLATION,
            ProgramData
              (AmcacheProgramEventData.set_files
                 (String.append "idag.exe" (String.append LF "idaw.exe"))
                 (AmcacheProgramEventData.set_name "IDA Free"
                    AmcacheProgramEventData.init)))].
Proof.
  apply (legacy_program_output [] _
           (legacy_program_key
              [mkValue "0" (DStr "IDA Free");
               mkValue "Files" (DList ["idag.exe"; "idaw.exe"]);
               mkValue "7" DNone])).
  vm_compute. reflexivity.
Defined.

(** X8: the whole outcome of the modern file decoder on a key it decodes
    normally.  The first event is the Modification at the key's
    last-written time; a Creation event follows when the last non-empty
    LinkDate of the key is not the Unix time 0.  The record is read off the
    key by the table of names; its file description and its link, created
    and last-modified times are never set. *)
Theorem modern_file_output (mktime : datetime -> Z) (pm pm' : ParserMediator)
    (key : WinRegistryKey) :
  Amcache10Parser._ProcessAMCacheWin10FileKey mktime pm key
  = (Returned tt, pm') ->
  pm' = pm ++ modern_file_events (last_written_time key)
                (modern_file_record (GetValues key),
                 last_date mktime "LinkDate" (GetValues key)).
Proof.
  intros H.
  destruct (returned_of_runs_loop _ _ _ _ _ _ _
              (modern_file_runs_loop mktime) H) as ([ed i] & Hloop & ->).
  destruct (modern_file_loop_record _ _ _ _ Hloop) as [-> ->]. reflexivity.
Qed.

Lemma modern_file_output_witness :
  snd (Amcache10Parser._ProcessAMCacheWin10FileKey timegm []
         (modern_file_key
            [mkValue "LowerCaseLongPath" (DStr "c:\windows\system32\logonui.exe");
             mkValue "LinkDate" (DStr "05/01/1982 06:29:38");
             mkValue "Size" (DStr "0x3400")]))
  = [] ++ modern_file_events a_filetime
            (AmcacheEventData.set_filesize 13312
               (AmcacheEventData.set_full_path
                  "c:\windows\system32\logonui.exe" AmcacheEventData.init),
             Some 389082578).
Proof.
  apply (modern_file_output timegm [] _
           (modern_file_key
              [mkValue "LowerCaseLongPath"
                 (DStr "c:\windows\system32\logonui.exe");
               mkValue "LinkDate" (DStr "05/01/1982 06:29:38");
               mkValue "Size" (DStr "0x3400")])).
  vm_compute. reflexivity.
Defined.

(** X9: the whole outcome of the modern program decoder on a key it
    decodes normally.  The first event is the Installation at the key's
    last-written time; a second Installation follows at the Unix time of
    the last non-empty InstallDate of the key, zero included.  The record
    is read off the key by the table of names; Language is kept as an
    integer or as the text it is, and the product and package codes are
    never set. *)
Theorem modern_program_output (mktime : datetime -> Z)
    (pm pm' : ParserMediator) (key : WinRegistryKey) :
  Amcache10Parser._ProcessAMCacheWin10ProgramKey mktime pm key
  = (Returned tt, pm') ->
  pm' = pm ++ modern_program_events (last_written_time key)
                (modern_program_record (GetValues key),
                 last_date mktime "InstallDate" (GetValues key)).
Proof.
  intros H.
  destruct (returned_of_runs_loop _ _ _ _ _ _ _
              (modern_program_runs_loop mktime) H) as ([ed i] & Hloop & ->).
  destruct (modern_program_loop_record _ _ _ _ Hloop) as [-> ->]. reflexivity.
Qed.

Lemma modern_program_output_witness :
  snd (Amcache10Parser._ProcessAMCacheWin10ProgramKey timegm []
         (modern_program_key
            [mkValue "Name" (DStr "IDA Free");
             mkValue "Language" (DStr "en-us");
             mkValue "InstallDate" (DStr "01/15/2018 10:00:00")]))
  = [] ++ modern_program_events a_filetime
            (AmcacheProgramEventData.set_languagecode (AStr "en-us")
               (AmcacheProgramEventData.set_name "IDA Free"
                  AmcacheProgramEventData.init),
             Some 1516010400).
Proof.
  apply (modern_program_output timegm [] _
           (modern_program_key
              [mkValue "Name" (DStr "IDA Free");
               mkValue "Language" (DStr "en-us");
               mkValue "InstallDate" (DStr "01/15/2018 10:00:00")])).
  vm_compute. reflexivity.
Defined.

(** ** The two gates on a parsed date of zero *)

Lemma last_date_last_text mktime field_name s t values :
  strptime s = Returned t ->
  last_text field_name s values ->
  last_date mktime field_name values = Some (mktime t).
Proof.
  intros Hs (pre & post & -> & Hpost).
  assert (Hne : (s == "") = false).
  { destruct (s == "") eqn:E; [|reflexivity].
    apply String.eqb_eq in E. subst s.
    rewrite strptime_empty in Hs. discriminate. }
  unfold last_date. rewrite fold_left_app. cbn [fold_left name GetDataAsObject].
  rewrite String.eqb_refl. cbn [seconds_of]. rewrite Hne, Hs.
  induction post as [|v post IH]; [reflexivity|].
  cbn [fold_left].
  destruct (name v == field_name) eqn:E.
  - apply String.eqb_eq in E.
    rewrite (Hpost v (or_introl eq_refl) E). cbn [seconds_of].
    change ("" == "") with true. cbv iota.
    apply IH. intros w Hw. apply Hpost. right. exact Hw.
  - apply IH. intros w Hw. apply Hpost. right. exact Hw.
Qed.

(** C10 (as the code has it): on a modern key that the decoder decodes
    normally, a date of zero is gated in two ways.  When the last non-empty
    LinkDate of a file key parses to the Unix time 0, the Modification
    event at the last-written time is the one event produced: there is no
    Creation event ([if linkdateint:]).  When the last non-empty InstallDate
    of a program key parses to the Unix time 0, the second Installation
    event is produced, at the Unix time 0 ([if installdateint is not
    None:]). *)
Theorem zero_date_gates (mktime : datetime -> Z) (pm pm' : ParserMediator)
    (key : WinRegistryKey) (s : string) (t : datetime) :
  strptime s = Returned t -> mktime t = 0 ->
  (last_text "LinkDate" s (GetValues key) ->
   Amcache10Parser._ProcessAMCacheWin10FileKey mktime pm key
   = (Returned tt, pm') ->
   pm' = pm ++ [(mkEvent (last_written_time key) TIME_DESCRIPTION_MODIFICATION,
                 FileData (modern_file_record (GetValues key)))])
  /\ (last_text "InstallDate" s (GetValues key) ->
      Amcache10Parser._ProcessAMCacheWin10ProgramKey mktime pm key
      = (Returned tt, pm') ->
      pm' = pm ++ [(mkEvent (last_written_time key)
                      TIME_DESCRIPTION_INSTALLATION,
                    ProgramData (modern_program_record (GetValues key)));
                   (mkEvent (PosixTime 0) TIME_DESCRIPTION_INSTALLATION,
                    ProgramData (modern_program_record (GetValues key)))]).
Proof.
  intros Hs Ht. split; intros Hlast Hret.
  - pose proof (last_date_last_text mktime _ _ _ _ Hs Hlast) as Hdate.
    rewrite Ht in Hdate.
    destruct (returned_of_runs_loop _ _ _ _ _ _ _
                (modern_file_runs_loop mktime) Hret) as ([ed i] & Hloop & ->).
    destruct (modern_file_loop_record _ _ _ _ Hloop) as [-> ->].
    rewrite Hdate. reflexivity.
  - pose proof (last_date_last_text mktime _ _ _ _ Hs Hlast) as Hdate.
    rewrite Ht in Hdate.
    destruct (returned_of_runs_loop _ _ _ _ _ _ _
                (modern_program_runs_loop mktime) Hret)
      as ([ed i] & Hloop & ->).
    destruct (modern_program_loop_record _ _ _ _ Hloop) as [-> ->].
    rewrite Hdate. reflexivity.
Qed.

Lemma zero_date_gates_witness :
  snd (Amcache10Parser._ProcessAMCacheWin10FileKey timegm []
         (modern_file_key
            [mkValue "LowerCaseLongPath"
               (DStr "c:\windows\system32\logonui.exe");
             mkValue "LinkDate" (DStr "01/01/1970 00:00:00")]))
  = [] ++ [(mkEvent a_filetime TIME_DESCRIPTION_MODIFICATION,
            FileData
              (AmcacheEventData.set_full_path
                 "c:\windows\system32\logonui.exe" AmcacheEventData.init))]
  /\ snd (Amcache10Parser._ProcessAMCacheWin10ProgramKey timegm []
            (modern_program_key
               [mkValue "InstallDate" (DStr "01/01/1970 00:00:00");
                mkValue "Name" (DStr "IDA Free");
                mkValue "InstallDate" (DStr "")]))
     = [] ++ [(mkEvent a_filetime TIME_DESCRIPTION_INSTALLATION,
               ProgramData
                 (AmcacheProgramEventData.set_name "IDA Free"
                    AmcacheProgramEventData.init));
              (mkEvent (PosixTime 0) TIME_DESCRIPTION_INSTALLATION,
               ProgramData
                 (AmcacheProgramEventData.set_name "IDA Free"
                    AmcacheProgramEventData.init))].
Proof.
  split.
  - apply (proj1 (zero_date_gates timegm [] _
                    (modern_file_key
                       [mkValue "LowerCaseLongPath"
                          (DStr "c:\windows\system32\logonui.exe");
                        mkValue "LinkDate" (DStr "01/01/1970 00:00:00")])
                    "01/01/1970 00:00:00" (mkDatetime 1970 1 1 0 0 0)
                    eq_refl eq_refl)).
    + exists [mkValue "LowerCaseLongPath"
                (DStr "c:\windows\system32\logonui.exe")], [].
      split; [reflexivity | intros v []].
    + vm_compute. reflexivity.
  - apply (proj2 (zero_date_gates timegm [] _
                    (modern_program_key
                       [mkValue "InstallDate" (DStr "01/01/1970 00:00:00");
                        mkValue "Name" (DStr "IDA Free");
                        mkValue "InstallDate" (DStr "")])
                    "01/01/1970 00:00:00" (mkDatetime 1970 1 1 0 0 0)
                    eq_refl eq_refl)).
    + exists [], [mkValue "Name" (DStr "IDA Free");
                  mkValue "InstallDate" (DStr "")].
      split; [reflexivity|].
      intros v [<-|[<-|[]]] Hname; [discriminate Hname | reflexivity].
    + vm_compute. reflexivity.
Defined.

(** C10, the claim fails here: the InstallDate of the key parses to the
    Unix time 0, and its Version is stored as an integer.  The ValueError
    of the Version leaves the decoder before any event is produced: there
    is no second Installation event, nor a first. *)
Lemma zero_install_date_is_lost_with_an_undecodable_sibling :
  Amcache10Parser.ExtractEvents timegm []
    (modern_program_key
       [mkValue "InstallDate" (DStr "01/01/1970 00:00:00");
        mkValue "Version" (DInt 5)])
  = (Raised ValueError, [])
  /\ Amcache10Parser.strptime_seconds timegm "01/01/1970 00:00:00"
     = Returned 0.
Proof. split; vm_compute; reflexivity. Qed.

Lemma events_if_truthy_length x produced :
  (List.length (events_if_truthy x produced) <= 1)%nat.
Proof.
  unfold events_if_truthy.
  destruct x as [n|]; [destruct (n =? 0)|]; simpl; lia.
Qed.

Lemma events_if_truthy_nonzero n produced :
  n <> 0 -> events_if_truthy (Some n) produced = [produced n].
Proof.
  intros Hn. unfold events_if_truthy.
  destruct (n =? 0) eqn:E; [apply Z.eqb_eq in E; contradiction | reflexivity].
Qed.

(** X6: a legacy file key that is decoded normally yields between one and
    four events, all with the same record and none with the meaning
    Installation.  When "12", "11" and "f" all hold integers that are not
    zero, the events are exactly four, in this order: Modification at the
    FILETIME of "17", Creation at the FILETIME of "12", Modification at
    the FILETIME of "11", Change at the Unix time of "f". *)
Theorem legacy_file_event_sequence (pm pm' : ParserMediator)
    (key : WinRegistryKey) :
  Amcache8Parser._ProcessAMCacheFileKey pm key = (Returned tt, pm') ->
  exists evs,
    pm' = pm ++ evs
    /\ (1 <= List.length evs <= 4)%nat
    /\ (forall produced, In produced evs ->
          snd produced = FileData (legacy_file_record (GetValues key))
          /\ meaning produced <> TIME_DESCRIPTION_INSTALLATION)
    /\ (forall c m l,
          field int_of "12" (GetValues key) = Some c -> c <> 0 ->
          field int_of "11" (GetValues key) = Some m -> m <> 0 ->
          field int_of "f" (GetValues key) = Some l -> l <> 0 ->
          map fst evs
          = [mkEvent (Filetime (last_int "17" (GetValues key)))
               TIME_DESCRIPTION_MODIFICATION;
             mkEvent (Filetime c) TIME_DESCRIPTION_CREATION;
             mkEvent (Filetime m) TIME_DESCRIPTION_MODIFICATION;
             mkEvent (PosixTime l) TIME_DESCRIPTION_CHANGE]).
Proof.
  intros Hret.
  assert (Hout : pm' = pm ++ legacy_file_all_events
                               (last_int "17" (GetValues key),
                                legacy_file_record (GetValues key))).
  { destruct (legacy_file_returned _ _ _ Hret) as (dt & ed & Hloop).
    pose proof (legacy_file_returns _ _ _ _ _ Hloop Hret) as Hpm.
    subst pm'.
    destruct (legacy_file_scan _ _ _ Hloop) as [-> _].
    rewrite (legacy_file_loop_record _ _ _ Hloop). reflexivity. }
  eexists. split; [exact Hout|]. clear Hret Hout.
  unfold legacy_file_all_events, legacy_file_events. cbn [fst snd].
  split; [|split].
  - cbn [List.length]. rewrite !List.length_app.
    pose proof (events_if_truthy_length
      (AmcacheEventData.createdts (legacy_file_record (GetValues key)))
      (fun n => (mkEvent (Filetime n) TIME_DESCRIPTION_CREATION,
                 FileData (legacy_file_record (GetValues key))))).
    pose proof (events_if_truthy_length
      (AmcacheEventData.lastmodifiedts (legacy_file_record (GetValues key)))
      (fun n => (mkEvent (Filetime n) TIME_DESCRIPTION_MODIFICATION,
                 FileData (legacy_file_record (GetValues key))))).
    pose proof (events_if_truthy_length
      (AmcacheEventData.linkerts (legacy_file_record (GetValues key)))
      (fun n => (mkEvent (PosixTime n) TIME_DESCRIPTION_CHANGE,
                 FileData (legacy_file_record (GetValues key))))).
    lia.
  - intros produced [<-|Hin]; [split; [reflexivity | discriminate]|].
    apply in_app_or in Hin. destruct Hin as [Hin|Hin];
      [|apply in_app_or in Hin; destruct Hin as [Hin|Hin]];
      apply events_if_truthy_In in Hin; destruct Hin as [n ->];
      (split; [reflexivity | discriminate]).
  - intros c m l Hc Hc0 Hm Hm0 Hl Hl0.
    cbn [AmcacheEventData.createdts AmcacheEventData.lastmodifiedts
         AmcacheEventData.linkerts legacy_file_record].
    rewrite Hc, Hm, Hl.
    rewrite !events_if_truthy_nonzero by assumption. reflexivity.
Qed.

Lemma legacy_file_event_sequence_witness :
  exists evs,
    snd (Amcache8Parser._ProcessAMCacheFileKey []
           (legacy_file_key
              [mkValue "17" (DInt 131460650151772758);
               mkValue "12" (DInt 131460650151772758);
               mkValue "11" (DInt 131460650153024523);
               mkValue "f" (DInt 708992537)]))
    = [] ++ evs
    /\ (1 <= List.length evs <= 4)%nat
    /\ map fst evs
       = [mkEvent (Filetime 131460650151772758) TIME_DESCRIPTION_MODIFICATION;
          mkEvent (Filetime 131460650151772758) TIME_DESCRIPTION_CREATION;
          mkEvent (Filetime 131460650153024523) TIME_DESCRIPTION_MODIFICATION;
          mkEvent (PosixTime 708992537) TIME_DESCRIPTION_CHANGE].
Proof.
  destruct (legacy_file_event_sequence [] _
              (legacy_file_key
                 [mkValue "17" (DInt 131460650151772758);
                  mkValue "12" (DInt 131460650151772758);
                  mkValue "11" (DInt 131460650153024523);
                  mkValue "f" (DInt 708992537)]) eq_refl)
    as (evs & Hpm & Hlen & _ & Hfour).
  exists evs. split; [exact Hpm|]. split; [exact Hlen|].
  apply (Hfour 131460650151772758 131460650153024523 708992537);
    reflexivity || discriminate.
Defined.

(** ** The routers *)

Ltac first_chars s :=
  repeat (destruct s as [|? s]; cbn [String.prefix] in *; try discriminate;
          match goal with
          | H : context [ascii_dec ?a ?b] |- _ =>
              destruct (ascii_dec a b); [subst | discriminate]
          end).

Lemma legacy_prefixes_exclusive (s : string) :
  startswith s Amcache8Parser._AMCACHE_ROOT_FILE_KEY = true ->
  startswith s Amcache8Parser._AMCACHE_ROOT_PROGRAM_KEY = false.
Proof.
  unfold startswith, Amcache8Parser._AMCACHE_ROOT_FILE_KEY,
    Amcache8Parser._AMCACHE_ROOT_PROGRAM_KEY.
  intros H. first_chars s. reflexivity.
Qed.

Lemma modern_prefix_is_not_legacy (s : string) :
  startswith s Amcache10Parser._AMCACHE_ROOT_WIN10_PROGRAM_KEY = true ->
  startswith s Amcache8Parser._AMCACHE_ROOT_FILE_KEY = false
  /\ startswith s Amcache8Parser._AMCACHE_ROOT_PROGRAM_KEY = false.
Proof.
  unfold startswith, Amcache10Parser._AMCACHE_ROOT_WIN10_PROGRAM_KEY,
    Amcache8Parser._AMCACHE_ROOT_FILE_KEY,
    Amcache8Parser._AMCACHE_ROOT_PROGRAM_KEY.
  intros H. first_chars s. split; reflexivity.
Qed.

(** X4: a key with no value yields nothing in either router.  The two
    legacy prefixes exclude each other, so a legacy key with a value is
    decoded by the decoder of its prefix, whatever the order of the tests;
    a modern key with the program prefix and without the file prefix is
    decoded as a program key.  A path with neither prefix of a router is
    passed over by it, and a path with a modern prefix is passed over by
    the legacy router: no key is decoded by both plugins. *)
Theorem routers_dispatch_by_prefix (mktime : datetime -> Z)
    (pm : ParserMediator) (key : WinRegistryKey) :
  (number_of_values key = 0%nat ->
   Amcache10Parser.ExtractEvents mktime pm key = (Returned tt, pm)
   /\ Amcache8Parser.ExtractEvents pm key = (Returned tt, pm))
  /\ (number_of_values key <> 0%nat ->
      (startswith (path key) Amcache8Parser._AMCACHE_ROOT_FILE_KEY = true ->
       Amcache8Parser.ExtractEvents pm key
       = Amcache8Parser._ProcessAMCacheFileKey pm key)
      /\ (startswith (path key) Amcache8Parser._AMCACHE_ROOT_PROGRAM_KEY
          = true ->
          Amcache8Parser.ExtractEvents pm key
          = Amcache8Parser._ProcessAMCacheProgramKey pm key)
      /\ (startswith (path key)
            Amcache10Parser._AMCACHE_ROOT_WIN10_PROGRAM_KEY = true ->
          startswith (path key)
            Amcache10Parser._AMCACHE_ROOT_WIN10_FILE_KEY = false ->
          Amcache10Parser.ExtractEvents mktime pm key
          = Amcache10Parser._ProcessAMCacheWin10ProgramKey mktime pm key))
  /\ (startswith (path key) Amcache8Parser._AMCACHE_ROOT_FILE_KEY = false ->
      startswith (path key) Amcache8Parser._AMCACHE_ROOT_PROGRAM_KEY = false ->
      Amcache8Parser.ExtractEvents pm key = (Returned tt, pm))
  /\ (startswith (path key) Amcache10Parser._AMCACHE_ROOT_WIN10_PROGRAM_KEY
      = false ->
      Amcache10Parser.ExtractEvents mktime pm key = (Returned tt, pm))
  /\ (startswith (path key) Amcache10Parser._AMCACHE_ROOT_WIN10_PROGRAM_KEY
      = true ->
      Amcache8Parser.ExtractEvents pm key = (Returned tt, pm)).
Proof.
  unfold Amcache10Parser.ExtractEvents, Amcache8Parser.ExtractEvents.
  split; [|split; [|split; [|split]]].
  - intros ->. split; reflexivity.
  - intros Hn. apply Nat.eqb_neq in Hn. rewrite Hn.
    split; [|split].
    + intros ->. reflexivity.
    + intros Hprogram.
      destruct (startswith (path key) Amcache8Parser._AMCACHE_ROOT_FILE_KEY)
        eqn:Hfile.
      * rewrite (legacy_prefixes_exclusive _ Hfile) in Hprogram.
        discriminate.
      * rewrite Hprogram. reflexivity.
    + intros -> ->. reflexivity.
  - intros -> ->. destruct (number_of_values key =? 0)%nat; reflexivity.
  - intros Hprogram.
    destruct (startswith (path key)
                Amcache10Parser._AMCACHE_ROOT_WIN10_FILE_KEY) eqn:Hfile.
    + rewrite (file_prefix_is_program_prefix _ Hfile) in Hprogram.
      discriminate.
    + rewrite Hprogram.
      destruct (number_of_values key =? 0)%nat; reflexivity.
  - intros Hmodern.
    destruct (modern_prefix_is_not_legacy _ Hmodern) as [-> ->].
    destruct (number_of_values key =? 0)%nat; reflexivity.
Qed.

Lemma routers_dispatch_by_prefix_witness :
  Amcache8Parser.ExtractEvents []
    (legacy_program_key [mkValue "0" (DStr "IDA Free")])
  = Amcache8Parser._ProcessAMCacheProgramKey []
      (legacy_program_key [mkValue "0" (DStr "IDA Free")])
  /\ Amcache10Parser.ExtractEvents timegm []
       (mkKey "\Root\InventoryApplicationShortcut\3f2a" a_filetime
          [mkValue "Name" (DStr "IDA Free")])
     = Amcache10Parser._ProcessAMCacheWin10ProgramKey timegm []
         (mkKey "\Root\InventoryApplicationShortcut\3f2a" a_filetime
            [mkValue "Name" (DStr "IDA Free")])
  /\ Amcache8Parser.ExtractEvents []
       (modern_file_key [mkValue "FileId" (DStr "0000152c")])
     = (Returned tt, []).
Proof.
  split; [|split].
  - apply (proj1 (proj2 (proj1 (proj2
             (routers_dispatch_by_prefix timegm []
                (legacy_program_key [mkValue "0" (DStr "IDA Free")])))
             ltac:(discriminate)))).
    reflexivity.
  - apply (proj2 (proj2 (proj1 (proj2
             (routers_dispatch_by_prefix timegm []
                (mkKey "\Root\InventoryApplicationShortcut\3f2a" a_filetime
                   [mkValue "Name" (DStr "IDA Free")])))
             ltac:(discriminate)))); reflexivity.
  - apply (proj2 (proj2 (proj2 (proj2
             (routers_dispatch_by_prefix timegm []
                (modern_file_key [mkValue "FileId" (DStr "0000152c")])))))).
    reflexivity.
Defined.

Lemma then_first {A B : Type} (m : Matcher A) (k : A -> Matcher B)
    cs a r b r' :
  first_match m cs a r -> first_match (k a) r b r' ->
  first_match (then_ m k) cs b r'.
Proof.
  intros [more Hm] [more' Hk]. unfold first_match, then_. rewrite Hm. simpl. rewrite Hk.
  simpl. eexists. reflexivity.
Qed.

Ltac small_cases n :=
  destruct n as [|n|n]; try lia;
  repeat (destruct n as [n|n|]; try lia).

Lemma two_digits_value n :
  0 <= n <= 99 -> group_int (two_digits n) = n.
Proof.
  intros Hn. small_cases n; reflexivity.
Qed.

Lemma re_m_first n rest :
  1 <= n <= 12 -> first_match re_m (two_digits n ++ rest) (two_digits n) rest.
Proof.
  intros Hn. small_cases n; eexists; reflexivity.
Qed.

Lemma re_d_first n rest :
  1 <= n <= 31 -> first_match re_d (two_digits n ++ rest) (two_digits n) rest.
Proof.
  intros Hn. small_cases n; eexists; reflexivity.
Qed.

Lemma re_H_first n rest :
  0 <= n <= 23 -> first_match re_H (two_digits n ++ rest) (two_digits n) rest.
Proof.
  intros Hn. small_cases n; eexists; reflexivity.
Qed.

Lemma re_M_first n rest :
  0 <= n <= 59 -> first_match re_M (two_digits n ++ rest) (two_digits n) rest.
Proof.
  intros Hn. small_cases n; eexists; reflexivity.
Qed.

Lemma re_S_first n rest :
  0 <= n <= 59 -> first_match re_S (two_digits n ++ rest) (two_digits n) rest.
Proof.
  intros Hn. small_cases n; eexists; reflexivity.
Qed.

Lemma digit_first d rest :
  decimal_digit d ->
  digit (digit_char d :: rest) = [([digit_char d], rest)]
  /\ is_space (digit_char d) = false.
Proof.
  intros Hd. apply decimal_digit_cases in Hd.
  destruct Hd as [->|[->|[->|[->|[->|[->|[->|[->|[->| ->]]]]]]]]];
    split; reflexivity.
Qed.

Lemma four_digits_decimal n :
  0 <= n <= 9999 ->
  Forall decimal_digit [n / 1000; (n / 100) mod 10; (n / 10) mod 10; n mod 10].
Proof.
  intros Hn. unfold decimal_digit.
  repeat (apply Forall_cons; [Z.div_mod_to_equations; lia|]).
  apply Forall_nil.
Qed.

Lemma re_Y_first n rest :
  0 <= n <= 9999 ->
  first_match re_Y (four_digits n ++ rest) (four_digits n) rest.
Proof.
  intros Hn. pose proof (four_digits_decimal n Hn) as Hds.
  unfold four_digits.
  inversion Hds as [|? ? H1 Hds1]; subst.
  inversion Hds1 as [|? ? H2 Hds2]; subst.
  inversion Hds2 as [|? ? H3 Hds3]; subst.
  inversion Hds3 as [|? ? H4 _]; subst.
  cbn [map app]. unfold first_match, re_Y, cat.
  rewrite (proj1 (digit_first _ _ H1)). cbn [flat_map app].
  rewrite (proj1 (digit_first _ _ H2)). cbn [flat_map app].
  rewrite (proj1 (digit_first _ _ H3)). cbn [flat_map app].
  rewrite (proj1 (digit_first _ _ H4)). cbn [flat_map app map].
  eexists. reflexivity.
Qed.

Lemma four_digits_value n :
  1 <= n <= 9999 -> group_int (four_digits n) = n.
Proof.
  intros Hn. unfold group_int, four_digits.
  change (string_of_list_ascii (map digit_char ?ds)) with (numeral ds).
  rewrite py_int_numeral;
    [ | left; reflexivity | discriminate | apply four_digits_decimal; lia ].
  unfold digits_value. cbn [fold_left]. Z.div_mod_to_equations. lia.
Qed.

Lemma lit_first c rest : first_match (lit c) (c :: rest) [c] rest.
Proof.
  unfold first_match, lit, cls. rewrite Ascii.eqb_refl. eexists. reflexivity.
Qed.

Lemma spaces_first n rest :
  0 <= n <= 99 ->
  first_match spaces (" "%char :: two_digits n ++ rest) [" "%char]
    (two_digits n ++ rest).
Proof.
  intros Hn. unfold first_match, two_digits. cbn [app spaces].
  change (is_space " ") with true. cbv iota.
  rewrite (proj2 (digit_first (n / 10) []
                    ltac:(unfold decimal_digit; Z.div_mod_to_equations; lia))).
  cbn [map app]. eexists. reflexivity.
Qed.

Lemma days_in_month_le y m : days_in_month y m <= 31.
Proof.
  unfold days_in_month.
  destruct (m =? 2); [destruct (is_leap y); lia|].
  destruct ((m =? 4) || (m =? 6) || (m =? 9) || (m =? 11)); lia.
Qed.

Lemma valid_datetime_bounds t :
  valid_datetime t = true ->
  1 <= year t <= 9999 /\ 1 <= month t <= 12 /\ 1 <= day t <= 31
  /\ 0 <= hour t <= 23 /\ 0 <= minute t <= 59 /\ 0 <= second t <= 59.
Proof.
  unfold valid_datetime. intros H.
  repeat (apply andb_prop in H; destruct H as [H ?]).
  repeat match goal with
         | H : (_ <=? _) = true |- _ => apply Z.leb_le in H
         end.
  pose proof (days_in_month_le (year t) (month t)). lia.
Qed.

(** A date and time written with zero padding is read back as itself. *)
Lemma strptime_date_text t :
  valid_datetime t = true -> strptime (date_text t) = Returned t.
Proof.
  intros Hvalid.
  destruct (valid_datetime_bounds t Hvalid)
    as (HY & Hm & Hd & HH & HM & HS).
  assert (Hfirst : first_match format_regex (chars (date_text t)) t []).
  { unfold date_text, chars. rewrite list_ascii_of_string_of_list_ascii.
    unfold format_regex.
    eapply then_first; [apply re_m_first; exact Hm|].
    eapply then_first; [apply lit_first|].
    eapply then_first; [apply re_d_first; exact Hd|].
    eapply then_first; [apply lit_first|].
    eapply then_first; [apply re_Y_first; lia|].
    eapply then_first; [apply spaces_first; lia|].
    eapply then_first; [apply re_H_first; exact HH|].
    eapply then_first; [apply lit_first|].
    eapply then_first; [apply re_M_first; exact HM|].
    eapply then_first; [apply lit_first|].
    eapply then_first;
      [rewrite <- (List.app_nil_r (two_digits (second t)));
       apply re_S_first; exact HS|].
    rewrite ?List.app_nil_r.
    rewrite !two_digits_value by lia. rewrite four_digits_value by lia.
    unfold first_match, found. destruct t. eexists. reflexivity. }
  destruct Hfirst as [more Hmatch].
  unfold strptime. rewrite Hmatch, Hvalid. reflexivity.
Qed.

Lemma hex_digit_cases d :
  hex_digit d ->
  d = 0 \/ d = 1 \/ d = 2 \/ d = 3 \/ d = 4 \/ d = 5 \/ d = 6 \/ d = 7
  \/ d = 8 \/ d = 9 \/ d = 10 \/ d = 11 \/ d = 12 \/ d = 13 \/ d = 14
  \/ d = 15.
Proof. unfold hex_digit. lia. Qed.

Ltac each_hex_digit H :=
  apply hex_digit_cases in H;
  destruct H as [->|[->|[->|[->|[->|[->|[->|[->|[->|[->|[->|[->|[->|[->|[->
                 | ->]]]]]]]]]]]]]]].

Lemma hex_char_value d :
  hex_digit d ->
  digit_value (hex_char d) = Some d
  /\ Ascii.eqb (hex_char d) "_" = false.
Proof. intros Hd. each_hex_digit Hd; split; reflexivity. Qed.

Lemma scan_digits_hex (ds : list Z) :
  Forall hex_digit ds ->
  forall acc count,
    scan_digits 16 false acc count (map hex_char ds)
    = Some (fold_left (fun a d => a * 16 + d) ds acc,
            (count + List.length ds)%nat, []).
Proof.
  intros Hds. induction Hds as [|d ds Hd _ IH]; intros acc count.
  - simpl. rewrite Nat.add_0_r. reflexivity.
  - cbn [map fold_left List.length].
    rewrite Nat.add_succ_r.
    change (S (count + List.length ds))%nat with (S count + List.length ds)%nat.
    rewrite <- (IH (acc * 16 + d) (S count)).
    cbn [scan_digits].
    destruct (hex_char_value d Hd) as [Hvalue Hus].
    rewrite Hus, Hvalue.
    replace (d <? 16) with true
      by (symmetry; apply Z.ltb_lt; unfold hex_digit in Hd; lia).
    reflexivity.
Qed.

Lemma hex_head d ds :
  hex_digit d -> Forall hex_digit ds ->
  strip_sign (lstrip (map hex_char (d :: ds))) = (false, map hex_char (d :: ds))
  /\ strip_0x (map hex_char (d :: ds)) = map hex_char (d :: ds)
  /\ (forall rest : Outcome Z,
        match map hex_char (d :: ds) with
        | "_"%char :: _ => Raised ValueError
        | _ => rest
        end = rest)
  /\ match map hex_char (d :: ds) with
     | "_"%char :: rest' => rest'
     | _ => map hex_char (d :: ds)
     end = map hex_char (d :: ds).
Proof.
  intros Hd Hds. split; [|split; [|split]].
  - each_hex_digit Hd; reflexivity.
  - each_hex_digit Hd; try reflexivity.
    destruct ds as [|d1 ds]; [reflexivity|].
    inversion Hds as [|? ? Hd1 _]; subst.
    each_hex_digit Hd1; reflexivity.
  - intros rest. each_hex_digit Hd; reflexivity.
  - each_hex_digit Hd; reflexivity.
Qed.

(** A hexadecimal text is read as its value, with or without [0x]. *)
Lemma py_int_hex_text (ds : list Z) :
  ds <> [] -> Forall hex_digit ds ->
  py_int (hex_text ds) 16 = Returned (digits_value 16 ds)
  /\ py_int (String.append "0x" (hex_text ds)) 16
     = Returned (digits_value 16 ds).
Proof.
  intros Hne Hds.
  pose proof (scan_digits_hex ds Hds 0 0%nat) as Hscan.
  destruct ds as [|d ds]; [congruence|].
  inversion Hds as [|? ? Hd Hds']; subst.
  destruct (hex_head d ds Hd Hds') as (Hsign & H0x & Hus & Hafter).
  unfold py_int, hex_text, chars. split.
  - rewrite list_ascii_of_string_of_list_ascii.
    rewrite Hsign. change (16 =? 16) with true. cbv iota.
    rewrite H0x, Hus, Hscan. reflexivity.
  - cbn [String.append list_ascii_of_string].
    rewrite list_ascii_of_string_of_list_ascii.
    change (lstrip ("0"%char :: "x"%char :: ?r)) with ("0"%char :: "x"%char :: r).
    cbn [strip_sign]. change (16 =? 16) with true. cbv iota.
    cbn [strip_0x]. change (Ascii.eqb "x" "x" || Ascii.eqb "x" "X") with true.
    cbv iota. rewrite Hafter, Hus, Hscan. reflexivity.
Qed.

(** X10: under the modern "Size" and "Language" a text of hexadecimal
    digits (0-9, a-f) is decoded to its value in base 16, and the same text after
    "0x" is decoded to the same value. *)
Theorem hexadecimal_text_with_or_without_prefix (mktime : datetime -> Z)
    (ds : list Z) :
  ds <> [] -> Forall hex_digit ds ->
  forall ed i,
    Amcache10Parser.FileKey_body mktime (ed, i)
      (mkValue "Size" (DStr (hex_text ds)))
    = Returned (AmcacheEventData.set_filesize (digits_value 16 ds) ed, i)
    /\ Amcache10Parser.FileKey_body mktime (ed, i)
         (mkValue "Size" (DStr (String.append "0x" (hex_text ds))))
       = Returned (AmcacheEventData.set_filesize (digits_value 16 ds) ed, i)
    /\ Amcache10Parser.FileKey_body mktime (ed, i)
         (mkValue "Language" (DStr (hex_text ds)))
       = Returned (AmcacheEventData.set_languagecode (digits_value 16 ds) ed, i)
    /\ Amcache10Parser.FileKey_body mktime (ed, i)
         (mkValue "Language" (DStr (String.append "0x" (hex_text ds))))
       = Returned (AmcacheEventData.set_languagecode (digits_value 16 ds) ed, i).
Proof.
  intros Hne Hds ed i.
  destruct (py_int_hex_text ds Hne Hds) as [Hplain Hprefixed].
  unfold Amcache10Parser.FileKey_body. cbn [name GetDataAsObject].
  simpl String.eqb. cbv iota. rewrite !int_format_d_cases.
  cbn [try_except_ValueError format_s bind].
  rewrite Hplain, Hprefixed. repeat split; reflexivity.
Qed.

Lemma hexadecimal_text_with_or_without_prefix_witness :
  Amcache10Parser.FileKey_body timegm (AmcacheEventData.init, None)
    (mkValue "Size" (DStr "0x3400"))
  = Returned (AmcacheEventData.set_filesize 13312 AmcacheEventData.init, None).
Proof.
  refine (proj1 (proj2
            (hexadecimal_text_with_or_without_prefix timegm [3; 4; 0; 0]
               _ _ AmcacheEventData.init None))).
  - discriminate.
  - repeat (apply Forall_cons; [unfold hex_digit; lia|]). apply Forall_nil.
Defined.

(** X11: a LinkDate or InstallDate written [MM/DD/YYYY HH:MM:SS] with
    zero padding, for a date and time that exist (year 1 to 9999), is
    decoded to the seconds since the Epoch of exactly that date and time;
    a modern program key with such an InstallDate alone hands its two
    Installation events to the mediator, and yields them both when the
    last-written time of the key and the seconds of the date are times the
    mediator accepts. *)
Theorem canonical_date_text_is_decoded (mktime : datetime -> Z)
    (t : datetime) :
  valid_datetime t = true ->
  (forall ed i,
     Amcache10Parser.FileKey_body mktime (ed, i)
       (mkValue "LinkDate" (DStr (date_text t)))
     = Returned (ed, Some (mktime t)))
  /\ (forall ed i,
     Amcache10Parser.ProgramKey_body mktime (ed, i)
       (mkValue "InstallDate" (DStr (date_text t)))
     = Returned (ed, Some (mktime t)))
  /\ (forall pm p lwt,
     Amcache10Parser._ProcessAMCacheWin10ProgramKey mktime pm
       (mkKey p lwt [mkValue "InstallDate" (DStr (date_text t))])
     = produce_all
         [(mkEvent lwt TIME_DESCRIPTION_INSTALLATION,
           ProgramData AmcacheProgramEventData.init);
          (mkEvent (PosixTime (mktime t)) TIME_DESCRIPTION_INSTALLATION,
           ProgramData AmcacheProgramEventData.init)] pm)
  /\ (forall pm p lwt,
     accepted (mkEvent lwt TIME_DESCRIPTION_INSTALLATION) = true ->
     accepted (mkEvent (PosixTime (mktime t)) TIME_DESCRIPTION_INSTALLATION)
     = true ->
     Amcache10Parser._ProcessAMCacheWin10ProgramKey mktime pm
       (mkKey p lwt [mkValue "InstallDate" (DStr (date_text t))])
     = (Returned tt,
        pm ++ [(mkEvent lwt TIME_DESCRIPTION_INSTALLATION,
                ProgramData AmcacheProgramEventData.init);
               (mkEvent (PosixTime (mktime t)) TIME_DESCRIPTION_INSTALLATION,
                ProgramData AmcacheProgramEventData.init)])).
Proof.
  intros Hvalid.
  assert (Hne : (date_text t == "") = false) by reflexivity.
  assert (Hseconds : Amcache10Parser.strptime_seconds mktime (date_text t)
                     = Returned (mktime t))
    by (rewrite strptime_seconds_spec, (strptime_date_text t Hvalid);
        reflexivity).
  assert (Hprogram : forall ed i,
     Amcache10Parser.ProgramKey_body mktime (ed, i)
       (mkValue "InstallDate" (DStr (date_text t)))
     = Returned (ed, Some (mktime t))).
  { intros ed i. unfold Amcache10Parser.ProgramKey_body.
    cbn [name GetDataAsObject]. simpl String.eqb. cbv iota.
    cbn [format_s bind]. rewrite Hne. cbn [negb]. rewrite Hseconds.
    reflexivity. }
  assert (Hkey : forall pm p lwt,
     Amcache10Parser._ProcessAMCacheWin10ProgramKey mktime pm
       (mkKey p lwt [mkValue "InstallDate" (DStr (date_text t))])
     = produce_all
         [(mkEvent lwt TIME_DESCRIPTION_INSTALLATION,
           ProgramData AmcacheProgramEventData.init);
          (mkEvent (PosixTime (mktime t)) TIME_DESCRIPTION_INSTALLATION,
           ProgramData AmcacheProgramEventData.init)] pm).
  { intros pm p lwt.
    rewrite (modern_program_produces mktime pm _
               AmcacheProgramEventData.init (Some (mktime t))).
    + reflexivity.
    + cbn [GetValues for_each]. rewrite Hprogram. reflexivity. }
  split; [|split; [|split]].
  - intros ed i. unfold Amcache10Parser.FileKey_body.
    cbn [name GetDataAsObject]. simpl String.eqb. cbv iota.
    cbn [format_s bind]. rewrite Hne. cbn [negb]. rewrite Hseconds.
    reflexivity.
  - exact Hprogram.
  - exact Hkey.
  - intros pm p lwt Hlwt Hdate. rewrite Hkey.
    apply produce_all_accepted. repeat constructor; assumption.
Qed.

Lemma canonical_date_text_is_decoded_witness :
  Amcache10Parser.FileKey_body timegm (AmcacheEventData.init, None)
    (mkValue "LinkDate" (DStr "01/15/2018 10:00:00"))
  = Returned (AmcacheEventData.init, Some 1516010400)
  /\ Amcache10Parser._ProcessAMCacheWin10ProgramKey timegm []
       (modern_program_key
          [mkValue "InstallDate" (DStr "01/15/2018 10:00:00")])
     = (Returned tt,
        [] ++ [(mkEvent a_filetime TIME_DESCRIPTION_INSTALLATION,
                ProgramData AmcacheProgramEventData.init);
               (mkEvent (PosixTime 1516010400) TIME_DESCRIPTION_INSTALLATION,
                ProgramData AmcacheProgramEventData.init)]).
Proof.
  split.
  - apply (proj1 (canonical_date_text_is_decoded timegm
                    (mkDatetime 2018 1 15 10 0 0) eq_refl)).
  - apply (proj2 (proj2 (proj2
             (canonical_date_text_is_decoded timegm
                (mkDatetime 2018 1 15 10 0 0) eq_refl)))
             [] "\Root\InventoryApplication\0000f519feec486d" a_filetime);
      reflexivity.
Defined.
